(** * school_lms_backend: attendance, grading and enrollment handlers

    A shallow embedding of the Express route handlers that aggregate
    attendance and grades and guard course enrollment:

    - [routes/attendance]: POST /mark, GET /student/:studentId,
      GET /class/:classId;
    - [routes/grades]: POST /, PUT /:id;
    - [routes/courses]: POST /:id/enroll.

    JavaScript numbers are IEEE-754 binary64 values, so they are embedded
    as Rocq's primitive floats: [/], [*], [+] and the comparisons are the
    very operations the handlers execute.  The document store is a record
    of collections (lists of documents, in natural order); every handler is
    a function from the store and the request to a response and the next
    store.

    Left out: the [protect] and [checkRole] middleware (a handler takes the
    authenticated [req.user] as an argument), the socket events emitted
    after a write, [populate], the [pagination] block of the list
    responses, and the cast errors of ids and dates that are not
    well-formed (ids are strings; a date is a whole number of
    milliseconds or a date string that [new Date] reads).  The time zone
    of the process, which decides what a calendar day is, is an argument
    of the handler that reads it. *)

From Stdlib Require Import ZArith Floats String Ascii List Bool Lia.
From Stdlib Require Import DecimalString.
Import ListNotations.

Local Open Scope string_scope.

(** ** JavaScript numbers *)

Module Js.

Definition number := float.

(** [a >= b], [a > b], [a < b] and [a <= b] on numbers: false as soon as
    one side is NaN. *)
Definition ge (a b : number) : bool := PrimFloat.leb b a.
Definition gt (a b : number) : bool := PrimFloat.ltb b a.
Definition lt (a b : number) : bool := PrimFloat.ltb a b.
Definition le (a b : number) : bool := PrimFloat.leb a b.

(** An integer as a number (exact below 2^53). *)
Definition of_Z (n : Z) : number :=
  if (n <? 0)%Z
  then PrimFloat.opp (PrimFloat.of_uint63 (Uint63.of_Z (- n)))
  else PrimFloat.of_uint63 (Uint63.of_Z n).

(** The [length] of an array as a number. *)
Definition of_nat (n : nat) : number := of_Z (Z.of_nat n).

(** [Math.round]: the integer nearest to [x], a tie going to the larger
    one; NaN, the infinities and the zeros are returned as they are, and
    a result of zero keeps the sign of [x].  The value of a finite number
    is read off its mantissa and exponent, so the rounding is exact. *)
Definition Math_round (x : number) : number :=
  match Prim2SF x with
  | S754_finite s m e =>
      if (0 <=? e)%Z then x
      else
        let d := (2 ^ (- e))%Z in
        let v := if s then Z.neg m else Z.pos m in
        let n := ((2 * v + d) / (2 * d))%Z in
        if (n =? 0)%Z then (if s then (-0)%float else 0%float)
        else of_Z n
  | _ => x
  end.

(** A string used as a condition: [undefined] and the empty string are
    falsy. *)
Definition truthy (s : option string) : bool :=
  match s with
  | Some (String _ _) => true
  | _ => false
  end.

(** [x !== undefined]. *)
Definition defined {A} (x : option A) : bool :=
  match x with Some _ => true | None => false end.

(** A non-negative integer inside a template literal. *)
Definition show_nat (n : nat) : string :=
  NilEmpty.string_of_uint (Nat.to_uint n).

(** [arr.includes(x)] on an array of ids. *)
Definition includes (arr : list string) (x : string) : bool :=
  existsb (String.eqb x) arr.

End Js.

(** ** Documents and the record store *)

Definition ObjectId := string.

(** [req.user], as set by the [protect] middleware. *)
Record User := mkUser {
  user_id : ObjectId;
  user_role : string
}.

Record StudentDoc := mkStudent {
  student_oid : ObjectId;
  student_user : ObjectId;
  student_class : ObjectId;
  student_section : ObjectId;
  student_parent : option ObjectId
}.

Record TeacherDoc := mkTeacher {
  teacher_oid : ObjectId;
  teacher_user : ObjectId
}.

Record CourseDoc := mkCourse {
  course_oid : ObjectId;
  course_instructor : ObjectId;
  enrolledStudents : list ObjectId;
  maxEnrollment : option nat
}.

(** models/Attendance.js: the two enumerations of the schema. *)
Inductive Status := present | absent | late | excused.
Inductive Method := manual | biometric | gps.

Record AttendanceDoc := mkAttendance {
  att_oid : nat;               (* _id, generated by the store *)
  att_student : ObjectId;
  att_course : ObjectId;
  att_date : Z;                (* milliseconds since the epoch *)
  att_status : Status;
  att_method : Method;
  att_markedBy : ObjectId
}.

(** models/Grade.js. *)
Inductive GradeType := gt_assignment | gt_quiz | gt_exam | gt_participation.

Record GradeDoc := mkGrade {
  grade_oid : ObjectId;
  grade_student : ObjectId;
  grade_course : ObjectId;
  grade_assignment : option ObjectId;
  grade_quiz : option ObjectId;
  gradeType : GradeType;
  pointsEarned : option Js.number;
  maxPoints : option Js.number;
  percentage : option Js.number;
  letterGrade : option string;
  feedback : option string;
  gradedBy : ObjectId
}.

(** An assignment or a quiz, as far as the grade routes read it: its id
    and the course it belongs to. *)
Record CourseItem := mkItem {
  item_oid : ObjectId;
  item_course : ObjectId
}.

Record Store := mkStore {
  students : list StudentDoc;
  teachers : list TeacherDoc;
  courses : list CourseDoc;
  assignments : list CourseItem;
  quizzes : list CourseItem;
  attendance : list AttendanceDoc;
  grades : list GradeDoc
}.

(** What a handler sends back.  [Thrown] is an exception that leaves the
    handler: [asyncHandler] passes it on to the application's error
    middleware. *)
Inductive Response (A : Type) : Type :=
| Ok200 (data : A)
| Created201 (data : A)
| BadRequest400 (message : string)
| Forbidden403 (message : string)
| NotFound404 (message : string)
| Thrown.

Arguments Ok200 {A} data.
Arguments Created201 {A} data.
Arguments BadRequest400 {A} message.
Arguments Forbidden403 {A} message.
Arguments NotFound404 {A} message.
Arguments Thrown {A}.

(** The payload of a response, when it carries one. *)
Definition payload {A} (r : Response A) : option A :=
  match r with
  | Ok200 d | Created201 d => Some d
  | _ => None
  end.

(** *** Queries *)

Definition Student_findById (st : Store) (id : ObjectId) : option StudentDoc :=
  find (fun s => String.eqb (student_oid s) id) (students st).

Definition Teacher_findOne_user (st : Store) (uid : ObjectId) : option TeacherDoc :=
  find (fun t => String.eqb (teacher_user t) uid) (teachers st).

Definition Course_findById (st : Store) (id : ObjectId) : option CourseDoc :=
  find (fun c => String.eqb (course_oid c) id) (courses st).

Definition Assignment_findById (st : Store) (id : ObjectId) : option CourseItem :=
  find (fun a => String.eqb (item_oid a) id) (assignments st).

Definition Quiz_findById (st : Store) (id : ObjectId) : option CourseItem :=
  find (fun a => String.eqb (item_oid a) id) (quizzes st).

Definition Grade_findById (st : Store) (id : ObjectId) : option GradeDoc :=
  find (fun g => String.eqb (grade_oid g) id) (grades st).

(** ** routes/grades *)

Module Grades.

Import Js.
Local Open Scope float_scope.

(** The threshold cascade that POST / and PUT /:id both spell out. *)
Definition deriveLetterGrade (percentage : number) : string :=
  if ge percentage 90 then "A+"
  else if ge percentage 85 then "A"
  else if ge percentage 80 then "A-"
  else if ge percentage 75 then "B+"
  else if ge percentage 70 then "B"
  else if ge percentage 65 then "B-"
  else if ge percentage 60 then "C+"
  else if ge percentage 55 then "C"
  else if ge percentage 50 then "C-"
  else if ge percentage 45 then "D"
  else "F".

(** [(pointsEarned / maxPoints) * 100]. *)
Definition computePercentage (points max : number) : number :=
  (points / max) * 100.

(** The cast of a value to a [Number] path: a path that is not set
    passes, NaN is refused. *)
Definition castsToNumber (x : option number) : bool :=
  match x with
  | Some v => negb (PrimFloat.is_nan v)
  | None => true
  end.

(** models/Grade.js, as [Grade.create] and [grade.save] enforce it on the
    numbers: both operands required, [pointsEarned] at least 0 and
    [maxPoints] at least 1 (which NaN is not), and a [percentage] that is
    a number. *)
Definition schemaValid (g : GradeDoc) : bool :=
  match pointsEarned g, maxPoints g with
  | Some p, Some m => le 0 p && le 1 m && castsToNumber (percentage g)
  | _, _ => false
  end.

Definition parseGradeType (s : string) : option GradeType :=
  if String.eqb s "assignment" then Some gt_assignment
  else if String.eqb s "quiz" then Some gt_quiz
  else if String.eqb s "exam" then Some gt_exam
  else if String.eqb s "participation" then Some gt_participation
  else None.

(** [grade.save()]: the document replaces the stored one of the same id;
    [None] is a validation error. *)
Definition Grade_save (st : Store) (g : GradeDoc) : option Store :=
  if schemaValid g then
    Some {| students := students st; teachers := teachers st;
            courses := courses st; assignments := assignments st;
            quizzes := quizzes st; attendance := attendance st;
            grades := map (fun g0 => if String.eqb (grade_oid g0) (grade_oid g)
                                     then g else g0) (grades st) |}
  else None.

(** [Grade.create(doc)]. *)
Definition Grade_create (st : Store) (g : GradeDoc) : option Store :=
  if schemaValid g then
    Some {| students := students st; teachers := teachers st;
            courses := courses st; assignments := assignments st;
            quizzes := quizzes st; attendance := attendance st;
            grades := grades st ++ [g] |}
  else None.

(** The body of POST /api/grades. *)
Record GradeBody := mkGradeBody {
  b_student : option ObjectId;
  b_course : option ObjectId;
  b_assignment : option ObjectId;
  b_quiz : option ObjectId;
  b_gradeType : option string;
  b_pointsEarned : option number;
  b_maxPoints : option number;
  b_feedback : option string;
  b_gradedBy : option ObjectId
}.

(** [if (ref) { doc = await M.findById(ref);
                if (!doc || !doc.course.equals(course)) return 400 }]:
    true when the handler goes on. *)
Definition belongsToCourse (lookup : ObjectId -> option CourseItem)
    (ref : option ObjectId) (course : ObjectId) : bool :=
  if truthy ref then
    match ref with
    | Some id =>
        match lookup id with
        | Some doc => String.eqb (item_course doc) course
        | None => false
        end
    | None => true
    end
  else true.

(** The teacher gate of POST / and PUT /:id: [Some r] answers [r].  In PUT
    the course may be gone ([None]); reading its instructor then throws. *)
Definition teacherGate (st : Store) (user : User) (courseDoc : option CourseDoc)
    (message : string) : option (Response GradeDoc) :=
  if String.eqb (user_role user) "teacher" then
    match Teacher_findOne_user st (user_id user) with
    | None => Some (Forbidden403 message)
    | Some teacher =>
        match courseDoc with
        | None => Some Thrown
        | Some c =>
            if String.eqb (course_instructor c) (teacher_oid teacher) then None
            else Some (Forbidden403 message)
        end
    end
  else None.

(** POST /api/grades (after [protect] and [checkRole('teacher','admin')]).
    [oid] is the id the driver gives the new document. *)
Definition createGrade (st : Store) (user : User) (body : GradeBody)
    (oid : ObjectId) : Response GradeDoc * Store :=
  match b_student body, b_course body, b_gradeType body,
        b_pointsEarned body, b_maxPoints body with
  | Some (String _ _ as student), Some (String _ _ as course),
    Some (String _ _ as gtype), Some points, Some max =>
      if lt points 0 || gt points max then
        (BadRequest400 "Points earned must be between 0 and max points", st)
      else
      match Student_findById st student with
      | None => (NotFound404 "Student not found", st)
      | Some _ =>
      match Course_findById st course with
      | None => (BadRequest400 "Student is not enrolled in this course", st)
      | Some courseDoc =>
      if negb (includes (enrolledStudents courseDoc) student) then
        (BadRequest400 "Student is not enrolled in this course", st)
      else if negb (belongsToCourse (Assignment_findById st) (b_assignment body) course) then
        (BadRequest400 "Assignment not found or does not belong to this course", st)
      else if negb (belongsToCourse (Quiz_findById st) (b_quiz body) course) then
        (BadRequest400 "Quiz not found or does not belong to this course", st)
      else
      let percentage := computePercentage points max in
      let letter := deriveLetterGrade percentage in
      match teacherGate st user (Some courseDoc)
              "Not authorized to grade for this course" with
      | Some r => (r, st)
      | None =>
      let grader :=
        if String.eqb (user_role user) "admin" then b_gradedBy body
        else option_map teacher_oid (Teacher_findOne_user st (user_id user)) in
      match grader, parseGradeType gtype with
      | Some by_, Some ty =>
          let grade :=
            {| grade_oid := oid; grade_student := student;
               grade_course := course;
               grade_assignment := b_assignment body;
               grade_quiz := b_quiz body; gradeType := ty;
               pointsEarned := Some points; maxPoints := Some max;
               percentage := Some percentage; letterGrade := Some letter;
               feedback := b_feedback body; gradedBy := by_ |} in
          match Grade_create st grade with
          | Some st' => (Created201 grade, st')
          | None => (Thrown, st)
          end
      | _, _ => (Thrown, st)
      end
      end
      end
      end
  | _, _, _, _, _ =>
      (BadRequest400
         "Please provide required fields: student, course, gradeType, pointsEarned, maxPoints",
       st)
  end.

(** The body of PUT /api/grades/:id. *)
Record GradeUpdate := mkGradeUpdate {
  u_pointsEarned : option number;
  u_maxPoints : option number;
  u_feedback : option string
}.

(** [pointsEarned > maxPoints] with [maxPoints] read from the body: an
    absent [maxPoints] is [undefined], which compares as NaN. *)
Definition gt_body (points : number) (max : option number) : bool :=
  match max with
  | Some m => gt points m
  | None => false
  end.

Definition set_pointsEarned (g : GradeDoc) (p : number) : GradeDoc :=
  {| grade_oid := grade_oid g; grade_student := grade_student g;
     grade_course := grade_course g; grade_assignment := grade_assignment g;
     grade_quiz := grade_quiz g; gradeType := gradeType g;
     pointsEarned := Some p; maxPoints := maxPoints g;
     percentage := percentage g; letterGrade := letterGrade g;
     feedback := feedback g; gradedBy := gradedBy g |}.

Definition set_maxPoints (g : GradeDoc) (m : number) : GradeDoc :=
  {| grade_oid := grade_oid g; grade_student := grade_student g;
     grade_course := grade_course g; grade_assignment := grade_assignment g;
     grade_quiz := grade_quiz g; gradeType := gradeType g;
     pointsEarned := pointsEarned g; maxPoints := Some m;
     percentage := percentage g; letterGrade := letterGrade g;
     feedback := feedback g; gradedBy := gradedBy g |}.

Definition set_derived (g : GradeDoc) (pct : number) (letter : string) : GradeDoc :=
  {| grade_oid := grade_oid g; grade_student := grade_student g;
     grade_course := grade_course g; grade_assignment := grade_assignment g;
     grade_quiz := grade_quiz g; gradeType := gradeType g;
     pointsEarned := pointsEarned g; maxPoints := maxPoints g;
     percentage := Some pct; letterGrade := Some letter;
     feedback := feedback g; gradedBy := gradedBy g |}.

Definition set_feedback (g : GradeDoc) (f : string) : GradeDoc :=
  {| grade_oid := grade_oid g; grade_student := grade_student g;
     grade_course := grade_course g; grade_assignment := grade_assignment g;
     grade_quiz := grade_quiz g; gradeType := gradeType g;
     pointsEarned := pointsEarned g; maxPoints := maxPoints g;
     percentage := percentage g; letterGrade := letterGrade g;
     feedback := Some f; gradedBy := gradedBy g |}.

(** [if (pointsEarned !== undefined) { ... grade.pointsEarned = pointsEarned }]:
    the patched document, or the 400 that ends the request. *)
Definition patchPoints (body : GradeUpdate) (g : GradeDoc) : string + GradeDoc :=
  match u_pointsEarned body with
  | Some p =>
      if lt p 0 || gt_body p (u_maxPoints body)
      then inl "Points earned must be between 0 and max points"
      else inr (set_pointsEarned g p)
  | None => inr g
  end.

(** [if (maxPoints !== undefined) { ... grade.maxPoints = maxPoints }]. *)
Definition patchMax (body : GradeUpdate) (g : GradeDoc) : string + GradeDoc :=
  match u_maxPoints body with
  | Some m =>
      if le m 0 then inl "Max points must be greater than 0"
      else inr (set_maxPoints g m)
  | None => inr g
  end.

(** [if (grade.pointsEarned !== undefined && grade.maxPoints !== undefined)
     { grade.percentage = ...; grade.letterGrade = ... }]. *)
Definition recompute (g : GradeDoc) : GradeDoc :=
  match pointsEarned g, maxPoints g with
  | Some p, Some m =>
      let pct := computePercentage p m in
      set_derived g pct (deriveLetterGrade pct)
  | _, _ => g
  end.

Definition patchFeedback (body : GradeUpdate) (g : GradeDoc) : GradeDoc :=
  match u_feedback body with
  | Some f => set_feedback g f
  | None => g
  end.

(** PUT /api/grades/:id (after [protect] and [checkRole('teacher','admin')]). *)
Definition updateGrade (st : Store) (user : User) (id : ObjectId)
    (body : GradeUpdate) : Response GradeDoc * Store :=
  match Grade_findById st id with
  | None => (NotFound404 "Grade not found", st)
  | Some grade =>
      let courseDoc := Course_findById st (grade_course grade) in
      match teacherGate st user courseDoc "Not authorized to update this grade" with
      | Some r => (r, st)
      | None =>
          match patchPoints body grade with
          | inl message => (BadRequest400 message, st)
          | inr g1 =>
              match patchMax body g1 with
              | inl message => (BadRequest400 message, st)
              | inr g2 =>
                  let g3 := patchFeedback body (recompute g2) in
                  match Grade_save st g3 with
                  | Some st' => (Ok200 g3, st')
                  | None => (Thrown, st)
                  end
              end
          end
      end
  end.

End Grades.

(** ** routes/attendance *)

Module Attendance.

Import Js.
Local Open Scope float_scope.

(** *** The Attendance collection *)

Definition parseStatus (s : string) : option Status :=
  if String.eqb s "present" then Some present
  else if String.eqb s "absent" then Some absent
  else if String.eqb s "late" then Some late
  else if String.eqb s "excused" then Some excused
  else None.

Definition parseMethod (s : string) : option Method :=
  if String.eqb s "manual" then Some manual
  else if String.eqb s "biometric" then Some biometric
  else if String.eqb s "gps" then Some gps
  else None.

(** What the store throws on [Attendance.create]: a schema validation
    error on a path, or a duplicate key of the unique index
    [{student, date, course}]. *)
Inductive StoreError :=
| ValidationError (path : string)
| DuplicateKey.

Definition msPerDay : Z := 86400000.
Definition msPerHour : Z := 3600000.

(** The time zone of the process, as the [Date] methods read it: the
    offset of local time from UTC, in milliseconds, at an instant
    ([LocalTZA(t, true)]) and at a local time ([LocalTZA(t, false)]; a
    local time that a transition skips or repeats is read with the offset
    from before the transition). *)
Record TimeZone := mkZone {
  offsetAtInstant : Z -> Z;
  offsetAtLocal : Z -> Z
}.

(** A zone that is always [offset] milliseconds ahead of UTC. *)
Definition fixedZone (offset : Z) : TimeZone :=
  {| offsetAtInstant := fun _ => offset; offsetAtLocal := fun _ => offset |}.

Definition LocalTime (tz : TimeZone) (t : Z) : Z := (t + offsetAtInstant tz t)%Z.
Definition UTC (tz : TimeZone) (t : Z) : Z := (t - offsetAtLocal tz t)%Z.
Definition Day (t : Z) : Z := (t / msPerDay)%Z.

(** [new Date(date).setHours(hour, 0, 0, 0)]: the local day of [date] at
    [hour] o'clock, read back as an instant. *)
Definition setHours (tz : TimeZone) (date hour : Z) : Z :=
  UTC tz (Day (LocalTime tz date) * msPerDay + hour * msPerHour)%Z.

(** [new Date(date).setHours(0, 0, 0, 0)] and [setHours(24, 0, 0, 0)]: on
    the day of a change of offset the two are 23 or 25 hours apart. *)
Definition startOfDay (tz : TimeZone) (date : Z) : Z := setHours tz date 0.
Definition endOfDay (tz : TimeZone) (date : Z) : Z := setHours tz date 24.

(** The filter [{student, course, date: {$gte: start of day, $lt: end of day}}]. *)
Definition sameDay (tz : TimeZone) (student course : ObjectId) (date : Z)
    (a : AttendanceDoc) : bool :=
  String.eqb (att_student a) student && String.eqb (att_course a) course
  && (startOfDay tz date <=? att_date a)%Z && (att_date a <? endOfDay tz date)%Z.

Definition Attendance_findOne (tz : TimeZone) (st : Store) (student course : ObjectId)
    (date : Z) : option AttendanceDoc :=
  find (sameDay tz student course date) (attendance st).

(** The unique index of models/Attendance.js. *)
Definition sameKey (student course : ObjectId) (date : Z) (a : AttendanceDoc) : bool :=
  String.eqb (att_student a) student && (att_date a =? date)%Z
  && String.eqb (att_course a) course.

(** The id the store gives the next attendance document. *)
Definition freshOid (st : Store) : nat :=
  S (fold_right (fun a m => Nat.max (att_oid a) m) 0%nat (attendance st)).

Definition Attendance_create (st : Store) (student course : ObjectId) (date : Z)
    (status method markedBy : string) : StoreError + (Store * AttendanceDoc) :=
  match parseStatus status with
  | None => inl (ValidationError "status")
  | Some s =>
      match parseMethod method with
      | None => inl (ValidationError "method")
      | Some m =>
          if existsb (sameKey student course date) (attendance st)
          then inl DuplicateKey
          else
            let doc := {| att_oid := freshOid st; att_student := student;
                          att_course := course; att_date := date;
                          att_status := s; att_method := m;
                          att_markedBy := markedBy |} in
            inr ({| students := students st; teachers := teachers st;
                    courses := courses st; assignments := assignments st;
                    quizzes := quizzes st;
                    attendance := attendance st ++ [doc];
                    grades := grades st |}, doc)
      end
  end.

(** *** POST /api/attendance/mark *)

(** The [date] of a record: a number of milliseconds, or a date string
    that is not empty, with the instant that [new Date] reads from it. *)
Inductive DateValue :=
| DateNumber (ms : Z)
| DateString (instant : Z).

(** [new Date(date)]. *)
Definition instantOf (date : DateValue) : Z :=
  match date with
  | DateNumber ms => ms
  | DateString instant => instant
  end.

(** A date used as a condition: [undefined] and the number 0 are falsy. *)
Definition truthyDate (date : option DateValue) : bool :=
  match date with
  | Some (DateNumber ms) => negb (ms =? 0)%Z
  | Some (DateString _) => true
  | None => false
  end.

(** One element of [attendanceRecords]. *)
Record AttendanceInput := mkInput {
  r_student : option ObjectId;
  r_course : option ObjectId;
  r_date : option DateValue;
  r_status : option string;
  r_method : option string
}.

Inductive ResultStatus := marked | already_marked.

(** [{...record, attendanceId, status}]. *)
Record ResultItem := mkResult {
  res_record : AttendanceInput;
  res_status : ResultStatus;
  res_attendanceId : nat
}.

Inductive ErrorText :=
| Message (text : string)
| Caught (e : StoreError).

(** [{record, error}]. *)
Record ErrorItem := mkError {
  err_record : AttendanceInput;
  err_error : ErrorText
}.

(** The state of the loop: the store and the two arrays being filled. *)
Record Batch := mkBatch {
  batch_store : Store;
  results : list ResultItem;
  errors : list ErrorItem
}.

Definition pushResult (b : Batch) (st : Store) (r : ResultItem) : Batch :=
  {| batch_store := st; results := results b ++ [r]; errors := errors b |}.

Definition pushError (b : Batch) (e : ErrorItem) : Batch :=
  {| batch_store := batch_store b; results := results b; errors := errors b ++ [e] |}.

(** One turn of [for (const record of attendanceRecords) { try ... catch ... }]. *)
Definition markOne (tz : TimeZone) (user : User) (b : Batch)
    (record : AttendanceInput) : Batch :=
  let st := batch_store b in
  let method := match r_method record with Some m => m | None => "manual" end in
  match r_student record, r_course record, r_date record, r_status record with
  | Some (String _ _ as student), Some (String _ _ as course), Some dateValue,
    Some (String _ _ as status) =>
      if negb (truthyDate (Some dateValue)) then
        pushError b {| err_record := record;
                       err_error := Message "Missing required fields: student, course, date, status" |}
      else
      let date := instantOf dateValue in
      match Course_findById st course with
      | None =>
          pushError b {| err_record := record;
                         err_error := Message "Student is not enrolled in this course" |}
      | Some courseDoc =>
          if negb (includes (enrolledStudents courseDoc) student) then
            pushError b {| err_record := record;
                           err_error := Message "Student is not enrolled in this course" |}
          else
            match Attendance_findOne tz st student course date with
            | Some existing =>
                pushResult b st {| res_record := record;
                                   res_status := already_marked;
                                   res_attendanceId := att_oid existing |}
            | None =>
                match Attendance_create st student course date status method
                        (user_id user) with
                | inr (st', doc) =>
                    pushResult b st' {| res_record := record;
                                        res_status := marked;
                                        res_attendanceId := att_oid doc |}
                | inl e =>
                    pushError b {| err_record := record; err_error := Caught e |}
                end
            end
      end
  | _, _, _, _ =>
      pushError b {| err_record := record;
                     err_error := Message "Missing required fields: student, course, date, status" |}
  end.

(** [const results = []; const errors = [];] over the store of the request. *)
Definition emptyBatch (st : Store) : Batch :=
  {| batch_store := st; results := []; errors := [] |}.

(** [for (const record of attendanceRecords) { ... }]. *)
Definition markAll (tz : TimeZone) (user : User) (records : list AttendanceInput)
    (b : Batch) : Batch :=
  fold_left (markOne tz user) records b.

Record MarkData := mkMarkData {
  md_results : list ResultItem;
  md_errors : list ErrorItem;
  processed : nat;
  failed : nat
}.

(** The handler (after [protect] and [checkRole('admin','teacher')]).  A
    body whose [attendanceRecords] is not an array is [None]. *)
Definition markAttendance (tz : TimeZone) (st : Store) (user : User)
    (attendanceRecords : option (list AttendanceInput)) : Response MarkData * Store :=
  match attendanceRecords with
  | None | Some [] => (BadRequest400 "Please provide attendance records", st)
  | Some records =>
      let b := markAll tz user records (emptyBatch st) in
      (Ok200 {| md_results := results b; md_errors := errors b;
                processed := length (results b); failed := length (errors b) |},
       batch_store b)
  end.

(** *** GET /api/attendance/student/:studentId *)

Record StudentQuery := mkStudentQuery {
  q_startDate : option Z;
  q_endDate : option Z;
  q_course : option ObjectId;
  q_page : nat;
  q_limit : nat
}.

(** The role and ownership test of the handler: [true] when it answers 403. *)
Definition accessDenied (user : User) (student : StudentDoc) : bool :=
  if negb (String.eqb (user_role user) "admin") then
    if String.eqb (user_role user) "student"
       && negb (String.eqb (student_user student) (user_id user)) then true
    else if String.eqb (user_role user) "parent"
       && match student_parent student with
          | Some p => negb (String.eqb p (user_id user))
          | None => false
          end then true
    else false
  else false.

(** [{student, course?, date: {$gte?, $lte?}}]. *)
Definition matchesQuery (studentId : ObjectId) (q : StudentQuery)
    (a : AttendanceDoc) : bool :=
  String.eqb (att_student a) studentId
  && (if truthy (q_course q)
      then match q_course q with
           | Some c => String.eqb (att_course a) c
           | None => true
           end
      else true)
  && match q_startDate q with Some d => (d <=? att_date a)%Z | None => true end
  && match q_endDate q with Some d => (att_date a <=? d)%Z | None => true end.

Definition Attendance_find (st : Store) (p : AttendanceDoc -> bool) : list AttendanceDoc :=
  filter p (attendance st).

(** [.sort({date: -1})]. *)
Fixpoint insertByDate (a : AttendanceDoc) (l : list AttendanceDoc) : list AttendanceDoc :=
  match l with
  | [] => [a]
  | b :: l' => if (att_date b <? att_date a)%Z then a :: l
               else b :: insertByDate a l'
  end.

Definition sortByDateDesc (l : list AttendanceDoc) : list AttendanceDoc :=
  fold_right insertByDate [] l.

(** [.limit(limit).skip((page - 1) * limit)]; a limit of 0 is no limit. *)
Definition paginate (page limit : nat) (l : list AttendanceDoc) : list AttendanceDoc :=
  let rest := skipn ((page - 1) * limit) l in
  if Nat.eqb limit 0 then rest else firstn limit rest.

Record Statistics := mkStatistics {
  total : nat;
  stat_present : nat;
  stat_absent : Z;
  attendanceRate : number
}.

Definition isPresent (a : AttendanceDoc) : bool :=
  match att_status a with present => true | _ => false end.

(** "Calculate attendance statistics". *)
Definition statisticsOf (allRecords : list AttendanceDoc) : Statistics :=
  let presentCount := length (filter isPresent allRecords) in
  let totalCount := length allRecords in
  let rate :=
    if Nat.ltb 0 totalCount
    then Math_round ((of_nat presentCount / of_nat totalCount) * 100)
    else 0 in
  {| total := totalCount; stat_present := presentCount;
     stat_absent := (Z.of_nat totalCount - Z.of_nat presentCount)%Z;
     attendanceRate := rate |}.

Record StudentAttendance := mkStudentAttendance {
  attendanceRecords : list AttendanceDoc;
  statistics : Statistics
}.

(** The handler (after [protect]).  A page of 0 with a positive limit asks
    the store for a negative skip, which it refuses. *)
Definition getStudentAttendance (st : Store) (user : User) (studentId : ObjectId)
    (q : StudentQuery) : Response StudentAttendance :=
  match Student_findById st studentId with
  | None => NotFound404 "Student not found"
  | Some student =>
      if accessDenied user student then
        Forbidden403 "Not authorized to view this student's attendance"
      else if Nat.eqb (q_page q) 0 && negb (Nat.eqb (q_limit q) 0) then Thrown
      else
        let all := Attendance_find st (matchesQuery studentId q) in
        Ok200 {| attendanceRecords :=
                   paginate (q_page q) (q_limit q) (sortByDateDesc all);
                 statistics := statisticsOf all |}
  end.

(** *** GET /api/attendance/class/:classId *)

Record ClassQuery := mkClassQuery {
  c_startDate : option Z;
  c_endDate : option Z;
  c_section : option ObjectId
}.

Record ClassStatistics := mkClassStatistics {
  cs_total : nat;
  cs_present : nat;
  cs_absent : nat;
  cs_rate : number
}.

Record StudentData := mkStudentData {
  sd_student : option StudentDoc;
  sd_records : list AttendanceDoc;
  sd_statistics : ClassStatistics
}.

(** A JavaScript object with string keys: the keys in insertion order. *)
Definition Obj (V : Type) := list (string * V).

Fixpoint obj_get {V} (o : Obj V) (k : string) : option V :=
  match o with
  | [] => None
  | (k0, v) :: o' => if String.eqb k0 k then Some v else obj_get o' k
  end.

(** [o[k] = v]: an existing key keeps its place. *)
Fixpoint obj_set {V} (o : Obj V) (k : string) (v : V) : Obj V :=
  match o with
  | [] => [(k, v)]
  | (k0, v0) :: o' => if String.eqb k0 k then (k0, v) :: o'
                      else (k0, v0) :: obj_set o' k v
  end.

Definition obj_values {V} (o : Obj V) : list V := map snd o.

(** [Student.find({class, section?})]. *)
Definition Student_find_class (st : Store) (classId : ObjectId)
    (section : option ObjectId) : list StudentDoc :=
  filter (fun s =>
            String.eqb (student_class s) classId
            && (if truthy section
                then match section with
                     | Some sec => String.eqb (student_section s) sec
                     | None => true
                     end
                else true))
         (students st).

(** [{student: {$in: studentIds}, date: {$gte?, $lte?}}]. *)
Definition matchesClass (studentIds : list ObjectId) (q : ClassQuery)
    (a : AttendanceDoc) : bool :=
  includes studentIds (att_student a)
  && match c_startDate q with Some d => (d <=? att_date a)%Z | None => true end
  && match c_endDate q with Some d => (att_date a <=? d)%Z | None => true end.

(** [studentIds.forEach(studentId => attendanceByStudent[studentId] = {...})]. *)
Definition blankEntry (studs : list StudentDoc) (studentId : ObjectId) : StudentData :=
  {| sd_student := find (fun s => String.eqb (student_oid s) studentId) studs;
     sd_records := [];
     sd_statistics := {| cs_total := 0; cs_present := 0; cs_absent := 0;
                         cs_rate := 0 |} |}.

Definition initEntry (studs : list StudentDoc) (o : Obj StudentData)
    (studentId : ObjectId) : Obj StudentData :=
  obj_set o studentId (blankEntry studs studentId).

(** The body of [attendanceRecords.forEach(record => ...)] on the entry of
    the record's student. *)
Definition addRecord (d : StudentData) (record : AttendanceDoc) : StudentData :=
  let s := sd_statistics d in
  {| sd_student := sd_student d;
     sd_records := sd_records d ++ [record];
     sd_statistics :=
       {| cs_total := cs_total s + 1;
          cs_present := if isPresent record then cs_present s + 1
                        else cs_present s;
          cs_absent := if isPresent record then cs_absent s
                       else cs_absent s + 1;
          cs_rate := cs_rate s |} |}.

(** [attendanceRecords.forEach(record => { if (attendanceByStudent[id]) ... })]:
    one record is filed under its student. *)
Definition fileRecord (o : Obj StudentData) (record : AttendanceDoc) : Obj StudentData :=
  let studentId := att_student record in
  match obj_get o studentId with
  | Some d => obj_set o studentId (addRecord d record)
  | None => o
  end.

(** "Calculate attendance rates". *)
Definition setRate (d : StudentData) : StudentData :=
  let s := sd_statistics d in
  if Nat.ltb 0 (cs_total s) then
    {| sd_student := sd_student d; sd_records := sd_records d;
       sd_statistics :=
         {| cs_total := cs_total s; cs_present := cs_present s;
            cs_absent := cs_absent s;
            cs_rate := Math_round ((of_nat (cs_present s) / of_nat (cs_total s)) * 100) |} |}
  else d.

Definition hasRecords (d : StudentData) : bool := Nat.ltb 0 (cs_total (sd_statistics d)).

(** "Calculate class average". *)
Definition classAverageOf (o : Obj StudentData) : number :=
  let allRates := map (fun d => cs_rate (sd_statistics d))
                      (filter hasRecords (obj_values o)) in
  if Nat.ltb 0 (length allRates)
  then Math_round (fold_left (fun sum rate => sum + rate) allRates 0
                   / of_nat (length allRates))
  else 0.

Record ClassSummary := mkClassSummary {
  totalStudents : nat;
  studentsWithAttendance : nat;
  classAverage : number
}.

Record ClassAttendance := mkClassAttendance {
  attendanceByStudent : Obj StudentData;
  classSummary : ClassSummary
}.

(** The handler (after [protect]). *)
Definition getClassAttendance (st : Store) (classId : ObjectId) (q : ClassQuery)
    : Response ClassAttendance :=
  let studs := Student_find_class st classId (c_section q) in
  let studentIds := map student_oid studs in
  let records := Attendance_find st (matchesClass studentIds q) in
  let o0 := fold_left (initEntry studs) studentIds [] in
  let o1 := fold_left fileRecord records o0 in
  let o2 := map (fun kv => (fst kv, setRate (snd kv))) o1 in
  Ok200 {| attendanceByStudent := o2;
           classSummary :=
             {| totalStudents := length studentIds;
                studentsWithAttendance := length (filter hasRecords (obj_values o2));
                classAverage := classAverageOf o2 |} |}.

End Attendance.

(** ** routes/courses *)

Module Courses.

Import Js.

Inductive EnrollData :=
| AlreadyEnrolled (course : CourseDoc)
| Enrolled (message : string) (course : CourseDoc) (newlyEnrolled : list ObjectId).

(** [course.save()] after [course.enrolledStudents = ...]. *)
Definition Course_save (st : Store) (c : CourseDoc) : Store :=
  {| students := students st; teachers := teachers st;
     courses := map (fun c0 => if String.eqb (course_oid c0) (course_oid c)
                               then c else c0) (courses st);
     assignments := assignments st; quizzes := quizzes st;
     attendance := attendance st; grades := grades st |}.

(** [course.maxEnrollment && (enrolled + incoming) > course.maxEnrollment]. *)
Definition overCapacity (course : CourseDoc) (incoming : list ObjectId) : bool :=
  match maxEnrollment course with
  | Some m => negb (Nat.eqb m 0)
              && Nat.ltb m (length (enrolledStudents course) + length incoming)
  | None => false
  end.

(** [students.filter(s => !course.enrolledStudents.includes(s))]. *)
Definition newcomers (course : CourseDoc) (studs : list ObjectId) : list ObjectId :=
  filter (fun s => negb (includes (enrolledStudents course) s)) studs.

(** [course.enrolledStudents = [...course.enrolledStudents, ...newStudents]]. *)
Definition withNewcomers (course : CourseDoc) (studs : list ObjectId) : CourseDoc :=
  {| course_oid := course_oid course;
     course_instructor := course_instructor course;
     enrolledStudents := (enrolledStudents course ++ newcomers course studs)%list;
     maxEnrollment := maxEnrollment course |}.

(** POST /api/courses/:id/enroll (after [protect] and
    [checkRole('admin','teacher')]).  A body whose [students] is not an
    array is [None]. *)
Definition enroll (st : Store) (id : ObjectId) (body : option (list ObjectId))
    : Response EnrollData * Store :=
  match body with
  | None | Some [] => (BadRequest400 "Please provide an array of student IDs", st)
  | Some studs =>
      match Course_findById st id with
      | None => (NotFound404 "Course not found", st)
      | Some course =>
          if overCapacity course studs then
            (BadRequest400
               ("Cannot enroll more than "
                ++ match maxEnrollment course with
                   | Some m => show_nat m
                   | None => "undefined"
                   end
                ++ " students in this course"), st)
          else
            let existingStudentIds :=
              map student_oid
                  (filter (fun s => includes studs (student_oid s)) (students st)) in
            let notFoundStudents :=
              filter (fun s => negb (includes existingStudentIds s)) studs in
            if Nat.ltb 0 (length notFoundStudents) then
              (NotFound404 ("Students not found: " ++ String.concat ", " notFoundStudents), st)
            else
              let newStudents := newcomers course studs in
              if Nat.eqb (length newStudents) 0 then
                (Ok200 (AlreadyEnrolled course), st)
              else
                let course' := withNewcomers course studs in
                (Ok200 (Enrolled (show_nat (length newStudents)
                                  ++ " students enrolled successfully")
                                 course' newStudents),
                 Course_save st course')
      end
  end.

End Courses.

(** ** The specification's words

    Definitions that follow the text of the specification rather than the
    handlers; the properties below compare the handlers with them. *)

Module Spec.

Import Js.
Local Open Scope float_scope.

(** The letter-grade table: the first threshold that the percentage
    reaches decides, and "F" is left when it reaches none. *)
Definition thresholdTable : list (number * string) :=
  [ (90, "A+"); (85, "A"); (80, "A-"); (75, "B+"); (70, "B");
    (65, "B-"); (60, "C+"); (55, "C"); (50, "C-"); (45, "D") ].

Definition tableGrade (percentage : number) : string :=
  match find (fun row => ge percentage (fst row)) thresholdTable with
  | Some row => snd row
  | None => "F"
  end.

(** The data model's invariant on a grade: the derived fields agree with
    the two operands. *)
Definition inSync (g : GradeDoc) : Prop :=
  exists p m,
    pointsEarned g = Some p /\ maxPoints g = Some m /\
    percentage g = Some (Grades.computePercentage p m) /\
    letterGrade g = Some (Grades.deriveLetterGrade (Grades.computePercentage p m)).

(** An update that supplies exactly one of the two operands. *)
Definition suppliesOne (body : Grades.GradeUpdate) : Prop :=
  defined (Grades.u_pointsEarned body) <> defined (Grades.u_maxPoints body).

(** "Partial updates to only one of the pair leave derived fields stale":
    an accepted update that supplies one operand keeps the stored
    percentage and letter grade. *)
Definition derivedLeftStale : Prop :=
  forall st user id body g g' st',
    Grade_findById st id = Some g ->
    suppliesOne body ->
    Grades.updateGrade st user id body = (Ok200 g', st') ->
    percentage g' = percentage g /\ letterGrade g' = letterGrade g.

(** Section 4.1, the Authorization Gate, for a read of the attendance of
    [student] filtered by [course]: [true] is ALLOW. *)
Definition gateAllows (st : Store) (user : User) (student : StudentDoc)
    (course : option ObjectId) : bool :=
  if String.eqb (user_role user) "admin" then true
  else if String.eqb (user_role user) "student" then
    String.eqb (student_user student) (user_id user)
  else if String.eqb (user_role user) "parent" then
    match student_parent student with
    | Some p => String.eqb p (user_id user)
    | None => false
    end
  else if String.eqb (user_role user) "teacher" then
    match Teacher_findOne_user st (user_id user), course with
    | Some teacher, Some c =>
        match Course_findById st c with
        | Some courseDoc =>
            String.eqb (course_instructor courseDoc) (teacher_oid teacher)
        | None => false
        end
    | _, _ => false
    end
  else false.

Definition status_eqb (a b : Status) : bool :=
  match a, b with
  | present, present | absent, absent | late, late | excused, excused => true
  | _, _ => false
  end.

(** How many records of a list carry a given status. *)
Definition countOf (s : Status) (l : list AttendanceDoc) : nat :=
  length (filter (fun a => status_eqb (att_status a) s) l).

(** The same record, had it been marked absent instead of late or excused. *)
Definition asAbsent (a : AttendanceDoc) : AttendanceDoc :=
  {| att_oid := att_oid a; att_student := att_student a;
     att_course := att_course a; att_date := att_date a;
     att_status := match att_status a with present => present | _ => absent end;
     att_method := att_method a; att_markedBy := att_markedBy a |}.

(** [classSummary]: the records of one student of the class in the range
    of the query, the rate of a list of records "as above", and the
    rounded mean of a list of rates. *)
Definition recordsFor (st : Store) (q : Attendance.ClassQuery) (id : ObjectId)
    : list AttendanceDoc :=
  filter (fun a =>
            String.eqb (att_student a) id
            && match Attendance.c_startDate q with
               | Some d => (d <=? att_date a)%Z | None => true end
            && match Attendance.c_endDate q with
               | Some d => (att_date a <=? d)%Z | None => true end)
         (attendance st).

Definition ofStudent (id : ObjectId) (a : AttendanceDoc) : bool :=
  String.eqb (att_student a) id.

(** The entry of one student once the three passes of the handler are
    over. *)
Definition entryOf (studs : list StudentDoc) (records : list AttendanceDoc)
    (id : ObjectId) : Attendance.StudentData :=
  Attendance.setRate
    (fold_left Attendance.addRecord (filter (ofStudent id) records)
       (Attendance.blankEntry studs id)).

Definition rateOf (l : list AttendanceDoc) : number :=
  Attendance.attendanceRate (Attendance.statisticsOf l).

Definition nonEmpty (l : list AttendanceDoc) : bool :=
  match l with [] => false | _ :: _ => true end.

Definition roundedMean (rates : list number) : number :=
  match rates with
  | [] => 0
  | _ :: _ => Math_round (fold_left PrimFloat.add rates 0 / of_nat (length rates))
  end.

(** The per-record conditions of [markBatch], in the order of the text:
    the required fields, the enrollment of the student in the course, an
    existing record on the same calendar day, and what the store makes of
    the new document. *)
Definition hasRequiredFields (r : Attendance.AttendanceInput) : bool :=
  truthy (Attendance.r_student r) && truthy (Attendance.r_course r)
  && Attendance.truthyDate (Attendance.r_date r) && truthy (Attendance.r_status r).

(** The instant of the record, when it has a date. *)
Definition dateOf (r : Attendance.AttendanceInput) : option Z :=
  option_map Attendance.instantOf (Attendance.r_date r).

Definition enrolledIn (st : Store) (r : Attendance.AttendanceInput) : bool :=
  match Attendance.r_student r, Attendance.r_course r with
  | Some s, Some c =>
      match Course_findById st c with
      | Some courseDoc => includes (enrolledStudents courseDoc) s
      | None => false
      end
  | _, _ => false
  end.

Definition alreadyRecorded (tz : Attendance.TimeZone) (st : Store)
    (r : Attendance.AttendanceInput) : option AttendanceDoc :=
  match Attendance.r_student r, Attendance.r_course r, dateOf r with
  | Some s, Some c, Some d => Attendance.Attendance_findOne tz st s c d
  | _, _, _ => None
  end.

(** A stored record of the student and course of [r], on the calendar day
    of [r]. *)
Definition sameDayAs (tz : Attendance.TimeZone) (r : Attendance.AttendanceInput)
    (a : AttendanceDoc) : bool :=
  match Attendance.r_student r, Attendance.r_course r, dateOf r with
  | Some s, Some c, Some d => Attendance.sameDay tz s c d a
  | _, _, _ => false
  end.

Definition createFor (st : Store) (user : User) (r : Attendance.AttendanceInput)
    : Attendance.StoreError + (Store * AttendanceDoc) :=
  match Attendance.r_student r, Attendance.r_course r, dateOf r,
        Attendance.r_status r with
  | Some s, Some c, Some d, Some status =>
      Attendance.Attendance_create st s c d status
        (match Attendance.r_method r with Some m => m | None => "manual" end)
        (user_id user)
  | _, _, _, _ => inl (Attendance.ValidationError "required")
  end.

Definition missingFieldsError (r : Attendance.AttendanceInput) : Attendance.ErrorItem :=
  {| Attendance.err_record := r;
     Attendance.err_error :=
       Attendance.Message "Missing required fields: student, course, date, status" |}.

Definition notEnrolledError (r : Attendance.AttendanceInput) : Attendance.ErrorItem :=
  {| Attendance.err_record := r;
     Attendance.err_error :=
       Attendance.Message "Student is not enrolled in this course" |}.

(** [markBatch], one record: (a) fields, (b) enrollment, (c) an existing
    record of the day is reported and nothing is written, (d) else the
    record is created, and a refusal of the store is one more error. *)
Definition markStep (tz : Attendance.TimeZone) (user : User) (b : Attendance.Batch)
    (r : Attendance.AttendanceInput) : Attendance.Batch :=
  let st := Attendance.batch_store b in
  if negb (hasRequiredFields r) then Attendance.pushError b (missingFieldsError r)
  else if negb (enrolledIn st r) then Attendance.pushError b (notEnrolledError r)
  else
    match alreadyRecorded tz st r with
    | Some existing =>
        Attendance.pushResult b st
          {| Attendance.res_record := r;
             Attendance.res_status := Attendance.already_marked;
             Attendance.res_attendanceId := att_oid existing |}
    | None =>
        match createFor st user r with
        | inr (st', doc) =>
            Attendance.pushResult b st'
              {| Attendance.res_record := r;
                 Attendance.res_status := Attendance.marked;
                 Attendance.res_attendanceId := att_oid doc |}
        | inl e =>
            Attendance.pushError b
              {| Attendance.err_record := r;
                 Attendance.err_error := Attendance.Caught e |}
        end
    end.

(** The status and the method of [r] are values of the schema's
    enumerations. *)
Definition storeAccepts (r : Attendance.AttendanceInput) : bool :=
  match Attendance.r_status r with
  | Some s => defined (Attendance.parseStatus s)
  | None => false
  end
  && defined (Attendance.parseMethod
                (match Attendance.r_method r with Some m => m | None => "manual" end)).

Definition alreadyMarkedItem (r : Attendance.AttendanceInput) (e : AttendanceDoc)
    : Attendance.ResultItem :=
  {| Attendance.res_record := r;
     Attendance.res_status := Attendance.already_marked;
     Attendance.res_attendanceId := att_oid e |}.

Definition markedItem (r : Attendance.AttendanceInput) (doc : AttendanceDoc)
    : Attendance.ResultItem :=
  {| Attendance.res_record := r;
     Attendance.res_status := Attendance.marked;
     Attendance.res_attendanceId := att_oid doc |}.

(** "Submitting a record for a tuple that already has a persisted record
    on the same calendar day ...: the item is reported in the results with
    status already_marked", for every record of every batch. *)
Definition alwaysReportedAlreadyMarked : Prop :=
  forall tz st user records r e,
    In r records ->
    alreadyRecorded tz st r = Some e ->
    exists data st',
      Attendance.markAttendance tz st user (Some records) = (Ok200 data, st') /\
      In (alreadyMarkedItem r e) (Attendance.md_results data).

(** "The response always carries the itemized results, the itemized
    errors and the counts", for every input list. *)
Definition alwaysItemized : Prop :=
  forall tz st user records,
  exists data st',
    Attendance.markAttendance tz st user (Some records) = (Ok200 data, st').

End Spec.

(** ** Invariants of the marking loop *)

Module Invariants.

Import Attendance.
Local Open Scope list_scope.

(** With respect to the store [st] the batch started from: the courses
    are untouched and the attendance collection has only grown at its
    end. *)
Definition extends (st : Store) (b : Batch) : Prop :=
  courses (batch_store b) = courses st /\
  exists added, attendance (batch_store b) = attendance st ++ added.

(** Moreover no record of the calendar day of [r0] was added. *)
Definition keepsDay (tz : TimeZone) (st : Store) (r0 : AttendanceInput) (b : Batch) : Prop :=
  courses (batch_store b) = courses st /\
  exists added, attendance (batch_store b) = attendance st ++ added /\
                filter (Spec.sameDayAs tz r0) added = [].

(** The days of a zone: an instant lies in its own local day, and every
    instant of that day has the same day.  Both hold of a zone of fixed
    offset, and of a zone that changes its offset away from midnight. *)
Definition ownDay (tz : TimeZone) : Prop :=
  forall t, (startOfDay tz t <= t < endOfDay tz t)%Z.

Definition wholeDays (tz : TimeZone) : Prop :=
  forall t t', (startOfDay tz t <= t' < endOfDay tz t)%Z ->
               startOfDay tz t' = startOfDay tz t /\ endOfDay tz t' = endOfDay tz t.

Definition calendar (tz : TimeZone) : Prop := ownDay tz /\ wholeDays tz.

End Invariants.

(** ** Scenarios *)

Module Scenario.

Local Open Scope float_scope.

Definition admin : User := {| user_id := "u-admin"; user_role := "admin" |}.

(** One grade of 50 out of 100, stored with its derived fields. *)
Definition grade50 : GradeDoc :=
  {| grade_oid := "g1"; grade_student := "s1"; grade_course := "c1";
     grade_assignment := None; grade_quiz := None; gradeType := gt_exam;
     pointsEarned := Some 50; maxPoints := Some 100;
     percentage := Some 50; letterGrade := Some "C-";
     feedback := None; gradedBy := "t1" |}.

Definition gradeStore : Store :=
  {| students := []; teachers := []; courses := []; assignments := [];
     quizzes := []; attendance := []; grades := [grade50] |}.

Definition onlyPoints (p : Js.number) : Grades.GradeUpdate :=
  {| Grades.u_pointsEarned := Some p; Grades.u_maxPoints := None;
     Grades.u_feedback := None |}.

Definition onlyMax (m : Js.number) : Grades.GradeUpdate :=
  {| Grades.u_pointsEarned := None; Grades.u_maxPoints := Some m;
     Grades.u_feedback := None |}.

(** A class of three students; "c1" is taught by the teacher profile
    "t1" of the account "ut1".  The first student was present on two days
    out of two, the second on one day out of two, the third has no
    record. *)
Definition day (n : Z) : Z := (n * Attendance.msPerDay)%Z.

Definition att (oid : nat) (student : ObjectId) (d : Z) (s : Status) : AttendanceDoc :=
  {| att_oid := oid; att_student := student; att_course := "c1";
     att_date := day d; att_status := s; att_method := manual;
     att_markedBy := "ut1" |}.

Definition pupil (oid user : ObjectId) (parent : option ObjectId) : StudentDoc :=
  {| student_oid := oid; student_user := user; student_class := "k1";
     student_section := "sec-a"; student_parent := parent |}.

Definition classStore : Store :=
  {| students := [ pupil "s1" "u1" (Some "p1"); pupil "s2" "u2" None;
                   pupil "s3" "u3" (Some "p3") ];
     teachers := [ {| teacher_oid := "t1"; teacher_user := "ut1" |};
                   {| teacher_oid := "t2"; teacher_user := "ut2" |} ];
     courses := [ {| course_oid := "c1"; course_instructor := "t1";
                     enrolledStudents := ["s1"; "s2"; "s3"];
                     maxEnrollment := Some 3%nat |} ];
     assignments := []; quizzes := [];
     attendance := [ att 1 "s1" 1 present; att 2 "s2" 1 present;
                     att 3 "s1" 2 present; att 4 "s2" 2 late ];
     grades := [] |}.

(** A teacher who does not teach "c1", and somebody else's parent. *)
Definition otherTeacher : User := {| user_id := "ut2"; user_role := "teacher" |}.
Definition otherParent : User := {| user_id := "p3"; user_role := "parent" |}.

(** "s1" has left "c1" after having been marked present on day 1. *)
Definition transferStore : Store :=
  {| students := [ pupil "s1" "u1" (Some "p1"); pupil "s2" "u2" None ];
     teachers := [ {| teacher_oid := "t1"; teacher_user := "ut1" |} ];
     courses := [ {| course_oid := "c1"; course_instructor := "t1";
                     enrolledStudents := ["s2"]; maxEnrollment := Some 3%nat |} ];
     assignments := []; quizzes := [];
     attendance := [ att 1 "s1" 1 present ];
     grades := [] |}.

Definition utc : Attendance.TimeZone := Attendance.fixedZone 0.

(** A zone one hour ahead of UTC that is two hours ahead from the last
    Sunday of March 2024, 01:00 UTC, to the last Sunday of October 2024,
    01:00 UTC. *)
Definition summerStart : Z := 1711846800000.
Definition summerEnd : Z := 1729990800000.

Definition berlin : Attendance.TimeZone :=
  {| Attendance.offsetAtInstant := fun t =>
       if (t <? summerStart)%Z then 3600000
       else if (t <? summerEnd)%Z then 7200000 else 3600000;
     Attendance.offsetAtLocal := fun l =>
       if (l <? summerStart + 7200000)%Z then 3600000
       else if (l <? summerEnd + 7200000)%Z then 7200000 else 3600000 |}%Z.

Definition mark (student : ObjectId) (d : Z) (status : string) : Attendance.AttendanceInput :=
  {| Attendance.r_student := Some student; Attendance.r_course := Some "c1";
     Attendance.r_date := Some (Attendance.DateString (day d + 3600000));
     Attendance.r_status := Some status; Attendance.r_method := None |}.

(** The class on the day on which summer time starts in [berlin]: the
    local day runs from 23:00 UTC on 30 March 2024 to 22:00 UTC on 31
    March.  "s1" was marked half an hour into it. *)
Definition earlyMorning : Z := 1711841400000.   (* 30 March, 23:30 UTC *)
Definition lateEvening : Z := 1711917000000.    (* 31 March, 20:30 UTC *)
Definition afterMidnight : Z := 1711924200000.  (* 31 March, 22:30 UTC *)

Definition springStore : Store :=
  {| students := students classStore; teachers := teachers classStore;
     courses := courses classStore; assignments := []; quizzes := [];
     attendance := [ {| att_oid := 1; att_student := "s1"; att_course := "c1";
                        att_date := earlyMorning; att_status := present;
                        att_method := manual; att_markedBy := "ut1" |} ];
     grades := [] |}.

Definition markAt (student : ObjectId) (instant : Z) (status : string)
    : Attendance.AttendanceInput :=
  {| Attendance.r_student := Some student; Attendance.r_course := Some "c1";
     Attendance.r_date := Some (Attendance.DateString instant);
     Attendance.r_status := Some status; Attendance.r_method := None |}.

(** "s1" again in the evening of that day and half an hour into the
    next one. *)
Definition springBatch : list Attendance.AttendanceInput :=
  [ markAt "s1" lateEvening "present"; markAt "s1" afterMidnight "present" ].

(** One request with every kind of outcome: a record already on file, a
    new one, a student who is not enrolled, a record without a status, a
    status outside the schema, and a date that is the number 0. *)
Definition mixedBatch : list Attendance.AttendanceInput :=
  [ mark "s1" 1 "present"; mark "s3" 1 "present"; mark "s9" 1 "present";
    {| Attendance.r_student := Some "s2"; Attendance.r_course := Some "c1";
       Attendance.r_date := Some (Attendance.DateString (day 3));
       Attendance.r_status := None;
       Attendance.r_method := None |};
    mark "s2" 3 "sick";
    {| Attendance.r_student := Some "s2"; Attendance.r_course := Some "c1";
       Attendance.r_date := Some (Attendance.DateNumber 0);
       Attendance.r_status := Some "present";
       Attendance.r_method := None |} ].

(** Section 8: a course of capacity 2 with two students enrolled, and the
    same course after one of them was removed. *)
Definition fullCourse : CourseDoc :=
  {| course_oid := "c2"; course_instructor := "t1";
     enrolledStudents := ["s1"; "s2"]; maxEnrollment := Some 2%nat |}.

Definition fullStore : Store :=
  {| students := [ pupil "s1" "u1" None; pupil "s2" "u2" None; pupil "s3" "u3" None ];
     teachers := []; courses := [fullCourse]; assignments := []; quizzes := [];
     attendance := []; grades := [] |}.

Definition roomCourse : CourseDoc :=
  {| course_oid := "c2"; course_instructor := "t1";
     enrolledStudents := ["s1"]; maxEnrollment := Some 2%nat |}.

Definition roomStore : Store :=
  {| students := students fullStore; teachers := []; courses := [roomCourse];
     assignments := []; quizzes := []; attendance := []; grades := [] |}.

Definition allTime : Attendance.ClassQuery :=
  {| Attendance.c_startDate := None; Attendance.c_endDate := None;
     Attendance.c_section := None |}.

Definition firstPage (course : option ObjectId) : Attendance.StudentQuery :=
  {| Attendance.q_startDate := None; Attendance.q_endDate := None;
     Attendance.q_course := course;
     Attendance.q_page := 1; Attendance.q_limit := 10 |}.

End Scenario.

(** * Further routes

    The read and delete routes of [routes/grades], and the predicates in
    which the properties of the write routes are stated. *)

Module GradeReads.

Import Js Grades Attendance.
Local Open Scope float_scope.

(** [parseFloat(x.toFixed(2))].  [toFixed] takes the integer [n] nearest
    to [|x| * 100] (the larger one on a tie) and prints [n / 100] with the
    sign of [x]; [parseFloat] reads the nearest number back.  From 2^46 on
    the numbers are more than 0.01 apart and the result is [x] itself;
    below, [n] is less than 2^53 and the quotient [n / 100] is the nearest
    number.  NaN and the infinities print as themselves; -0 prints as
    "0.00". *)
Definition toFixed2 (x : number) : number :=
  match Prim2SF x with
  | S754_finite s m e =>
      if (-6 <=? e)%Z then x
      else
        let d := (2 ^ (- e))%Z in
        let n := ((200 * Z.pos m + d) / (2 * d))%Z in
        let r := of_Z n / 100 in
        if s then - r else r
  | S754_zero _ => 0
  | _ => x
  end.

Definition Student_findOne_user (st : Store) (uid : ObjectId) : option StudentDoc :=
  find (fun s => String.eqb (student_user s) uid) (students st).

(** [Student.findOne({ _id, parent })]. *)
Definition Student_findOne_parent (st : Store) (id parent : ObjectId)
    : option StudentDoc :=
  find (fun s => String.eqb (student_oid s) id
                 && match student_parent s with
                    | Some p => String.eqb p parent
                    | None => false
                    end)
       (students st).

(** GET /api/grades/:id (after [protect]).  [grade.student] is populated:
    it is [null] when the student is gone, and reading its [_id] throws. *)
Definition getGrade (st : Store) (user : User) (id : ObjectId) : Response GradeDoc :=
  match Grade_findById st id with
  | None => NotFound404 "Grade not found"
  | Some grade =>
      let populated := Student_findById st (grade_student grade) in
      if String.eqb (user_role user) "student" then
        match Student_findOne_user st (user_id user) with
        | None => Forbidden403 "Not authorized to view this grade"
        | Some student =>
            match populated with
            | None => Thrown
            | Some gs =>
                if negb (String.eqb (student_oid gs) (student_oid student))
                then Forbidden403 "Not authorized to view this grade"
                else Ok200 grade
            end
        end
      else if String.eqb (user_role user) "parent" then
        match populated with
        | None => Thrown
        | Some gs =>
            match Student_findOne_parent st (student_oid gs) (user_id user) with
            | None => Forbidden403 "Not authorized to view this grade"
            | Some _ => Ok200 grade
            end
        end
      else Ok200 grade
  end.

(** [grade.remove()]. *)
Definition Grade_remove (st : Store) (g : GradeDoc) : Store :=
  {| students := students st; teachers := teachers st;
     courses := courses st; assignments := assignments st;
     quizzes := quizzes st; attendance := attendance st;
     grades := filter (fun g0 => negb (String.eqb (grade_oid g0) (grade_oid g)))
                      (grades st) |}.

(** DELETE /api/grades/:id (after [protect] and [checkRole('admin')]). *)
Definition deleteGrade (st : Store) (id : ObjectId) : Response unit * Store :=
  match Grade_findById st id with
  | None => (NotFound404 "Grade not found", st)
  | Some grade => (Ok200 tt, Grade_remove st grade)
  end.

(** *** GET /api/grades/student/:studentId/summary *)

(** One grade of [gradesByCourse[courseId]] (the titles of the populated
    assignment and quiz are left out). *)
Record GradeItem := mkGradeItem {
  gi_oid : ObjectId;
  gi_type : GradeType;
  gi_pointsEarned : option number;
  gi_maxPoints : option number;
  gi_percentage : option number;
  gi_letterGrade : option string
}.

Record CourseAverage := mkCourseAverage {
  ca_course : CourseDoc;
  ca_average : number;
  ca_totalGrades : nat;
  ca_grades : list GradeItem
}.

Record Summary := mkSummary {
  gradesByCourse : Obj CourseAverage;
  overallGPA : number;
  totalGrades : nat
}.

(** The test on the caller: [Some r] answers [r].  A parent asking about a
    student without parent reference makes [student.parent.toString()]
    throw. *)
Definition summaryGate (user : User) (student : StudentDoc) : option (Response Summary) :=
  if String.eqb (user_role user) "student" then
    if negb (String.eqb (student_user student) (user_id user))
    then Some (Forbidden403 "Not authorized to view this student's grades")
    else None
  else if String.eqb (user_role user) "parent" then
    match student_parent student with
    | None => Some Thrown
    | Some p =>
        if negb (String.eqb p (user_id user))
        then Some (Forbidden403 "Not authorized to view this student's grades")
        else None
    end
  else None.

(** [.populate('course', 'title code')] on every grade: [None] when a
    course is gone, and the handler then throws on [g.course._id]. *)
Fixpoint populateCourse (st : Store) (gs : list GradeDoc)
    : option (list (GradeDoc * CourseDoc)) :=
  match gs with
  | [] => Some []
  | g :: gs' =>
      match Course_findById st (grade_course g), populateCourse st gs' with
      | Some c, Some rest => Some ((g, c) :: rest)
      | _, _ => None
      end
  end.

(** [[...new Set(ids)]]: the distinct ids, each at its first place. *)
Fixpoint distinct (seen ids : list ObjectId) : list ObjectId :=
  match ids with
  | [] => []
  | id :: ids' =>
      if includes seen id then distinct seen ids'
      else id :: distinct (id :: seen) ids'
  end.

Definition itemOf (g : GradeDoc) : GradeItem :=
  {| gi_oid := grade_oid g; gi_type := gradeType g;
     gi_pointsEarned := pointsEarned g; gi_maxPoints := maxPoints g;
     gi_percentage := percentage g; gi_letterGrade := letterGrade g |}.

(** [sum + g.percentage]: a grade without percentage adds [undefined]. *)
Definition addPercentage (sum : number) (g : GradeDoc * CourseDoc) : number :=
  match percentage (fst g) with
  | Some p => sum + p
  | None => nan
  end.

(** The body of [for (const courseId of allCourses)]. *)
Definition addCourse (allGrades : list (GradeDoc * CourseDoc))
    (o : Obj CourseAverage) (courseId : ObjectId) : Obj CourseAverage :=
  let courseGrades :=
    filter (fun g => String.eqb (course_oid (snd g)) courseId) allGrades in
  match courseGrades with
  | [] => o
  | first :: _ =>
      let totalPoints := fold_left addPercentage courseGrades 0 in
      let average := totalPoints / of_nat (length courseGrades) in
      obj_set o courseId
        {| ca_course := snd first;
           ca_average := toFixed2 average;
           ca_totalGrades := length courseGrades;
           ca_grades := map (fun g => itemOf (fst g)) courseGrades |}
  end.

(** "Calculate overall GPA". *)
Definition overallOf (o : Obj CourseAverage) : number :=
  let allAverages := map ca_average (obj_values o) in
  if Nat.ltb 0 (length allAverages)
  then toFixed2 (fold_left (fun sum avg => sum + avg) allAverages 0
                 / of_nat (length allAverages))
  else 0.

(** The handler (after [protect]). *)
Definition gradeSummary (st : Store) (user : User) (studentId : ObjectId)
    : Response Summary :=
  match Student_findById st studentId with
  | None => NotFound404 "Student not found"
  | Some student =>
      match summaryGate user student with
      | Some r => r
      | None =>
          let found :=
            filter (fun g => String.eqb (grade_student g) studentId) (grades st) in
          match populateCourse st found with
          | None => Thrown
          | Some allGrades =>
              let allCourses :=
                distinct [] (map (fun g => course_oid (snd g)) allGrades) in
              let courseAverages := fold_left (addCourse allGrades) allCourses [] in
              Ok200 {| gradesByCourse := courseAverages;
                       overallGPA := overallOf courseAverages;
                       totalGrades := length allGrades |}
          end
      end
  end.

End GradeReads.

(** ** routes/courses: DELETE /api/courses/:id *)

Module CourseRemoval.

(** [course.remove()]: grades, attendance and the other collections keep
    their references to the course. *)
Definition Course_remove (st : Store) (c : CourseDoc) : Store :=
  {| students := students st; teachers := teachers st;
     courses := filter (fun c0 => negb (String.eqb (course_oid c0) (course_oid c)))
                       (courses st);
     assignments := assignments st; quizzes := quizzes st;
     attendance := attendance st; grades := grades st |}.

(** The handler (after [protect] and [checkRole('admin')]). *)
Definition deleteCourse (st : Store) (id : ObjectId) : Response unit * Store :=
  match Course_findById st id with
  | None => (NotFound404 "Course not found", st)
  | Some course => (Ok200 tt, Course_remove st course)
  end.

End CourseRemoval.

(** ** Predicates on the store *)

Module Laws.

Import Attendance.

(** The bound of the data model on a course: at most [maxEnrollment]
    students, when [maxEnrollment] is set (a stored 0 switches the guard of
    the enroll route off). *)
Definition withinBound (c : CourseDoc) : Prop :=
  forall m, maxEnrollment c = Some m -> m <> 0%nat ->
            length (enrolledStudents c) <= m.

(** The ids of the request that no Student document carries, in the order
    of the request. *)
Definition unknownStudents (st : Store) (studs : list ObjectId) : list ObjectId :=
  filter (fun s => negb (existsb (fun d => String.eqb (student_oid d) s) (students st)))
         studs.

(** At most one attendance record per student, course and calendar day. *)
Fixpoint dayUnique (tz : TimeZone) (l : list AttendanceDoc) : Prop :=
  match l with
  | [] => True
  | a :: l' =>
      (forall b, In b l' ->
         sameDay tz (att_student a) (att_course a) (att_date a) b = false)
      /\ dayUnique tz l'
  end.

(** The same query but for the page and the limit. *)
Definition sameFilter (q q' : StudentQuery) : Prop :=
  q_startDate q' = q_startDate q /\ q_endDate q' = q_endDate q /\
  q_course q' = q_course q.

End Laws.

(** ** Further scenarios *)

Module Cases.

Local Open Scope float_scope.

(** A course with room for ten, taught by "t1", with "s1" enrolled. *)
Definition openCourse : CourseDoc :=
  {| course_oid := "c3"; course_instructor := "t1";
     enrolledStudents := ["s1"]; maxEnrollment := Some 10%nat |}.

Definition openStore : Store :=
  {| students := students Scenario.classStore;
     teachers := teachers Scenario.classStore;
     courses := [openCourse]; assignments := []; quizzes := [];
     attendance := []; grades := [] |}.

(** An exam of 45 points out of 50 for "s1" in "c1". *)
Definition examBody : Grades.GradeBody :=
  {| Grades.b_student := Some "s1"; Grades.b_course := Some "c1";
     Grades.b_assignment := None; Grades.b_quiz := None;
     Grades.b_gradeType := Some "exam";
     Grades.b_pointsEarned := Some 45; Grades.b_maxPoints := Some 50;
     Grades.b_feedback := None; Grades.b_gradedBy := Some "t1" |}.

Definition examGrade (oid by_ : ObjectId) : GradeDoc :=
  {| grade_oid := oid; grade_student := "s1"; grade_course := "c1";
     grade_assignment := None; grade_quiz := None; gradeType := gt_exam;
     pointsEarned := Some 45; maxPoints := Some 50;
     percentage := Some 90; letterGrade := Some "A+";
     feedback := None; gradedBy := by_ |}.

(** The class with that exam on file. *)
Definition gradedStore : Store :=
  {| students := students Scenario.classStore;
     teachers := teachers Scenario.classStore;
     courses := courses Scenario.classStore;
     assignments := []; quizzes := [];
     attendance := attendance Scenario.classStore;
     grades := [examGrade "g7" "t1"] |}.

(** What an admin reads as the summary of "s1" then. *)
Definition examSummary : GradeReads.Summary :=
  Eval vm_compute in
    match GradeReads.gradeSummary gradedStore Scenario.admin "s1" with
    | Ok200 s => s
    | _ => {| GradeReads.gradesByCourse := []; GradeReads.overallGPA := 0%float;
              GradeReads.totalGrades := 0 |}
    end.

(** The same store after DELETE /api/courses/c1. *)
Definition orphanStore : Store :=
  snd (CourseRemoval.deleteCourse gradedStore "c1").

(** The instructor of "c1". *)
Definition instructor : User := {| user_id := "ut1"; user_role := "teacher" |}.

End Cases.

Module BatchLaw.

Import Attendance.

Definition isMarked (x : ResultItem) : bool :=
  match res_status x with marked => true | already_marked => false end.


End BatchLaw.

(** * Properties *)

(** ** Ordering facts on numbers *)

Module NumberFacts.

Import Js.
Local Open Scope float_scope.

Ltac cmp_cases :=
  repeat match goal with
    | H : context [Pos.compare_cont Eq ?a ?b] |- _ =>
        change (Pos.compare_cont Eq a b) with (Pos.compare a b) in H
    | |- context [Pos.compare_cont Eq ?a ?b] =>
        change (Pos.compare_cont Eq a b) with (Pos.compare a b)
    | H : context [Z.compare ?a ?b] |- _ => destruct (Z.compare_spec a b)
    | |- context [Z.compare ?a ?b] => destruct (Z.compare_spec a b)
    | H : context [Pos.compare ?a ?b] |- _ => destruct (Pos.compare_spec a b)
    | |- context [Pos.compare ?a ?b] => destruct (Pos.compare_spec a b)
    end.

(** On the specification of binary64: below [y] and [y <= z] excludes
    [z <= x]. *)
Lemma SF_lt_le_not_le (x y z : spec_float) :
  SFltb x y = true -> SFleb y z = true -> SFleb z x = false.
Proof.
  unfold SFltb, SFleb.
  destruct x as [[|]|[|]| |[|] mx ex], y as [[|]|[|]| |[|] my ey],
           z as [[|]|[|]| |[|] mz ez];
    cbn [SFcompare]; try discriminate; try reflexivity;
    intros Hxy Hyz; cmp_cases; subst; cbn in *;
    try discriminate; try reflexivity; try lia.
Qed.

Lemma below_threshold (p a b : number) :
  lt p a = true -> le a b = true -> ge p b = false.
Proof.
  unfold lt, le, ge.
  rewrite FloatAxioms.ltb_spec, !FloatAxioms.leb_spec.
  apply SF_lt_le_not_le.
Qed.

Lemma SF_le_not_lt (x y : spec_float) :
  SFleb x y = true -> SFltb y x = false.
Proof.
  unfold SFltb, SFleb.
  destruct x as [[|]|[|]| |[|] mx ex], y as [[|]|[|]| |[|] my ey];
    cbn [SFcompare]; try discriminate; try reflexivity;
    intros Hxy; cmp_cases; subst; cbn in *;
    try discriminate; try reflexivity; try lia.
Qed.

Lemma le_not_lt (x y : number) : le x y = true -> lt y x = false.
Proof.
  unfold lt, le. rewrite FloatAxioms.ltb_spec, FloatAxioms.leb_spec.
  apply SF_le_not_lt.
Qed.

(** A number that is at least 1 is not at most 0. *)
Lemma at_least_one_positive (m : number) : le 1 m = true -> le m 0 = false.
Proof.
  intros H. apply (below_threshold 0 1 m); [reflexivity | exact H].
Qed.

End NumberFacts.

(** ** Letter grades *)

Module GradeFacts.

Import Js Grades NumberFacts Spec.
Local Open Scope float_scope.
Set Warnings "-inexact-float".

Lemma deriveLetterGrade_table (p : number) : deriveLetterGrade p = tableGrade p.
Proof.
  unfold deriveLetterGrade, tableGrade, thresholdTable; cbn [find fst snd].
  repeat (destruct (ge p _); [reflexivity|]); reflexivity.
Qed.

Ltac band :=
  unfold deriveLetterGrade;
  repeat match goal with
    | H : ge ?p ?t = true |- context [ge ?p ?t] => rewrite H
    | H : lt ?p ?a = true |- context [ge ?p ?b] =>
        rewrite (below_threshold p a b H eq_refl)
    end; reflexivity.

Lemma deriveLetterGrade_bands (p : number) :
  (ge p 90 = true -> deriveLetterGrade p = "A+") /\
  (ge p 85 = true -> lt p 90 = true -> deriveLetterGrade p = "A") /\
  (ge p 80 = true -> lt p 85 = true -> deriveLetterGrade p = "A-") /\
  (ge p 75 = true -> lt p 80 = true -> deriveLetterGrade p = "B+") /\
  (ge p 70 = true -> lt p 75 = true -> deriveLetterGrade p = "B") /\
  (ge p 65 = true -> lt p 70 = true -> deriveLetterGrade p = "B-") /\
  (ge p 60 = true -> lt p 65 = true -> deriveLetterGrade p = "C+") /\
  (ge p 55 = true -> lt p 60 = true -> deriveLetterGrade p = "C") /\
  (ge p 50 = true -> lt p 55 = true -> deriveLetterGrade p = "C-") /\
  (ge p 45 = true -> lt p 50 = true -> deriveLetterGrade p = "D") /\
  (lt p 45 = true -> deriveLetterGrade p = "F").
Proof.
  repeat split; intros; band.
Qed.


Lemma recompute_inSync (g : GradeDoc) (p m : number) :
  pointsEarned g = Some p -> maxPoints g = Some m -> inSync (recompute g).
Proof.
  intros Hp Hm. unfold recompute. rewrite Hp, Hm.
  exists p, m. cbn. auto.
Qed.

Lemma patchFeedback_fields (body : GradeUpdate) (g : GradeDoc) :
  pointsEarned (patchFeedback body g) = pointsEarned g /\
  maxPoints (patchFeedback body g) = maxPoints g /\
  percentage (patchFeedback body g) = percentage g /\
  letterGrade (patchFeedback body g) = letterGrade g /\
  grade_oid (patchFeedback body g) = grade_oid g.
Proof.
  unfold patchFeedback. destruct (u_feedback body); cbn; auto.
Qed.

Lemma recompute_operands (g : GradeDoc) :
  pointsEarned (recompute g) = pointsEarned g /\
  maxPoints (recompute g) = maxPoints g /\
  grade_oid (recompute g) = grade_oid g.
Proof.
  unfold recompute.
  destruct (pointsEarned g) eqn:Hp, (maxPoints g) eqn:Hm; cbn; rewrite ?Hp, ?Hm; auto.
Qed.

Lemma schemaValid_operands (g : GradeDoc) :
  schemaValid g = true ->
  exists p m, pointsEarned g = Some p /\ maxPoints g = Some m.
Proof.
  unfold schemaValid. destruct (pointsEarned g), (maxPoints g); try discriminate.
  eauto.
Qed.

Lemma Grade_save_valid (st st' : Store) (g : GradeDoc) :
  Grade_save st g = Some st' -> schemaValid g = true.
Proof.
  unfold Grade_save. destruct (schemaValid g); [reflexivity | discriminate].
Qed.

(** The teacher gate only ever refuses. *)
Lemma teacherGate_refuses (st : Store) (user : User) (c : option CourseDoc)
    (message : string) (r : Response GradeDoc) :
  teacherGate st user c message = Some r -> payload r = None.
Proof.
  unfold teacherGate.
  destruct (String.eqb _ _); [|discriminate].
  destruct (Teacher_findOne_user _ _); [|intros [= <-]; reflexivity].
  destruct c; [|intros [= <-]; reflexivity].
  destruct (String.eqb _ _); [discriminate|intros [= <-]; reflexivity].
Qed.

(** What an accepted update stores: the patched operands, recomputed. *)
Lemma updateGrade_ok (st st' : Store) (user : User) (id : ObjectId)
    (body : GradeUpdate) (g' : GradeDoc) :
  updateGrade st user id body = (Ok200 g', st') ->
  exists g g1 g2,
    Grade_findById st id = Some g /\
    patchPoints body g = inr g1 /\ patchMax body g1 = inr g2 /\
    g' = patchFeedback body (recompute g2) /\
    Grade_save st g' = Some st'.
Proof.
  unfold updateGrade.
  destruct (Grade_findById st id) as [g|]; [|discriminate].
  destruct (teacherGate _ _ _ _) as [r|] eqn:Hg.
  { intros [= -> _]. apply teacherGate_refuses in Hg. discriminate. }
  destruct (patchPoints body g) as [?|g1] eqn:H1; [discriminate|].
  destruct (patchMax body g1) as [?|g2] eqn:H2; [discriminate|].
  destruct (Grade_save _ _) eqn:Hs; [|discriminate].
  intros H; injection H as <- <-. exists g, g1, g2. auto.
Qed.

Lemma updateGrade_inSync (st st' : Store) (user : User) (id : ObjectId)
    (body : GradeUpdate) (g' : GradeDoc) :
  updateGrade st user id body = (Ok200 g', st') -> inSync g'.
Proof.
  intros H. destruct (updateGrade_ok _ _ _ _ _ _ H)
    as (g & g1 & g2 & _ & _ & _ & -> & Hs).
  apply Grade_save_valid, schemaValid_operands in Hs.
  destruct Hs as (p & m & Hp & Hm).
  destruct (patchFeedback_fields body (recompute g2)) as (Ep & Em & Epc & El & _).
  destruct (recompute_operands g2) as (Rp & Rm & _).
  rewrite Ep, Rp in Hp. rewrite Em, Rm in Hm.
  destruct (recompute_inSync g2 p m Hp Hm) as (p' & m' & A & B & C & D).
  exists p', m'. rewrite Ep, Em, Epc, El. auto.
Qed.

Lemma createGrade_inSync (st st' : Store) (user : User) (body : GradeBody)
    (oid : ObjectId) (g : GradeDoc) :
  createGrade st user body oid = (Created201 g, st') -> inSync g.
Proof.
  unfold createGrade.
  repeat match goal with
    | Hg : teacherGate _ _ _ _ = Some ?r |- (?r, _) = _ -> _ =>
        intros [= -> _]; apply teacherGate_refuses in Hg; discriminate
    | |- context [match ?x with _ => _ end] => destruct x eqn:?; try discriminate
    end.
  intros H; injection H as <- <-.
  eexists _, _; cbn; eauto.
Qed.

(** C2: the letter grade that POST /grades and PUT /grades/:id derive is
    the threshold table's, with inclusive lower bounds: at least 90 gives
    "A+", at least 85 (and below 90) "A", and so on down to at least 45
    "D", anything lower "F"; 90.0 gives "A+" and 89.99 gives "A". *)
Theorem letterGrade_threshold_table :
  (forall p, deriveLetterGrade p = tableGrade p) /\
  (forall p,
     (ge p 90 = true -> deriveLetterGrade p = "A+") /\
     (ge p 85 = true -> lt p 90 = true -> deriveLetterGrade p = "A") /\
     (ge p 80 = true -> lt p 85 = true -> deriveLetterGrade p = "A-") /\
     (ge p 75 = true -> lt p 80 = true -> deriveLetterGrade p = "B+") /\
     (ge p 70 = true -> lt p 75 = true -> deriveLetterGrade p = "B") /\
     (ge p 65 = true -> lt p 70 = true -> deriveLetterGrade p = "B-") /\
     (ge p 60 = true -> lt p 65 = true -> deriveLetterGrade p = "C+") /\
     (ge p 55 = true -> lt p 60 = true -> deriveLetterGrade p = "C") /\
     (ge p 50 = true -> lt p 55 = true -> deriveLetterGrade p = "C-") /\
     (ge p 45 = true -> lt p 50 = true -> deriveLetterGrade p = "D") /\
     (lt p 45 = true -> deriveLetterGrade p = "F")) /\
  deriveLetterGrade 90.0 = "A+" /\
  deriveLetterGrade 89.99 = "A" /\
  (forall st user body oid g st',
     createGrade st user body oid = (Created201 g, st') ->
     exists pct, percentage g = Some pct /\
                 letterGrade g = Some (deriveLetterGrade pct)) /\
  (forall st user id body g st',
     updateGrade st user id body = (Ok200 g, st') ->
     exists pct, percentage g = Some pct /\
                 letterGrade g = Some (deriveLetterGrade pct)).
Proof.
  split; [exact deriveLetterGrade_table|].
  split; [exact deriveLetterGrade_bands|].
  split; [reflexivity|]. split; [reflexivity|].
  split.
  - intros st user body oid g st' H.
    destruct (createGrade_inSync _ _ _ _ _ _ H) as (p & m & _ & _ & A & B); eauto.
  - intros st user id body g st' H.
    destruct (updateGrade_inSync _ _ _ _ _ _ H) as (p & m & _ & _ & A & B); eauto.
Qed.


Lemma Grade_save_findById (st st' : Store) (g0 g : GradeDoc) (id : ObjectId) :
  Grade_findById st id = Some g0 -> grade_oid g = id ->
  Grade_save st g = Some st' -> Grade_findById st' id = Some g.
Proof.
  unfold Grade_save, Grade_findById.
  destruct (schemaValid g); [|discriminate].
  intros Hf Hid [= <-]; cbn. subst id.
  induction (grades st) as [|x l IH]; cbn in *; [discriminate|].
  destruct (String.eqb (grade_oid x) (grade_oid g)) eqn:E.
  - cbn. rewrite String.eqb_refl. reflexivity.
  - cbn. rewrite E. auto.
Qed.

Lemma Grade_findById_oid (st : Store) (id : ObjectId) (g : GradeDoc) :
  Grade_findById st id = Some g -> grade_oid g = id.
Proof.
  unfold Grade_findById. intros H. apply find_some in H.
  destruct H as [_ H]. now apply String.eqb_eq.
Qed.

(** C5: an update that changes only [pointsEarned] stores the percentage
    [pointsEarned / maxPoints * 100] over the stored [maxPoints]; one that
    changes only [maxPoints] uses the stored [pointsEarned].  The one case
    in which nothing is stored is a quotient that is NaN (infinitely many
    points out of infinitely many): the store refuses the percentage, the
    save throws and the stored grade stays as it was. *)
Theorem update_uses_stored_operand
    (st : Store) (user : User) (id : ObjectId) (g : GradeDoc)
    (stored : Grade_findById st id = Some g)
    (allowed : teacherGate st user (Course_findById st (grade_course g))
                 "Not authorized to update this grade" = None) :
  (forall p m fb,
     maxPoints g = Some m -> le 1 m = true -> le 0 p = true ->
     (PrimFloat.is_nan ((p / m) * 100) = true /\
      updateGrade st user id
        {| u_pointsEarned := Some p; u_maxPoints := None; u_feedback := fb |}
      = (Thrown, st)) \/
     (PrimFloat.is_nan ((p / m) * 100) = false /\
      exists g' st',
        updateGrade st user id
          {| u_pointsEarned := Some p; u_maxPoints := None; u_feedback := fb |}
        = (Ok200 g', st') /\
        Grade_findById st' id = Some g' /\
        pointsEarned g' = Some p /\ maxPoints g' = Some m /\
        percentage g' = Some ((p / m) * 100) /\
        letterGrade g' = Some (deriveLetterGrade ((p / m) * 100)))) /\
  (forall p m fb,
     pointsEarned g = Some p -> le 0 p = true -> le 1 m = true ->
     (PrimFloat.is_nan ((p / m) * 100) = true /\
      updateGrade st user id
        {| u_pointsEarned := None; u_maxPoints := Some m; u_feedback := fb |}
      = (Thrown, st)) \/
     (PrimFloat.is_nan ((p / m) * 100) = false /\
      exists g' st',
        updateGrade st user id
          {| u_pointsEarned := None; u_maxPoints := Some m; u_feedback := fb |}
        = (Ok200 g', st') /\
        Grade_findById st' id = Some g' /\
        pointsEarned g' = Some p /\ maxPoints g' = Some m /\
        percentage g' = Some ((p / m) * 100) /\
        letterGrade g' = Some (deriveLetterGrade ((p / m) * 100)))).
Proof.
  pose proof (Grade_findById_oid _ _ _ stored) as Hid.
  split; intros p m fb H1 H2 H3.
  - set (body := {| u_pointsEarned := Some p; u_maxPoints := None; u_feedback := fb |}).
    set (g' := patchFeedback body (recompute (set_pointsEarned g p))).
    destruct (patchFeedback_fields body (recompute (set_pointsEarned g p)))
      as (Ep & Em & Epc & El & Eo).
    assert (Hsync : pointsEarned g' = Some p /\ maxPoints g' = Some m /\
                    percentage g' = Some ((p / m) * 100) /\
                    letterGrade g' = Some (deriveLetterGrade ((p / m) * 100))).
    { unfold g'. rewrite Ep, Em, Epc, El. unfold recompute. cbn. rewrite H1. cbn.
      rewrite H1. auto. }
    assert (Hv : schemaValid g' = negb (PrimFloat.is_nan ((p / m) * 100))).
    { unfold schemaValid. destruct Hsync as (-> & -> & -> & _).
      now rewrite H2, H3. }
    assert (Hrun : updateGrade st user id body
                   = match Grade_save st g' with
                     | Some st' => (Ok200 g', st')
                     | None => (Thrown, st)
                     end).
    { unfold updateGrade. rewrite stored, allowed. unfold patchPoints, patchMax.
      cbn [u_pointsEarned u_maxPoints gt_body body].
      rewrite (le_not_lt _ _ H3). cbn [orb]. reflexivity. }
    destruct (PrimFloat.is_nan ((p / m) * 100)) eqn:Hn; [left|right];
      (split; [reflexivity|]).
    + rewrite Hrun. unfold Grade_save. now rewrite Hv.
    + assert (Hs : exists st', Grade_save st g' = Some st').
      { unfold Grade_save. rewrite Hv. cbn. eauto. }
      destruct Hs as [st' Hs]. exists g', st'. split; [|split].
      * now rewrite Hrun, Hs.
      * apply (Grade_save_findById st st' g g' id stored); [|exact Hs].
        unfold g'. rewrite Eo.
        now destruct (recompute_operands (set_pointsEarned g p)) as (_ & _ & ->).
      * exact Hsync.
  - set (body := {| u_pointsEarned := None; u_maxPoints := Some m; u_feedback := fb |}).
    set (g' := patchFeedback body (recompute (set_maxPoints g m))).
    destruct (patchFeedback_fields body (recompute (set_maxPoints g m)))
      as (Ep & Em & Epc & El & Eo).
    assert (Hsync : pointsEarned g' = Some p /\ maxPoints g' = Some m /\
                    percentage g' = Some ((p / m) * 100) /\
                    letterGrade g' = Some (deriveLetterGrade ((p / m) * 100))).
    { unfold g'. rewrite Ep, Em, Epc, El. unfold recompute. cbn. rewrite H1. cbn.
      rewrite H1. auto. }
    assert (Hv : schemaValid g' = negb (PrimFloat.is_nan ((p / m) * 100))).
    { unfold schemaValid. destruct Hsync as (-> & -> & -> & _).
      now rewrite H2, H3. }
    assert (Hrun : updateGrade st user id body
                   = match Grade_save st g' with
                     | Some st' => (Ok200 g', st')
                     | None => (Thrown, st)
                     end).
    { unfold updateGrade. rewrite stored, allowed. unfold patchPoints, patchMax.
      cbn [u_pointsEarned u_maxPoints gt_body body].
      rewrite (at_least_one_positive _ H3). reflexivity. }
    destruct (PrimFloat.is_nan ((p / m) * 100)) eqn:Hn; [left|right];
      (split; [reflexivity|]).
    + rewrite Hrun. unfold Grade_save. now rewrite Hv.
    + assert (Hs : exists st', Grade_save st g' = Some st').
      { unfold Grade_save. rewrite Hv. cbn. eauto. }
      destruct Hs as [st' Hs]. exists g', st'. split; [|split].
      * now rewrite Hrun, Hs.
      * apply (Grade_save_findById st st' g g' id stored); [|exact Hs].
        unfold g'. rewrite Eo.
        now destruct (recompute_operands (set_maxPoints g m)) as (_ & _ & ->).
      * exact Hsync.
Qed.

Lemma update_uses_stored_operand_witness :
  Grade_findById Scenario.gradeStore "g1" = Some Scenario.grade50 /\
  exists g' st',
    updateGrade Scenario.gradeStore Scenario.admin "g1"
      {| u_pointsEarned := Some 90; u_maxPoints := None; u_feedback := None |}
    = (Ok200 g', st') /\
    Grade_findById st' "g1" = Some g' /\
    pointsEarned g' = Some 90 /\ maxPoints g' = Some 100 /\
    percentage g' = Some ((90 / 100) * 100) /\
    letterGrade g' = Some (deriveLetterGrade ((90 / 100) * 100)).
Proof.
  split; [reflexivity|].
  destruct (proj1 (update_uses_stored_operand Scenario.gradeStore Scenario.admin
                     "g1" Scenario.grade50 eq_refl eq_refl)
                  90 100 None eq_refl eq_refl eq_refl) as [[Hn _]|[_ H]].
  - vm_compute in Hn. discriminate Hn.
  - exact H.
Defined.

(** Infinitely many points out of infinitely many: once [maxPoints] is
    infinite (which the store accepts, with a percentage of 0), an update
    of [pointsEarned] to infinity throws and stores nothing. *)
Example nan_percentage_is_refused :
  payload (fst (updateGrade Scenario.gradeStore Scenario.admin "g1"
                  (Scenario.onlyMax infinity)))
  = Some (set_derived (set_maxPoints Scenario.grade50 infinity) 0 "F") /\
  updateGrade
    (snd (updateGrade Scenario.gradeStore Scenario.admin "g1"
            (Scenario.onlyMax infinity)))
    Scenario.admin "g1" (Scenario.onlyPoints infinity)
  = (Thrown,
     snd (updateGrade Scenario.gradeStore Scenario.admin "g1"
            (Scenario.onlyMax infinity))).
Proof. split; vm_compute; reflexivity. Qed.

(** The stored 50/100 = "C-" becomes 90/100 = "A+" when only
    [pointsEarned] is sent: the derived fields are not left stale. *)
Lemma derived_fields_not_left_stale : ~ derivedLeftStale.
Proof.
  intros H.
  destruct (H Scenario.gradeStore Scenario.admin "g1" (Scenario.onlyPoints 90)
              Scenario.grade50 _ _ eq_refl ltac:(cbn; discriminate) eq_refl)
    as [_ Hl].
  cbn in Hl. discriminate Hl.
Qed.

(** C4, as the handler has it: an accepted update that supplies only one
    of [pointsEarned] and [maxPoints] recomputes the derived fields from
    the supplied operand and the stored value of the other one; the saved
    grade carries [percentage = pointsEarned / maxPoints * 100] and the
    letter of the table for it. *)
Theorem partial_update_recomputes
    (st st' : Store) (user : User) (id : ObjectId) (body : GradeUpdate)
    (g' : GradeDoc) :
  suppliesOne body ->
  updateGrade st user id body = (Ok200 g', st') ->
  exists g p m,
    Grade_findById st id = Some g /\
    (u_pointsEarned body = Some p /\ maxPoints g = Some m \/
     u_maxPoints body = Some m /\ pointsEarned g = Some p) /\
    pointsEarned g' = Some p /\ maxPoints g' = Some m /\
    percentage g' = Some (computePercentage p m) /\
    letterGrade g' = Some (deriveLetterGrade (computePercentage p m)) /\
    Grade_findById st' id = Some g'.
Proof.
  intros Hone Hup.
  destruct (updateGrade_inSync _ _ _ _ _ _ Hup) as (p & m & Hp & Hm & Hpc & Hl).
  destruct (updateGrade_ok _ _ _ _ _ _ Hup) as (g & g1 & g2 & Hf & H1 & H2 & Hg' & Hs).
  assert (Hoid : grade_oid g' = id).
  { rewrite Hg'.
    destruct (patchFeedback_fields body (recompute g2)) as (_ & _ & _ & _ & ->).
    destruct (recompute_operands g2) as (_ & _ & ->).
    unfold patchPoints in H1. unfold patchMax in H2.
    destruct (u_pointsEarned body), (u_maxPoints body);
      repeat match goal with
        | H : (if ?c then _ else _) = inr _ |- _ => destruct c; [discriminate|]
        | H : inr _ = inr _ |- _ => injection H as <-
        end; cbn; eapply Grade_findById_oid; eauto. }
  exists g, p, m. split; [exact Hf|].
  split; [|repeat split; auto; eapply Grade_save_findById; eauto].
  destruct (patchFeedback_fields body (recompute g2)) as (Ep & Em & _).
  destruct (recompute_operands g2) as (Rp & Rm & _).
  rewrite Hg', Ep, Rp in Hp. rewrite Hg', Em, Rm in Hm.
  unfold suppliesOne in Hone. unfold patchPoints in H1. unfold patchMax in H2.
  destruct (u_pointsEarned body) as [p0|], (u_maxPoints body) as [m0|];
    cbn in Hone; try congruence;
    repeat match goal with
      | H : (if ?c then _ else _) = inr _ |- _ => destruct c; [discriminate|]
      | H : inr _ = inr _ |- _ => injection H as <-
      end; cbn in Hp, Hm.
  - left. split; congruence.
  - right. split; congruence.
Qed.

Lemma partial_update_recomputes_witness :
  exists g p m,
    Grade_findById Scenario.gradeStore "g1" = Some g /\
    (u_pointsEarned (Scenario.onlyMax 200) = Some p /\ maxPoints g = Some m \/
     u_maxPoints (Scenario.onlyMax 200) = Some m /\ pointsEarned g = Some p) /\
    pointsEarned (set_derived (set_maxPoints Scenario.grade50 200) 25 "F") = Some p /\
    maxPoints (set_derived (set_maxPoints Scenario.grade50 200) 25 "F") = Some m /\
    percentage (set_derived (set_maxPoints Scenario.grade50 200) 25 "F")
      = Some (computePercentage p m) /\
    letterGrade (set_derived (set_maxPoints Scenario.grade50 200) 25 "F")
      = Some (deriveLetterGrade (computePercentage p m)) /\
    Grade_findById
      {| students := []; teachers := []; courses := []; assignments := [];
         quizzes := []; attendance := [];
         grades := [set_derived (set_maxPoints Scenario.grade50 200) 25 "F"] |}
      "g1"
    = Some (set_derived (set_maxPoints Scenario.grade50 200) 25 "F").
Proof.
  apply (partial_update_recomputes Scenario.gradeStore _ Scenario.admin "g1"
           (Scenario.onlyMax 200)).
  - unfold suppliesOne; cbn; discriminate.
  - reflexivity.
Defined.

End GradeFacts.

(** ** Attendance of one student *)

Module StudentAttendanceFacts.

Import Js Attendance Spec.
Local Open Scope float_scope.

Lemma matchesQuery_iff (sid : ObjectId) (q : StudentQuery) (a : AttendanceDoc) :
  matchesQuery sid q a = true <->
  att_student a = sid /\
  (forall c, q_course q = Some c -> c <> "" -> att_course a = c) /\
  (forall d, q_startDate q = Some d -> (d <= att_date a)%Z) /\
  (forall d, q_endDate q = Some d -> (att_date a <= d)%Z).
Proof.
  unfold matchesQuery, truthy.
  rewrite !andb_true_iff, String.eqb_eq.
  destruct (q_course q) as [[|ch c]|], (q_startDate q) as [d1|], (q_endDate q) as [d2|];
    rewrite ?Z.leb_le, ?String.eqb_eq; split;
    try (intros (((H1 & H2) & H3) & H4); repeat split; auto;
         intros ? [= <-]; auto; congruence);
    intros (H1 & H2 & H3 & H4); repeat split; auto; apply H2; auto; discriminate.
Qed.


Lemma getStudentAttendance_statistics (st : Store) (user : User) (sid : ObjectId)
    (q : StudentQuery) (data : StudentAttendance) :
  getStudentAttendance st user sid q = Ok200 data ->
  statistics data = statisticsOf (Attendance_find st (matchesQuery sid q)).
Proof.
  unfold getStudentAttendance.
  destruct (Student_findById st sid); [|discriminate].
  destruct (accessDenied _ _); [discriminate|].
  destruct (_ && _); [discriminate|].
  intros [= <-]. reflexivity.
Qed.




(** The quotient and the product are binary64 operations: 57 present out
    of 200 gives 28.499999999999996, which rounds to 28. *)
Remark rate_57_of_200 :
  Math_round ((of_nat 57 / of_nat 200) * 100) = 28 /\
  Math_round ((of_nat 1 / of_nat 8) * 100) = 13.
Proof. split; reflexivity. Qed.

Lemma count_partition (l : list AttendanceDoc) :
  length l
  = (countOf present l + countOf absent l + countOf late l + countOf excused l)%nat.
Proof.
  unfold countOf. induction l as [|a l IH]; [reflexivity|].
  cbn [filter length]. destruct (att_status a); cbn [status_eqb length]; lia.
Qed.

Lemma present_count (l : list AttendanceDoc) :
  length (filter isPresent l) = countOf present l.
Proof.
  unfold countOf. induction l as [|a l IH]; [reflexivity|].
  cbn [filter]. unfold isPresent at 1.
  destruct (att_status a); cbn [status_eqb length]; auto.
Qed.

Lemma present_after_asAbsent (l : list AttendanceDoc) :
  length (filter isPresent (map asAbsent l)) = length (filter isPresent l).
Proof.
  induction l as [|a l IH]; [reflexivity|].
  cbn [map filter].
  assert (E : isPresent (asAbsent a) = isPresent a)
    by (unfold isPresent, asAbsent; cbn [att_status]; now destruct (att_status a)).
  rewrite E. destruct (isPresent a); cbn [length]; auto.
Qed.

(** C10: [absent] is [total - present], so a late or excused record is
    reported inside [absent] and weighs on the rate exactly as an absent
    one; only the present records enter the numerator. *)
Theorem absent_is_total_minus_present :
  (forall l : list AttendanceDoc,
     stat_present (statisticsOf l) = countOf present l /\
     stat_absent (statisticsOf l)
     = Z.of_nat (countOf absent l + countOf late l + countOf excused l) /\
     stat_absent (statisticsOf l)
     = (Z.of_nat (total (statisticsOf l)) - Z.of_nat (stat_present (statisticsOf l)))%Z /\
     attendanceRate (statisticsOf l)
     = (if Nat.eqb (length l) 0 then 0
        else Math_round ((of_nat (countOf present l) / of_nat (length l)) * 100)) /\
     statisticsOf (map asAbsent l) = statisticsOf l) /\
  (forall st user sid q data,
     getStudentAttendance st user sid q = Ok200 data ->
     statistics data = statisticsOf (filter (matchesQuery sid q) (attendance st))).
Proof.
  split.
  - intros l. unfold statisticsOf. cbn [stat_present stat_absent total attendanceRate].
    rewrite present_after_asAbsent, length_map, present_count.
    repeat split.
    + rewrite (count_partition l) at 1. lia.
    + destruct (length l); reflexivity.
  - intros st user sid q data H.
    apply (getStudentAttendance_statistics _ _ _ _ _ H).
Qed.

(** Where the handler's test and the gate of section 4.1 agree: for an
    administrator, for a student, and for a parent when the student has a
    parent reference. *)
Lemma gate_agreement (st : Store) (user : User) (student : StudentDoc)
    (course : option ObjectId) :
  user_role user = "admin" \/ user_role user = "student" \/
  (user_role user = "parent" /\ student_parent student <> None) ->
  accessDenied user student = negb (gateAllows st user student course).
Proof.
  unfold accessDenied, gateAllows.
  intros [-> | [-> | [-> Hp]]]; cbn.
  - reflexivity.
  - now destruct (String.eqb _ _).
  - destruct (student_parent student); [|congruence]. now destruct (String.eqb _ _).
Qed.

(** C1 at a failing request: the handler never turns a teacher away.  The
    account "ut2" teaches nothing in "c1", the gate of section 4.1 denies
    it, and the handler still sends the records of "s1"; likewise for
    the parent "p3" and the student "s2", who has no parent reference. *)
Theorem teacher_is_not_gated :
  (forall uid student, accessDenied {| user_id := uid; user_role := "teacher" |} student = false) /\
  gateAllows Scenario.classStore Scenario.otherTeacher
    (Scenario.pupil "s1" "u1" (Some "p1")) (Some "c1") = false /\
  getStudentAttendance Scenario.classStore Scenario.otherTeacher "s1"
    (Scenario.firstPage (Some "c1"))
  = Ok200 {| attendanceRecords := [ Scenario.att 3 "s1" 2 present;
                                    Scenario.att 1 "s1" 1 present ];
             statistics := {| total := 2; stat_present := 2; stat_absent := 0;
                              attendanceRate := 100 |} |} /\
  gateAllows Scenario.classStore Scenario.otherParent
    (Scenario.pupil "s2" "u2" None) None = false /\
  payload (getStudentAttendance Scenario.classStore Scenario.otherParent "s2"
             (Scenario.firstPage None)) <> None.
Proof.
  split; [reflexivity|]. split; [reflexivity|]. split; [vm_compute; reflexivity|].
  split; [reflexivity|]. vm_compute. discriminate.
Qed.

End StudentAttendanceFacts.

(** ** Marking a batch *)

Module BatchFacts.

Import Js Attendance Spec Invariants.
Local Open Scope list_scope.

(** The loop body is the sequence of checks of the specification. *)
Lemma markOne_markStep (tz : TimeZone) (user : User) (b : Batch) (r : AttendanceInput) :
  markOne tz user b r = markStep tz user b r.
Proof.
  unfold markOne, markStep, hasRequiredFields, enrolledIn, alreadyRecorded,
    createFor, missingFieldsError, notEnrolledError, truthy, dateOf.
  destruct (r_student r) as [[|? ?]|], (r_course r) as [[|? ?]|],
           (r_date r) as [dv|], (r_status r) as [[|? ?]|];
    cbn [negb andb option_map]; try reflexivity;
    try (destruct (truthyDate (Some dv)); reflexivity).
  destruct (truthyDate (Some dv)); cbn [negb andb]; [|reflexivity].
  destruct (Course_findById _ _); [|reflexivity].
  destruct (includes _ _); reflexivity.
Qed.


(** *** Calendar days *)

(** A zone of fixed offset has days of 24 hours that tile the time line. *)
Lemma fixedZone_calendar (offset : Z) : calendar (fixedZone offset).
Proof.
  split.
  - intros t. unfold endOfDay, startOfDay, setHours, UTC, LocalTime, Day,
      fixedZone, msPerDay, msPerHour. cbn.
    pose proof (Z.div_mod (t + offset) 86400000 ltac:(lia)).
    pose proof (Z.mod_pos_bound (t + offset) 86400000 ltac:(lia)). lia.
  - intros t t'. unfold endOfDay, startOfDay, setHours, UTC, LocalTime, Day,
      fixedZone, msPerDay, msPerHour. cbn. intros H.
    pose proof (Z.div_mod (t + offset) 86400000 ltac:(lia)) as E.
    pose proof (Z.mod_pos_bound (t + offset) 86400000 ltac:(lia)) as B.
    assert (Hq : ((t' + offset) / 86400000 = (t + offset) / 86400000)%Z).
    { symmetry. apply (Z.div_unique (t' + offset) 86400000 _
                         (t' + offset - 86400000 * ((t + offset) / 86400000))); lia. }
    rewrite Hq. split; reflexivity.
Qed.

(** So has a zone with summer time: the day on which summer time starts
    has 23 hours and the day on which it ends has 25. *)
Lemma berlin_calendar : calendar Scenario.berlin.
Proof.
  split.
  - intros t. unfold endOfDay, startOfDay, setHours, UTC, LocalTime, Day,
      Scenario.berlin, Scenario.summerStart, Scenario.summerEnd,
      msPerDay, msPerHour. cbn [offsetAtInstant offsetAtLocal].
    repeat match goal with
      | |- context [(?a <? ?b)%Z] => destruct (Z.ltb_spec a b)
      end; Z.div_mod_to_equations; lia.
  - intros t t'. unfold endOfDay, startOfDay, setHours, UTC, LocalTime, Day,
      Scenario.berlin, Scenario.summerStart, Scenario.summerEnd,
      msPerDay, msPerHour. cbn [offsetAtInstant offsetAtLocal].
    intros Hwin.
    assert (Hq : ((t' + (if (t' <? 1711846800000)%Z then 3600000
                         else if (t' <? 1729990800000)%Z then 7200000 else 3600000))
                  / 86400000
                  = (t + (if (t <? 1711846800000)%Z then 3600000
                          else if (t <? 1729990800000)%Z then 7200000 else 3600000))
                    / 86400000)%Z).
    { revert Hwin.
      repeat match goal with
        | |- context [(?a <? ?b)%Z] => destruct (Z.ltb_spec a b)
        end; intros Hwin; Z.div_mod_to_equations; lia. }
    rewrite Hq. split; reflexivity.
Qed.

(** Two instants of one calendar day select the same stored records. *)
Lemma sameDay_window (tz : TimeZone) (s c : ObjectId) (d d' : Z) (a : AttendanceDoc) :
  wholeDays tz ->
  (startOfDay tz d <= d' < endOfDay tz d)%Z ->
  sameDay tz s c d' a = sameDay tz s c d a.
Proof.
  intros Hw H. unfold sameDay. destruct (Hw d d' H) as [-> ->]. reflexivity.
Qed.

Lemma sameDay_self (tz : TimeZone) (a : AttendanceDoc) :
  ownDay tz ->
  sameDay tz (att_student a) (att_course a) (att_date a) a = true.
Proof.
  intros Ho. unfold sameDay. rewrite !String.eqb_refl. cbn [andb].
  pose proof (Ho (att_date a)).
  apply andb_true_iff. split; [apply Z.leb_le | apply Z.ltb_lt]; lia.
Qed.

(** *** The store under one step *)

Lemma find_app_some {A} (p : A -> bool) (l l' : list A) (x : A) :
  find p l = Some x -> find p (l ++ l') = Some x.
Proof.
  induction l as [|y l IH]; cbn; [discriminate|].
  destruct (p y); auto.
Qed.

Lemma find_app_none {A} (p : A -> bool) (l l' : list A) :
  find p l = None -> find p (l ++ l') = find p l'.
Proof.
  induction l as [|y l IH]; cbn; [reflexivity|].
  destruct (p y); [discriminate|auto].
Qed.

Lemma createFor_inr (st st' : Store) (user : User) (r : AttendanceInput)
    (doc : AttendanceDoc) :
  createFor st user r = inr (st', doc) ->
  attendance st' = attendance st ++ [doc] /\
  courses st' = courses st /\ students st' = students st /\
  teachers st' = teachers st /\ grades st' = grades st /\
  assignments st' = assignments st /\ quizzes st' = quizzes st /\
  r_student r = Some (att_student doc) /\ r_course r = Some (att_course doc) /\
  dateOf r = Some (att_date doc) /\ att_oid doc = freshOid st /\
  att_markedBy doc = user_id user.
Proof.
  unfold createFor, Attendance_create, dateOf.
  destruct (r_student r), (r_course r), (r_date r), (r_status r);
    cbn [option_map]; try discriminate.
  destruct (parseStatus _); [|discriminate].
  destruct (parseMethod _); [|discriminate].
  destruct (existsb _ _); [discriminate|].
  intros [= <- <-]. cbn. repeat split; reflexivity.
Qed.

(** One step leaves the store as it is, or appends the one document it
    created for a record that had none on its day. *)
Lemma markStep_store (tz : TimeZone) (user : User) (b : Batch) (r : AttendanceInput) :
  batch_store (markStep tz user b r) = batch_store b \/
  exists st' doc,
    batch_store (markStep tz user b r) = st' /\
    createFor (batch_store b) user r = inr (st', doc) /\
    alreadyRecorded tz (batch_store b) r = None.
Proof.
  unfold markStep.
  destruct (negb (hasRequiredFields r)); [now left|].
  destruct (negb (enrolledIn _ r)); [now left|].
  destruct (alreadyRecorded tz _ r) eqn:Ha; [now left|].
  destruct (createFor _ user r) as [e|[st' doc]] eqn:Hc; [now left|].
  right. exists st', doc. auto.
Qed.

(** One step appends exactly one item, to the results or to the errors,
    and it is the item of the record. *)
Lemma markStep_item (tz : TimeZone) (user : User) (b : Batch) (r : AttendanceInput) :
  (exists x, results (markStep tz user b r) = results b ++ [x] /\
             errors (markStep tz user b r) = errors b /\ res_record x = r) \/
  (exists e, errors (markStep tz user b r) = errors b ++ [e] /\
             results (markStep tz user b r) = results b /\ err_record e = r /\
             batch_store (markStep tz user b r) = batch_store b).
Proof.
  unfold markStep, missingFieldsError, notEnrolledError.
  destruct (negb (hasRequiredFields r)); [right; eexists; cbn; eauto|].
  destruct (negb (enrolledIn _ r)); [right; eexists; cbn; eauto|].
  destruct (alreadyRecorded tz _ r); [left; eexists; cbn; eauto|].
  destruct (createFor _ user r) as [e|[st' doc]].
  - right; eexists; cbn; eauto.
  - left; eexists; cbn; eauto.
Qed.

(** *** The loop *)

Lemma markAll_cons (tz : TimeZone) (user : User) (r : AttendanceInput)
    (records : list AttendanceInput) (b : Batch) :
  markAll tz user (r :: records) b = markAll tz user records (markStep tz user b r).
Proof. unfold markAll. cbn. now rewrite markOne_markStep. Qed.

Lemma markAll_results_grow (tz : TimeZone) (user : User) (records : list AttendanceInput) :
  forall b x, In x (results b) -> In x (results (markAll tz user records b)).
Proof.
  induction records as [|r records IH]; intros b x Hx; [exact Hx|].
  rewrite markAll_cons. apply IH.
  destruct (markStep_item tz user b r) as [(y & -> & _)|(e & _ & -> & _)];
    [apply in_or_app; now left | exact Hx].
Qed.

Lemma markAll_errors_grow (tz : TimeZone) (user : User) (records : list AttendanceInput) :
  forall b e, In e (errors b) -> In e (errors (markAll tz user records b)).
Proof.
  induction records as [|r records IH]; intros b x Hx; [exact Hx|].
  rewrite markAll_cons. apply IH.
  destruct (markStep_item tz user b r) as [(y & _ & -> & _)|(e & -> & _)];
    [exact Hx | apply in_or_app; now left].
Qed.

Lemma markAll_counts (tz : TimeZone) (user : User) (records : list AttendanceInput) :
  forall b,
    (length (results (markAll tz user records b)) + length (errors (markAll tz user records b))
     = length records + (length (results b) + length (errors b)))%nat.
Proof.
  induction records as [|r records IH]; intros b; [reflexivity|].
  rewrite markAll_cons, IH. cbn [length].
  destruct (markStep_item tz user b r) as [(y & -> & -> & _)|(e & -> & -> & _)];
    rewrite length_app; cbn [length]; lia.
Qed.

Lemma markAll_accounts (tz : TimeZone) (user : User) (records : list AttendanceInput) :
  forall b r, In r records ->
    In r (map res_record (results (markAll tz user records b))) \/
    In r (map err_record (errors (markAll tz user records b))).
Proof.
  induction records as [|r0 records IH]; intros b r Hr; [destruct Hr|].
  rewrite markAll_cons. destruct Hr as [->|Hr]; [|now apply IH].
  destruct (markStep_item tz user b r) as [(y & Hy & _ & <-)|(e & He & _ & <- & _)].
  - left. apply in_map, markAll_results_grow. rewrite Hy. apply in_or_app. right. now left.
  - right. apply in_map, markAll_errors_grow. rewrite He. apply in_or_app. right. now left.
Qed.


Lemma sameDay_true_iff (tz : TimeZone) (s c : ObjectId) (d : Z) (a : AttendanceDoc) :
  sameDay tz s c d a = true <->
  att_student a = s /\ att_course a = c /\
  (startOfDay tz d <= att_date a < endOfDay tz d)%Z.
Proof.
  unfold sameDay. rewrite !andb_true_iff, !String.eqb_eq, Z.leb_le, Z.ltb_lt.
  tauto.
Qed.

(** *** What a batch keeps of the store it started from *)

Section FromStore.

Variables (tz : TimeZone) (st : Store) (user : User).

Lemma extends_step (b : Batch) (r : AttendanceInput) :
  extends st b -> extends st (markStep tz user b r).
Proof.
  intros [Hc (added & Ha)]. unfold extends.
  destruct (markStep_store tz user b r) as [->|(st' & doc & -> & Hcr & _)];
    [split; eauto|].
  apply createFor_inr in Hcr. destruct Hcr as (Hatt & Hco & _).
  split; [congruence|]. exists (added ++ [doc]). rewrite Hatt, Ha. now rewrite app_assoc.
Qed.

Lemma extends_markAll (records : list AttendanceInput) :
  forall b, extends st b -> extends st (markAll tz user records b).
Proof.
  induction records as [|r records IH]; intros b Hb; [exact Hb|].
  rewrite markAll_cons. apply IH, extends_step, Hb.
Qed.

Lemma enrolledIn_courses (s1 s2 : Store) (r : AttendanceInput) :
  courses s1 = courses s2 -> enrolledIn s1 r = enrolledIn s2 r.
Proof.
  intros H. unfold enrolledIn, Course_findById. now rewrite H.
Qed.

Lemma markAll_missing (records : list AttendanceInput) :
  forall b r, In r records -> hasRequiredFields r = false ->
    In (missingFieldsError r) (errors (markAll tz user records b)).
Proof.
  induction records as [|r0 records IH]; intros b r Hr Hm; [destruct Hr|].
  rewrite markAll_cons. destruct Hr as [->|Hr]; [|now apply IH].
  apply markAll_errors_grow. unfold markStep. rewrite Hm. cbn.
  apply in_or_app. right. now left.
Qed.

Lemma markAll_not_enrolled (records : list AttendanceInput) :
  forall b r, extends st b -> In r records ->
    hasRequiredFields r = true -> enrolledIn st r = false ->
    In (notEnrolledError r) (errors (markAll tz user records b)).
Proof.
  induction records as [|r0 records IH]; intros b r Hb Hr Hf He; [destruct Hr|].
  rewrite markAll_cons. destruct Hr as [->|Hr]; [|apply IH; auto using extends_step].
  apply markAll_errors_grow. unfold markStep. rewrite Hf.
  rewrite (enrolledIn_courses _ st r (proj1 Hb)), He. cbn.
  apply in_or_app. right. now left.
Qed.

Lemma markAll_refused (records : list AttendanceInput) :
  forall b r s, extends st b -> In r records ->
    hasRequiredFields r = true -> enrolledIn st r = true ->
    r_status r = Some s -> parseStatus s = None ->
    In {| err_record := r; err_error := Caught (ValidationError "status") |}
       (errors (markAll tz user records b)) \/
    exists x, In x (results (markAll tz user records b)) /\
              res_record x = r /\ res_status x = already_marked.
Proof.
  induction records as [|r0 records IH]; intros b r s Hb Hr Hf He Hs Hp; [destruct Hr|].
  rewrite markAll_cons.
  destruct Hr as [->|Hr]; [|eapply IH; eauto using extends_step].
  unfold markStep. rewrite Hf, (enrolledIn_courses _ st r (proj1 Hb)), He. cbn [negb].
  destruct (alreadyRecorded tz (batch_store b) r) as [e|] eqn:Ha.
  - right. eexists. split; [apply markAll_results_grow; cbn; apply in_or_app; right; now left|].
    cbn. auto.
  - assert (Hc : createFor (batch_store b) user r = inl (ValidationError "status")).
    { unfold createFor, Attendance_create, dateOf. rewrite Hs, Hp.
      unfold hasRequiredFields, truthy in Hf.
      destruct (r_student r) as [[|? ?]|], (r_course r) as [[|? ?]|], (r_date r);
        cbn in Hf; try discriminate; reflexivity. }
    rewrite Hc. left. apply markAll_errors_grow. cbn. apply in_or_app. right. now left.
Qed.

(** A record that is on file for the day of [r0] when the batch starts
    stays the one that the lookup finds, and no record of that day is
    added. *)
Variables (r0 : AttendanceInput) (e0 : AttendanceDoc).
Hypothesis days : wholeDays tz.
Hypothesis onFile : alreadyRecorded tz st r0 = Some e0.

Lemma keepsDay_found (b : Batch) :
  keepsDay tz st r0 b -> alreadyRecorded tz (batch_store b) r0 = Some e0.
Proof.
  intros [_ (added & Ha & _)]. revert onFile. unfold alreadyRecorded, Attendance_findOne.
  destruct (r_student r0), (r_course r0), (dateOf r0); try discriminate.
  rewrite Ha. apply find_app_some.
Qed.

Lemma keepsDay_step (b : Batch) (r : AttendanceInput) :
  keepsDay tz st r0 b -> keepsDay tz st r0 (markStep tz user b r).
Proof.
  intros Hb. pose proof (keepsDay_found b Hb) as Hfound.
  destruct Hb as [Hc (added & Ha & Hn)]. unfold keepsDay.
  destruct (markStep_store tz user b r) as [->|(st' & doc & -> & Hcr & Hnone)];
    [split; eauto|].
  apply createFor_inr in Hcr.
  destruct Hcr as (Hatt & Hco & _ & _ & _ & _ & _ & Hs & Hcs & Hd & _).
  split; [congruence|]. exists (added ++ [doc]). split.
  { rewrite Hatt, Ha. now rewrite app_assoc. }
  rewrite filter_app, Hn. cbn [app filter].
  destruct (sameDayAs tz r0 doc) eqn:Hsame; [exfalso|reflexivity].
  unfold alreadyRecorded, Attendance_findOne in Hfound, Hnone.
  unfold sameDayAs in Hsame. rewrite Hs, Hcs, Hd in Hnone.
  destruct (r_student r0) as [s0|], (r_course r0) as [c0|], (dateOf r0) as [d0|];
    try discriminate.
  apply find_some in Hfound. destruct Hfound as [Hin He0].
  apply sameDay_true_iff in Hsame. destruct Hsame as (E1 & E2 & Hw).
  rewrite E1, E2 in Hnone.
  apply (find_none _ _ Hnone) in Hin.
  rewrite (sameDay_window tz s0 c0 d0 (att_date doc) e0 days Hw) in Hin. congruence.
Qed.

Lemma keepsDay_markAll (records : list AttendanceInput) :
  forall b, keepsDay tz st r0 b -> keepsDay tz st r0 (markAll tz user records b).
Proof.
  induction records as [|r records IH]; intros b Hb; [exact Hb|].
  rewrite markAll_cons. apply IH, keepsDay_step, Hb.
Qed.

Lemma markAll_already_marked (records : list AttendanceInput) :
  forall b, keepsDay tz st r0 b -> In r0 records ->
    hasRequiredFields r0 = true -> enrolledIn st r0 = true ->
    In {| res_record := r0; res_status := already_marked;
          res_attendanceId := att_oid e0 |}
       (results (markAll tz user records b)).
Proof.
  induction records as [|r records IH]; intros b Hb Hr Hf He; [destruct Hr|].
  rewrite markAll_cons. destruct Hr as [->|Hr]; [|apply IH; auto using keepsDay_step].
  apply markAll_results_grow. unfold markStep.
  rewrite Hf, (enrolledIn_courses _ st r0 (proj1 Hb)), He, (keepsDay_found b Hb). cbn.
  apply in_or_app. right. now left.
Qed.

End FromStore.


(** *** The handler *)

Lemma emptyBatch_extends (st : Store) : extends st (emptyBatch st).
Proof. split; [reflexivity|]. exists []. cbn. now rewrite app_nil_r. Qed.

Lemma emptyBatch_keepsDay (tz : TimeZone) (st : Store) (r0 : AttendanceInput) :
  keepsDay tz st r0 (emptyBatch st).
Proof. split; [reflexivity|]. exists []. cbn. now rewrite app_nil_r. Qed.

Lemma markAttendance_nonempty (tz : TimeZone) (st : Store) (user : User)
    (records : list AttendanceInput) :
  records <> [] ->
  markAttendance tz st user (Some records)
  = (Ok200 {| md_results := results (markAll tz user records (emptyBatch st));
              md_errors := errors (markAll tz user records (emptyBatch st));
              processed := length (results (markAll tz user records (emptyBatch st)));
              failed := length (errors (markAll tz user records (emptyBatch st))) |},
     batch_store (markAll tz user records (emptyBatch st))).
Proof. destruct records; [congruence|reflexivity]. Qed.

(** An empty list is turned away with a 400 and no envelope. *)
Lemma empty_batch_is_rejected : ~ alwaysItemized.
Proof.
  intros H.
  destruct (H Scenario.utc Scenario.classStore Scenario.admin []) as (data & st' & E).
  discriminate E.
Qed.

(** C8: the batch never aborts on a record's failure.  For a list with
    at least one record, every record ends in the results or in the
    errors, a record with a missing field, a student who is not enrolled
    or a document the store refuses is appended to the errors while the
    loop goes on, and the response carries both lists with their lengths
    as [processed] and [failed].  An empty list, or a body that is not an
    array, is answered with a 400 and changes nothing. *)
Theorem batch_never_aborts (tz : TimeZone) (st : Store) (user : User) :
  (forall body, body = None \/ body = Some [] ->
     markAttendance tz st user body
     = (BadRequest400 "Please provide attendance records", st)) /\
  (forall records, records <> [] ->
   exists data st',
    markAttendance tz st user (Some records) = (Ok200 data, st') /\
    processed data = length (md_results data) /\
    failed data = length (md_errors data) /\
    (processed data + failed data)%nat = length records /\
    (forall r, In r records ->
       In r (map res_record (md_results data)) \/
       In r (map err_record (md_errors data))) /\
    (forall r, In r records -> hasRequiredFields r = false ->
       In (missingFieldsError r) (md_errors data)) /\
    (forall r, In r records -> hasRequiredFields r = true ->
       enrolledIn st r = false ->
       In (notEnrolledError r) (md_errors data)) /\
    (forall r s, In r records -> hasRequiredFields r = true ->
       enrolledIn st r = true -> r_status r = Some s -> parseStatus s = None ->
       In {| err_record := r; err_error := Caught (ValidationError "status") |}
          (md_errors data) \/
       exists x, In x (md_results data) /\ res_record x = r /\
                 res_status x = already_marked)).
Proof.
  split; [intros body [-> | ->]; reflexivity|].
  intros records nonempty.
  eexists _, _. split; [apply markAttendance_nonempty, nonempty|].
  cbn [processed failed md_results md_errors].
  split; [reflexivity|]. split; [reflexivity|].
  split; [rewrite markAll_counts; cbn; lia|].
  split; [intros r Hr; now apply markAll_accounts|].
  split; [intros r Hr Hm; now apply markAll_missing|].
  split; [intros r Hr Hf He; apply (markAll_not_enrolled tz st); auto using emptyBatch_extends|].
  intros r s Hr Hf He Hs Hp. apply (markAll_refused tz st user records _ r s);
    auto using emptyBatch_extends.
Qed.


Lemma batch_never_aborts_witness :
  markAttendance Scenario.utc Scenario.classStore Scenario.admin (Some [])
  = (BadRequest400 "Please provide attendance records", Scenario.classStore) /\
  exists data st',
    markAttendance Scenario.utc Scenario.classStore Scenario.admin
      (Some Scenario.mixedBatch)
    = (Ok200 data, st') /\
    (processed data + failed data)%nat = 6%nat /\
    In (missingFieldsError (nth 3 Scenario.mixedBatch (Scenario.mark "" 0 "")))
       (md_errors data) /\
    In (missingFieldsError (nth 5 Scenario.mixedBatch (Scenario.mark "" 0 "")))
       (md_errors data) /\
    In (notEnrolledError (Scenario.mark "s9" 1 "present")) (md_errors data).
Proof.
  destruct (batch_never_aborts Scenario.utc Scenario.classStore Scenario.admin)
    as [Hempty Hloop].
  split; [apply Hempty; now right|].
  destruct (Hloop Scenario.mixedBatch ltac:(discriminate))
    as (data & st' & H1 & _ & _ & H4 & _ & H6 & H7 & _).
  exists data, st'. split; [exact H1|]. split; [exact H4|]. split; [|split].
  - apply H6; [cbn; tauto | reflexivity].
  - apply H6; [cbn; tauto | reflexivity].
  - apply H7; [cbn; tauto | reflexivity | reflexivity].
Defined.

Example mixed_batch_outcome :
  fst (markAttendance Scenario.utc Scenario.classStore Scenario.admin (Some Scenario.mixedBatch))
  = Ok200
      {| md_results :=
           [ alreadyMarkedItem (Scenario.mark "s1" 1 "present")
               (Scenario.att 1 "s1" 1 present);
             {| res_record := Scenario.mark "s3" 1 "present"; res_status := marked;
                res_attendanceId := 5 |} ];
         md_errors :=
           [ notEnrolledError (Scenario.mark "s9" 1 "present");
             missingFieldsError (nth 3 Scenario.mixedBatch (Scenario.mark "" 0 ""));
             {| err_record := Scenario.mark "s2" 3 "sick";
                err_error := Caught (ValidationError "status") |};
             missingFieldsError (nth 5 Scenario.mixedBatch (Scenario.mark "" 0 "")) ];
         processed := 2; failed := 4 |}.
Proof. vm_compute. reflexivity. Qed.


(** *** Marking a day twice *)

Lemma storeAccepts_creates (tz : TimeZone) (st : Store) (user : User)
    (r : AttendanceInput) :
  ownDay tz ->
  hasRequiredFields r = true -> storeAccepts r = true ->
  alreadyRecorded tz st r = None ->
  exists st' doc, createFor st user r = inr (st', doc).
Proof.
  intros Hown.
  unfold hasRequiredFields, storeAccepts, alreadyRecorded, createFor,
    Attendance_create, Attendance_findOne, truthy, dateOf.
  destruct (r_student r) as [s|], (r_course r) as [c|], (r_date r) as [dv|],
           (r_status r) as [status|]; cbn [option_map andb];
    try (intros; discriminate);
    try (destruct s; intros; discriminate);
    try (destruct s, c; intros; discriminate);
    try (destruct s, c; cbn [andb]; rewrite ?andb_false_r; intros; discriminate).
  intros _ Hacc Hnone.
  destruct (parseStatus status); [|discriminate].
  destruct (parseMethod _); [|discriminate].
  assert (E : existsb (sameKey s c (instantOf dv)) (attendance st) = false).
  { destruct (existsb _ _) eqn:E; [|reflexivity].
    apply existsb_exists in E. destruct E as (a & Hin & Hk).
    apply (find_none _ _ Hnone) in Hin.
    unfold sameKey in Hk. apply andb_true_iff in Hk. destruct Hk as [Hk Hc].
    apply andb_true_iff in Hk. destruct Hk as [Hs Hd].
    apply String.eqb_eq in Hs, Hc. apply Z.eqb_eq in Hd. subst s c.
    rewrite <- Hd in Hin. now rewrite (sameDay_self tz a Hown) in Hin. }
  rewrite E. eauto.
Qed.

Lemma markStep_creates (tz : TimeZone) (user : User) (b : Batch) (r : AttendanceInput)
    (st' : Store) (doc : AttendanceDoc) :
  hasRequiredFields r = true -> enrolledIn (batch_store b) r = true ->
  alreadyRecorded tz (batch_store b) r = None ->
  createFor (batch_store b) user r = inr (st', doc) ->
  markStep tz user b r = pushResult b st' (markedItem r doc).
Proof.
  intros Hf He Hn Hc. unfold markStep. now rewrite Hf, He, Hn, Hc.
Qed.

Lemma markStep_existing (tz : TimeZone) (user : User) (b : Batch) (r : AttendanceInput)
    (e : AttendanceDoc) :
  hasRequiredFields r = true -> enrolledIn (batch_store b) r = true ->
  alreadyRecorded tz (batch_store b) r = Some e ->
  markStep tz user b r = pushResult b (batch_store b) (alreadyMarkedItem r e).
Proof.
  intros Hf He Hs. unfold markStep. now rewrite Hf, He, Hs.
Qed.

Lemma filter_none {A} (p : A -> bool) (l : list A) :
  find p l = None -> filter p l = [].
Proof.
  induction l as [|x l IH]; cbn; [reflexivity|].
  destruct (p x); [discriminate|auto].
Qed.

(** A record is not reported as already marked when its student is not
    enrolled in the course any more, whatever is on file. *)
Lemma not_enrolled_is_not_already_marked : ~ alwaysReportedAlreadyMarked.
Proof.
  intros H.
  destruct (H Scenario.utc Scenario.transferStore Scenario.admin
              [Scenario.mark "s1" 1 "present"] (Scenario.mark "s1" 1 "present")
              (Scenario.att 1 "s1" 1 present) (or_introl eq_refl) eq_refl)
    as (data & st' & E & Hin).
  vm_compute in E. injection E as <- _. cbn in Hin. exact Hin.
Qed.

(** C3, for a record that carries the required fields and whose student
    is enrolled in the course: a record for a (student, course, date) that
    has a persisted record on the same calendar day creates no record and
    mutates none (this part holds for every record), and is reported in
    the results as [already_marked]; marking the same (student, course,
    date) twice yields exactly one persisted record.  The calendar day is
    the local day of the process, in a zone whose days tile the time
    line. *)
Theorem remarking_is_idempotent :
  (forall tz st user records r e,
     wholeDays tz ->
     In r records ->
     alreadyRecorded tz st r = Some e ->
     exists data st',
       markAttendance tz st user (Some records) = (Ok200 data, st') /\
       (exists added, attendance st' = attendance st ++ added /\
                      filter (sameDayAs tz r) added = []) /\
       (hasRequiredFields r = true -> enrolledIn st r = true ->
        In (alreadyMarkedItem r e) (md_results data))) /\
  (forall tz st user r,
     ownDay tz ->
     hasRequiredFields r = true -> enrolledIn st r = true ->
     storeAccepts r = true -> alreadyRecorded tz st r = None ->
     exists doc st',
       markAttendance tz st user (Some [r; r])
       = (Ok200 {| md_results := [markedItem r doc; alreadyMarkedItem r doc];
                   md_errors := []; processed := 2; failed := 0 |}, st') /\
       attendance st' = attendance st ++ [doc] /\
       filter (sameDayAs tz r) (attendance st') = [doc]).
Proof.
  split.
  - intros tz st user records r e Hdays Hr He.
    eexists _, _. split.
    { apply markAttendance_nonempty. intros ->. destruct Hr. }
    pose proof (keepsDay_markAll tz st user r e Hdays He records _
                  (emptyBatch_keepsDay tz st r)) as [_ Hk].
    split; [exact Hk|].
    intros Hf Hen. cbn [md_results].
    apply (markAll_already_marked tz st user r e Hdays He records); auto.
    apply emptyBatch_keepsDay.
  - intros tz st user r Hown Hf Hen Hacc Hnone.
    destruct (storeAccepts_creates tz st user r Hown Hf Hacc Hnone) as (st' & doc & Hc).
    pose proof (createFor_inr _ _ _ _ _ Hc)
      as (Hatt & Hco & _ & _ & _ & _ & _ & Hs & Hcs & Hd & _).
    assert (Hsame : sameDayAs tz r doc = true).
    { unfold sameDayAs. rewrite Hs, Hcs, Hd. now apply sameDay_self. }
    assert (Hfound : alreadyRecorded tz st' r = Some doc).
    { unfold alreadyRecorded, Attendance_findOne in *. rewrite Hs, Hcs, Hd in *.
      rewrite Hatt, (find_app_none _ _ _ Hnone). cbn.
      unfold sameDayAs in Hsame. rewrite Hs, Hcs, Hd in Hsame. now rewrite Hsame. }
    exists doc, st'. split; [|split].
    + unfold markAttendance, markAll. cbn [fold_left].
      rewrite !markOne_markStep.
      rewrite (markStep_creates tz user (emptyBatch st) r st' doc Hf Hen Hnone Hc).
      rewrite (markStep_existing tz user _ r doc Hf); [reflexivity| |exact Hfound].
      cbn [pushResult batch_store]. now rewrite (enrolledIn_courses st' st r Hco).
    + exact Hatt.
    + rewrite Hatt, filter_app. cbn [filter]. rewrite Hsame.
      assert (Hext : forall a, sameDayAs tz r a
                = sameDay tz (att_student doc) (att_course doc) (att_date doc) a)
        by (intros a; unfold sameDayAs; now rewrite Hs, Hcs, Hd).
      unfold alreadyRecorded, Attendance_findOne in Hnone.
      rewrite Hs, Hcs, Hd in Hnone.
      now rewrite (filter_ext _ _ Hext), (filter_none _ _ Hnone).
Qed.

Lemma remarking_is_idempotent_witness :
  (exists data st',
     markAttendance Scenario.utc Scenario.classStore Scenario.admin
       (Some [Scenario.mark "s1" 1 "absent"]) = (Ok200 data, st') /\
     (exists added, attendance st' = attendance Scenario.classStore ++ added /\
                    filter (sameDayAs Scenario.utc (Scenario.mark "s1" 1 "absent"))
                           added = []) /\
     In (alreadyMarkedItem (Scenario.mark "s1" 1 "absent")
           (Scenario.att 1 "s1" 1 present)) (md_results data)) /\
  (exists doc st',
     markAttendance Scenario.berlin Scenario.springStore Scenario.admin
       (Some [Scenario.markAt "s3" Scenario.lateEvening "late";
              Scenario.markAt "s3" Scenario.lateEvening "late"])
     = (Ok200 {| md_results :=
                   [markedItem (Scenario.markAt "s3" Scenario.lateEvening "late") doc;
                    alreadyMarkedItem
                      (Scenario.markAt "s3" Scenario.lateEvening "late") doc];
                 md_errors := []; processed := 2; failed := 0 |}, st') /\
     attendance st' = attendance Scenario.springStore ++ [doc] /\
     filter (sameDayAs Scenario.berlin
               (Scenario.markAt "s3" Scenario.lateEvening "late"))
            (attendance st') = [doc]).
Proof.
  split.
  - destruct (proj1 remarking_is_idempotent Scenario.utc Scenario.classStore
                Scenario.admin
                [Scenario.mark "s1" 1 "absent"] (Scenario.mark "s1" 1 "absent")
                (Scenario.att 1 "s1" 1 present)
                (proj2 (fixedZone_calendar 0)) (or_introl eq_refl) eq_refl)
      as (data & st' & H1 & H2 & H3).
    exists data, st'. split; [exact H1|]. split; [exact H2|].
    apply H3; reflexivity.
  - exact (proj2 remarking_is_idempotent Scenario.berlin Scenario.springStore
             Scenario.admin (Scenario.markAt "s3" Scenario.lateEvening "late")
             (proj1 berlin_calendar) eq_refl eq_refl eq_refl eq_refl).
Defined.

End BatchFacts.

(** ** Enrollment *)

Module EnrollFacts.

Import Js Courses.
Local Open Scope list_scope.

Lemma includes_In (l : list string) (x : string) : includes l x = true <-> In x l.
Proof.
  unfold includes. rewrite existsb_exists. split.
  - intros (y & Hy & E). apply String.eqb_eq in E. now subst.
  - intros H. exists x. split; [exact H | apply String.eqb_refl].
Qed.

Lemma Course_findById_oid (st : Store) (id : ObjectId) (c : CourseDoc) :
  Course_findById st id = Some c -> course_oid c = id.
Proof.
  unfold Course_findById. intros H. apply find_some in H.
  destruct H as [_ H]. now apply String.eqb_eq.
Qed.

Lemma Course_save_findById (st : Store) (c0 c : CourseDoc) (id : ObjectId) :
  Course_findById st id = Some c0 -> course_oid c = id ->
  Course_findById (Course_save st c) id = Some c.
Proof.
  unfold Course_save, Course_findById. cbn. intros Hf <-.
  induction (courses st) as [|x l IH]; cbn in *; [discriminate|].
  destruct (String.eqb (course_oid x) (course_oid c)) eqn:E.
  - cbn. now rewrite String.eqb_refl.
  - cbn. rewrite E. auto.
Qed.

Lemma all_found (st : Store) (studs : list ObjectId) :
  (forall s, In s studs -> exists doc, In doc (students st) /\ student_oid doc = s) ->
  filter (fun s => negb (includes
            (map student_oid
               (filter (fun d => includes studs (student_oid d)) (students st))) s))
         studs = [].
Proof.
  intros H.
  assert (G : forall l, (forall s, In s l -> In s studs) ->
     filter (fun s => negb (includes
            (map student_oid
               (filter (fun d => includes studs (student_oid d)) (students st))) s))
         l = []).
  { induction l as [|s l IH]; intros Hl; [reflexivity|]. cbn [filter].
    destruct (H s (Hl s (or_introl eq_refl))) as (doc & Hin & <-).
    assert (E : includes (map student_oid
               (filter (fun d => includes studs (student_oid d)) (students st)))
               (student_oid doc) = true).
    { apply includes_In, in_map, filter_In. split; [exact Hin|].
      apply includes_In, Hl. now left. }
    rewrite E. cbn. apply IH. intros s Hs. apply Hl. now right. }
  apply G. auto.
Qed.

(** No response without a payload changes the store. *)
Lemma enroll_refusal_keeps_store (st st' : Store) (id : ObjectId)
    (body : option (list ObjectId)) (r : Response EnrollData) :
  enroll st id body = (r, st') -> payload r = None -> st' = st.
Proof.
  unfold enroll.
  destruct body as [[|s studs]|]; try (now intros [= <- <-]).
  destruct (Course_findById st id); [|now intros [= <- <-]].
  destruct (overCapacity _ _); [now intros [= <- <-]|].
  destruct (Nat.ltb _ _); [now intros [= <- <-]|].
  destruct (Nat.eqb _ _); intros [= <- <-]; [reflexivity|discriminate].
Qed.

(** C7: on a course with [maxEnrollment] set, a request whose students
    would take the enrollment over [maxEnrollment] is rejected as a whole
    with a 400 that cites [maxEnrollment], and nobody is enrolled;
    otherwise a successful request appends the new students to
    [enrolledStudents].  The request names at least one student, or the
    course is within its bound to begin with. *)
Theorem enrollment_respects_capacity
    (st : Store) (id : ObjectId) (studs : list ObjectId) (course : CourseDoc)
    (m : nat)
    (found : Course_findById st id = Some course)
    (capped : maxEnrollment course = Some m)
    (positive : m <> 0%nat) :
  (m < length (enrolledStudents course) + length studs ->
   studs <> [] \/ length (enrolledStudents course) <= m ->
   enroll st id (Some studs)
   = (BadRequest400 ("Cannot enroll more than " ++ show_nat m
                     ++ " students in this course")%string, st)) /\
  (length (enrolledStudents course) + length studs <= m ->
   studs <> [] ->
   (forall s, In s studs -> exists doc, In doc (students st) /\ student_oid doc = s) ->
   (newcomers course studs = [] ->
    enroll st id (Some studs) = (Ok200 (AlreadyEnrolled course), st)) /\
   (newcomers course studs <> [] ->
    enroll st id (Some studs)
    = (Ok200 (Enrolled (show_nat (length (newcomers course studs))
                        ++ " students enrolled successfully")%string
                       (withNewcomers course studs) (newcomers course studs)),
       Course_save st (withNewcomers course studs)) /\
    Course_findById (Course_save st (withNewcomers course studs)) id
    = Some (withNewcomers course studs) /\
    enrolledStudents (withNewcomers course studs)
    = enrolledStudents course ++ newcomers course studs /\
    length (enrolledStudents (withNewcomers course studs)) <= m)) /\
  (forall r st', enroll st id (Some studs) = (r, st') -> payload r = None -> st' = st).
Proof.
  assert (Hm : Nat.eqb m 0 = false) by now apply Nat.eqb_neq.
  split; [|split].
  - intros Hover Hreq.
    assert (request : studs <> []).
    { destruct Hreq as [H|H]; [exact H|]. intros ->. cbn in Hover. lia. }
    unfold enroll. destruct studs as [|s studs]; [congruence|].
    rewrite found. unfold overCapacity. rewrite capped, Hm. cbn [negb andb].
    apply Nat.ltb_lt in Hover. now rewrite Hover.
  - intros Hroom request Hall.
    assert (Hcap : overCapacity course studs = false).
    { unfold overCapacity. rewrite capped, Hm. cbn [negb andb].
      apply Nat.ltb_ge. exact Hroom. }
    pose proof (all_found st studs Hall) as Hnf.
    split.
    + intros Hnone. unfold enroll. destruct studs as [|s studs]; [congruence|].
      rewrite found, Hcap, Hnf. cbn [length Nat.ltb Nat.leb].
      now rewrite Hnone.
    + intros Hsome. split; [|split; [|split]].
      * unfold enroll. destruct studs as [|s studs]; [congruence|].
        rewrite found, Hcap, Hnf. cbn [length Nat.ltb Nat.leb].
        assert (E : Nat.eqb (length (newcomers course (s :: studs))) 0 = false).
        { apply Nat.eqb_neq. intros E. apply length_zero_iff_nil in E. congruence. }
        now rewrite E.
      * apply (Course_save_findById st course); [exact found|].
        cbn. now apply (Course_findById_oid st).
      * reflexivity.
      * cbn [withNewcomers enrolledStudents]. rewrite length_app.
        assert (H : length (newcomers course studs) <= length studs)
          by apply filter_length_le.
        lia.
  - intros r st'. apply enroll_refusal_keeps_store.
Qed.

Lemma enrollment_respects_capacity_witness :
  enroll Scenario.fullStore "c2" (Some ["s3"])
  = (BadRequest400 "Cannot enroll more than 2 students in this course",
     Scenario.fullStore) /\
  enroll Scenario.roomStore "c2" (Some ["s3"])
  = (Ok200 (Enrolled "1 students enrolled successfully"
              (withNewcomers Scenario.roomCourse ["s3"]) ["s3"]),
     Course_save Scenario.roomStore (withNewcomers Scenario.roomCourse ["s3"])) /\
  length (enrolledStudents (withNewcomers Scenario.roomCourse ["s3"])) = 2%nat.
Proof.
  split; [|split].
  - apply (proj1 (enrollment_respects_capacity Scenario.fullStore "c2" ["s3"]
                    Scenario.fullCourse 2 eq_refl eq_refl ltac:(discriminate))).
    + cbn. lia.
    + left. discriminate.
  - apply (proj1 (proj2 (proj1 (proj2
             (enrollment_respects_capacity Scenario.roomStore "c2" ["s3"]
                Scenario.roomCourse 2 eq_refl eq_refl ltac:(discriminate)))
             ltac:(cbn; lia) ltac:(discriminate)
             ltac:(intros s [<-|[]]; exists (Scenario.pupil "s3" "u3" None);
                   cbn; tauto))
           ltac:(cbn; discriminate))).
  - reflexivity.
Defined.

End EnrollFacts.

(** ** Attendance of a class *)

Module ClassFacts.

Import Js Attendance Spec.
Local Open Scope list_scope.

(** *** Objects *)

Lemma obj_get_set_same {V} (o : Obj V) (k : string) (v : V) :
  obj_get (obj_set o k v) k = Some v.
Proof.
  induction o as [|[k0 v0] o IH]; cbn.
  - now rewrite String.eqb_refl.
  - destruct (String.eqb k0 k) eqn:E; cbn; rewrite E; auto.
Qed.

Lemma obj_get_set_other {V} (o : Obj V) (k k' : string) (v : V) :
  k <> k' -> obj_get (obj_set o k v) k' = obj_get o k'.
Proof.
  intros Hn. induction o as [|[k0 v0] o IH]; cbn.
  - apply String.eqb_neq in Hn. now rewrite Hn.
  - destruct (String.eqb k0 k) eqn:E; cbn.
    + apply String.eqb_eq in E. subst k0.
      apply String.eqb_neq in Hn. now rewrite Hn.
    + destruct (String.eqb k0 k'); auto.
Qed.

Lemma obj_get_None {V} (o : Obj V) (k : string) :
  obj_get o k = None <-> ~ In k (map fst o).
Proof.
  induction o as [|[k0 v0] o IH]; cbn; [tauto|].
  destruct (String.eqb k0 k) eqn:E.
  - apply String.eqb_eq in E. split; [discriminate|]. intros H. exfalso. auto.
  - apply String.eqb_neq in E. rewrite IH. tauto.
Qed.

Lemma obj_set_keys_present {V} (o : Obj V) (k : string) (v : V) :
  In k (map fst o) -> map fst (obj_set o k v) = map fst o.
Proof.
  induction o as [|[k0 v0] o IH]; cbn; [tauto|].
  destruct (String.eqb k0 k) eqn:E; cbn; [reflexivity|].
  apply String.eqb_neq in E. intros [H|H]; [congruence|]. now rewrite IH.
Qed.

Lemma obj_set_keys_absent {V} (o : Obj V) (k : string) (v : V) :
  ~ In k (map fst o) -> map fst (obj_set o k v) = map fst o ++ [k].
Proof.
  induction o as [|[k0 v0] o IH]; cbn; [reflexivity|].
  intros H. destruct (String.eqb k0 k) eqn:E.
  - apply String.eqb_eq in E. exfalso. auto.
  - cbn. rewrite IH; auto.
Qed.

(** The values of an object without repeated keys, read through its keys. *)
Lemma obj_values_by_key {V} (o : Obj V) (f : string -> V) :
  NoDup (map fst o) ->
  (forall k, In k (map fst o) -> obj_get o k = Some (f k)) ->
  obj_values o = map f (map fst o).
Proof.
  unfold obj_values.
  induction o as [|[k0 v0] o IH]; cbn; [reflexivity|].
  intros Hnd Hget. inversion Hnd as [|? ? Hnotin Hnd']; subst.
  pose proof (Hget k0 (or_introl eq_refl)) as H0. rewrite String.eqb_refl in H0.
  injection H0 as ->. f_equal. apply IH; [exact Hnd'|].
  intros k Hk. specialize (Hget k (or_intror Hk)).
  destruct (String.eqb k0 k) eqn:E; [|exact Hget].
  apply String.eqb_eq in E. subst. contradiction.
Qed.

(** *** The three passes of the handler *)

Section Passes.

Variable studs : list StudentDoc.

Lemma init_get (ids : list ObjectId) :
  forall o k,
    obj_get (fold_left (initEntry studs) ids o) k
    = if includes ids k then Some (blankEntry studs k) else obj_get o k.
Proof.
  induction ids as [|id ids IH]; intros o k; [reflexivity|].
  cbn [fold_left]. rewrite IH. unfold includes. cbn [existsb].
  fold (includes ids k). destruct (includes ids k); [now rewrite orb_true_r|].
  rewrite orb_false_r. unfold initEntry.
  destruct (String.eqb k id) eqn:E.
  - apply String.eqb_eq in E. subst. apply obj_get_set_same.
  - apply String.eqb_neq in E. apply obj_get_set_other. congruence.
Qed.

Lemma init_keys (ids : list ObjectId) :
  forall o, NoDup (map fst o ++ ids) ->
    map fst (fold_left (initEntry studs) ids o) = map fst o ++ ids.
Proof.
  induction ids as [|id ids IH]; intros o Hnd; [now rewrite app_nil_r|].
  cbn [fold_left]. unfold initEntry at 2.
  assert (Hnotin : ~ In id (map fst o)).
  { intros Hin. apply NoDup_remove_2 in Hnd. apply Hnd, in_or_app. now left. }
  rewrite IH; rewrite (obj_set_keys_absent _ _ _ Hnotin).
  - now rewrite <- app_assoc.
  - now rewrite <- app_assoc.
Qed.

Lemma file_get (records : list AttendanceDoc) :
  forall o k,
    obj_get (fold_left fileRecord records o) k
    = option_map (fun d => fold_left addRecord (filter (ofStudent k) records) d)
                 (obj_get o k).
Proof.
  induction records as [|r records IH]; intros o k.
  - cbn. now destruct (obj_get o k).
  - cbn [fold_left filter]. rewrite IH. unfold fileRecord, ofStudent at 2.
    destruct (String.eqb (att_student r) k) eqn:E.
    + apply String.eqb_eq in E. subst k.
      destruct (obj_get o (att_student r)) as [d|] eqn:G.
      * rewrite obj_get_set_same. reflexivity.
      * rewrite G. reflexivity.
    + apply String.eqb_neq in E.
      destruct (obj_get o (att_student r)) as [d|] eqn:G; [|reflexivity].
      now rewrite (obj_get_set_other _ _ _ _ E).
Qed.

Lemma file_keys (records : list AttendanceDoc) :
  forall o, map fst (fold_left fileRecord records o) = map fst o.
Proof.
  induction records as [|r records IH]; intros o; [reflexivity|].
  cbn [fold_left]. rewrite IH. unfold fileRecord.
  destruct (obj_get o (att_student r)) as [d|] eqn:G; [|reflexivity].
  apply obj_set_keys_present.
  destruct (in_dec string_dec (att_student r) (map fst o)) as [H|H]; [exact H|].
  apply obj_get_None in H. congruence.
Qed.

Lemma addRecords_fields (l : list AttendanceDoc) :
  forall d,
    sd_student (fold_left addRecord l d) = sd_student d /\
    sd_records (fold_left addRecord l d) = sd_records d ++ l /\
    cs_total (sd_statistics (fold_left addRecord l d))
    = (cs_total (sd_statistics d) + length l)%nat /\
    cs_present (sd_statistics (fold_left addRecord l d))
    = (cs_present (sd_statistics d) + length (filter isPresent l))%nat /\
    cs_absent (sd_statistics (fold_left addRecord l d))
    = (cs_absent (sd_statistics d)
       + length (filter (fun a => negb (isPresent a)) l))%nat /\
    cs_rate (sd_statistics (fold_left addRecord l d)) = cs_rate (sd_statistics d).
Proof.
  induction l as [|a l IH]; intros d.
  - cbn. rewrite app_nil_r. repeat split; lia.
  - cbn [fold_left filter]. destruct (IH (addRecord d a)) as (H1 & H2 & H3 & H4 & H5 & H6).
    rewrite H1, H2, H3, H4, H5, H6. unfold addRecord. cbn.
    rewrite <- app_assoc. destruct (isPresent a); cbn; repeat split; lia.
Qed.

End Passes.


Lemma obj_get_map {V} (f : V -> V) (o : Obj V) (k : string) :
  obj_get (map (fun kv => (fst kv, f (snd kv))) o) k = option_map f (obj_get o k).
Proof.
  induction o as [|[k0 v0] o IH]; cbn; [reflexivity|].
  destruct (String.eqb k0 k); auto.
Qed.

Lemma obj_keys_map {V} (f : V -> V) (o : Obj V) :
  map fst (map (fun kv => (fst kv, f (snd kv))) o) = map fst o.
Proof. rewrite map_map. apply map_ext. reflexivity. Qed.

(** A selection of students with distinct ids has distinct ids. *)
Lemma selected_ids_distinct (keep : StudentDoc -> bool) (docs : list StudentDoc) :
  NoDup (map student_oid docs) -> NoDup (map student_oid (filter keep docs)).
Proof.
  induction docs as [|x docs IH]; cbn; [auto|].
  intros H. inversion H as [|? ? Hn Hd]; subst.
  destruct (keep x); cbn; auto. constructor; auto.
  intros Hin. apply Hn. apply in_map_iff in Hin. destruct Hin as (y & <- & Hy).
  apply in_map. apply filter_In in Hy. tauto.
Qed.

Lemma filter_map_comm {A B} (f : A -> B) (p : B -> bool) (l : list A) :
  filter p (map f l) = map f (filter (fun x => p (f x)) l).
Proof.
  induction l as [|x l IH]; cbn; [reflexivity|].
  destruct (p (f x)); cbn; now rewrite IH.
Qed.

Lemma filter_filter {A} (f g : A -> bool) (l : list A) :
  filter f (filter g l) = filter (fun x => g x && f x) l.
Proof.
  induction l as [|x l IH]; cbn; [reflexivity|].
  destruct (g x); cbn; [destruct (f x)|]; now rewrite IH.
Qed.

(** The entry of a student, read off the student's records. *)
Lemma entryOf_fields (studs : list StudentDoc) (records : list AttendanceDoc)
    (id : ObjectId) :
  sd_records (entryOf studs records id) = filter (ofStudent id) records /\
  cs_total (sd_statistics (entryOf studs records id))
  = length (filter (ofStudent id) records) /\
  cs_present (sd_statistics (entryOf studs records id))
  = length (filter isPresent (filter (ofStudent id) records)) /\
  cs_rate (sd_statistics (entryOf studs records id))
  = rateOf (filter (ofStudent id) records) /\
  hasRecords (entryOf studs records id) = nonEmpty (filter (ofStudent id) records).
Proof.
  set (mine := filter (ofStudent id) records).
  unfold entryOf. fold mine.
  destruct (addRecords_fields mine (blankEntry studs id)) as (_ & H2 & H3 & H4 & _ & H6).
  cbn in H2, H3, H4, H6.
  remember (fold_left addRecord mine (blankEntry studs id)) as d eqn:Hd. clear Hd.
  unfold setRate, hasRecords, rateOf, statisticsOf. cbn [attendanceRate].
  rewrite H3. destruct mine as [|a mine'].
  - cbn [length Nat.ltb Nat.leb]. rewrite H2, H3, H4, H6. cbn. auto.
  - cbn [length Nat.ltb Nat.leb sd_records sd_statistics cs_total cs_present
         cs_rate nonEmpty].
    rewrite H4. auto.
Qed.

Section Handler.

Variables (st : Store) (classId : ObjectId) (q : ClassQuery).

Let studs := Student_find_class st classId (c_section q).
Let ids := map student_oid studs.
Let records := Attendance_find st (matchesClass ids q).
Let byStudent : Obj StudentData :=
  map (fun kv => (fst kv, setRate (snd kv)))
      (fold_left fileRecord records (fold_left (initEntry studs) ids [])).

Lemma handler_response :
  getClassAttendance st classId q
  = Ok200 {| attendanceByStudent := byStudent;
             classSummary :=
               {| totalStudents := length ids;
                  studentsWithAttendance := length (filter hasRecords (obj_values byStudent));
                  classAverage := classAverageOf byStudent |} |}.
Proof. reflexivity. Qed.

Lemma byStudent_get (id : ObjectId) :
  In id ids -> obj_get byStudent id = Some (entryOf studs records id).
Proof.
  intros Hin. unfold byStudent. rewrite obj_get_map, file_get, init_get.
  apply EnrollFacts.includes_In in Hin. rewrite Hin. reflexivity.
Qed.

Lemma byStudent_keys : NoDup ids -> map fst byStudent = ids.
Proof.
  intros Hnd. unfold byStudent. rewrite obj_keys_map, file_keys, init_keys; auto.
Qed.

Lemma byStudent_values :
  NoDup ids -> obj_values byStudent = map (entryOf studs records) ids.
Proof.
  intros Hnd. rewrite (obj_values_by_key byStudent (entryOf studs records)).
  - now rewrite byStudent_keys.
  - now rewrite byStudent_keys.
  - intros k Hk. rewrite byStudent_keys in Hk by exact Hnd. now apply byStudent_get.
Qed.

Lemma records_of_student (id : ObjectId) :
  In id ids -> filter (ofStudent id) records = recordsFor st q id.
Proof.
  intros Hin. unfold records, Attendance_find, recordsFor. rewrite filter_filter.
  apply filter_ext. intros a. unfold matchesClass, ofStudent.
  destruct (String.eqb (att_student a) id) eqn:E.
  - apply String.eqb_eq in E. apply EnrollFacts.includes_In in Hin. rewrite E, Hin. cbn.
    now rewrite andb_true_r.
  - cbn. now rewrite andb_false_r.
Qed.

End Handler.


Lemma classAverageOf_roundedMean (o : Obj StudentData) :
  classAverageOf o
  = roundedMean (map (fun d => cs_rate (sd_statistics d))
                     (filter hasRecords (obj_values o))).
Proof.
  unfold classAverageOf, roundedMean.
  destruct (map _ (filter hasRecords (obj_values o))); reflexivity.
Qed.

(** C6: the class average is the rounded mean of the rates of the
    students with at least one record in range; a student without records
    is listed with rate 0 and counted in [totalStudents], but neither in
    [studentsWithAttendance] nor in the mean. *)
Theorem class_average_skips_students_without_records
    (st : Store) (classId : ObjectId) (q : ClassQuery)
    (keys : NoDup (map student_oid (students st))) :
  let studs := Student_find_class st classId (c_section q) in
  let perStudent := map (fun s => recordsFor st q (student_oid s)) studs in
  exists data,
    getClassAttendance st classId q = Ok200 data /\
    totalStudents (classSummary data) = length studs /\
    studentsWithAttendance (classSummary data) = length (filter nonEmpty perStudent) /\
    classAverage (classSummary data)
    = roundedMean (map rateOf (filter nonEmpty perStudent)) /\
    (forall s, In s studs ->
       exists d,
         obj_get (attendanceByStudent data) (student_oid s) = Some d /\
         sd_records d = recordsFor st q (student_oid s) /\
         cs_total (sd_statistics d) = length (recordsFor st q (student_oid s)) /\
         cs_rate (sd_statistics d) = rateOf (recordsFor st q (student_oid s)) /\
         (recordsFor st q (student_oid s) = [] ->
          cs_rate (sd_statistics d) = 0%float /\ hasRecords d = false)).
Proof.
  intros studs perStudent.
  set (ids := map student_oid studs).
  set (records := Attendance_find st (matchesClass ids q)).
  assert (Hnd : NoDup ids) by (apply selected_ids_distinct; exact keys).
  eexists. split; [apply handler_response|].
  cbn [classSummary totalStudents studentsWithAttendance classAverage attendanceByStudent].
  fold studs. fold ids. fold records.
  assert (Hvals := byStudent_values st classId q Hnd).
  fold studs in Hvals. fold ids in Hvals. fold records in Hvals.
  assert (Hent : forall id, In id ids ->
            hasRecords (entryOf studs records id) = nonEmpty (recordsFor st q id) /\
            cs_rate (sd_statistics (entryOf studs records id)) = rateOf (recordsFor st q id)).
  { intros id Hin. destruct (entryOf_fields studs records id) as (_ & _ & _ & Hr & Hh).
    pose proof (records_of_student st classId q id Hin) as E.
    fold studs in E. fold ids in E. fold records in E.
    rewrite E in Hr, Hh. auto. }
  assert (Hper : perStudent = map (recordsFor st q) ids).
  { unfold perStudent, ids. now rewrite map_map. }
  assert (Hsel : filter (fun id => hasRecords (entryOf studs records id)) ids
                 = filter (fun id => nonEmpty (recordsFor st q id)) ids).
  { apply filter_ext_in. intros id Hin. apply (Hent id Hin). }
  split; [apply length_map|].
  split.
  { rewrite Hvals, Hper, !filter_map_comm, !length_map. now rewrite Hsel. }
  split.
  { rewrite classAverageOf_roundedMean, Hvals, Hper, !filter_map_comm, Hsel, !map_map.
    f_equal. apply map_ext_in. intros id Hin. apply filter_In in Hin.
    apply (Hent id (proj1 Hin)). }
  intros s Hs.
  assert (Hin : In (student_oid s) ids) by (apply in_map; exact Hs).
  exists (entryOf studs records (student_oid s)). split.
  { pose proof (byStudent_get st classId q (student_oid s)) as G.
    fold studs in G. fold ids in G. fold records in G. exact (G Hin). }
  destruct (entryOf_fields studs records (student_oid s)) as (F1 & F2 & _ & F4 & F5).
  pose proof (records_of_student st classId q (student_oid s) Hin) as E.
  fold studs in E. fold ids in E. fold records in E.
  rewrite E in F1, F2, F4, F5.
  split; [exact F1|]. split; [exact F2|]. split; [exact F4|].
  intros Hnone. rewrite F4, F5, Hnone. split; reflexivity.
Qed.

Lemma class_average_skips_students_without_records_witness :
  exists data,
    getClassAttendance Scenario.classStore "k1" Scenario.allTime = Ok200 data /\
    totalStudents (classSummary data) = 3%nat /\
    studentsWithAttendance (classSummary data) = 2%nat /\
    classAverage (classSummary data) = 75%float /\
    roundedMean [100; 50]%float = 75%float /\
    roundedMean [100; 50; 0]%float = 50%float /\
    exists d, obj_get (attendanceByStudent data) "s3" = Some d /\
              cs_rate (sd_statistics d) = 0%float /\ hasRecords d = false.
Proof.
  destruct (class_average_skips_students_without_records Scenario.classStore "k1"
              Scenario.allTime)
    as (data & H1 & H2 & H3 & H4 & H5).
  { vm_compute. repeat constructor; cbn; intuition discriminate. }
  exists data. split; [exact H1|]. split; [exact H2|]. split; [exact H3|].
  split; [exact H4|]. split; [reflexivity|]. split; [reflexivity|].
  destruct (H5 (Scenario.pupil "s3" "u3" (Some "p3"))) as (d & G1 & _ & _ & _ & G5).
  { cbn. tauto. }
  exists d. split; [exact G1|]. apply G5. reflexivity.
Defined.

End ClassFacts.

(** * Further properties *)

(** ** Enrollment: what a request can and cannot change *)

Module EnrollLaws.

Import Js Courses Laws EnrollFacts.
Local Open Scope list_scope.

(** The ids that the handler reports as not found are the ids without a
    Student document. *)
Lemma notFound_unknown (st : Store) (studs : list ObjectId) :
  filter (fun s => negb (includes
            (map student_oid
               (filter (fun d => includes studs (student_oid d)) (students st))) s))
         studs
  = unknownStudents st studs.
Proof.
  unfold unknownStudents. apply filter_ext_in. intros s Hs. f_equal.
  apply eq_true_iff_eq. rewrite includes_In, existsb_exists, in_map_iff. split.
  - intros (d & <- & Hd). apply filter_In in Hd. exists d.
    split; [tauto | apply String.eqb_refl].
  - intros (d & Hd & E). apply String.eqb_eq in E. exists d. split; [exact E|].
    apply filter_In. split; [exact Hd|]. apply includes_In. now rewrite E.
Qed.

(** What the handler answers with a payload, and the store it leaves. *)
Lemma enroll_ok (st st' : Store) (id : ObjectId) (body : option (list ObjectId))
    (d : EnrollData) :
  enroll st id body = (Ok200 d, st') ->
  exists studs course,
    body = Some studs /\ studs <> [] /\
    Course_findById st id = Some course /\
    overCapacity course studs = false /\
    unknownStudents st studs = [] /\
    ((newcomers course studs = [] /\ d = AlreadyEnrolled course /\ st' = st) \/
     (newcomers course studs <> [] /\
      d = Enrolled (show_nat (length (newcomers course studs))
                    ++ " students enrolled successfully")%string
                   (withNewcomers course studs) (newcomers course studs) /\
      st' = Course_save st (withNewcomers course studs))).
Proof.
  unfold enroll. destruct body as [[|s studs]|]; try discriminate.
  destruct (Course_findById st id) as [course|]; [|discriminate].
  destruct (overCapacity course (s :: studs)) eqn:Hcap; [discriminate|].
  rewrite notFound_unknown.
  destruct (unknownStudents st (s :: studs)) as [|u us] eqn:Hu; [|discriminate].
  cbn [length Nat.ltb Nat.leb].
  destruct (newcomers course (s :: studs)) as [|n ns] eqn:Hn; cbn [length Nat.eqb];
    intros [= <- <-]; exists (s :: studs), course;
    repeat (split; [congruence || reflexivity|]).
  - left. auto.
  - right. rewrite Hn. repeat split; congruence.
Qed.

Lemma Course_save_other (st : Store) (c : CourseDoc) (cid : ObjectId) :
  course_oid c <> cid ->
  Course_findById (Course_save st c) cid = Course_findById st cid.
Proof.
  intros Hne. unfold Course_save, Course_findById. cbn.
  induction (courses st) as [|x l IH]; cbn; [reflexivity|].
  destruct (String.eqb (course_oid x) (course_oid c)) eqn:E.
  - apply String.eqb_eq in E. apply String.eqb_neq in Hne. rewrite Hne.
    rewrite E. rewrite Hne. exact IH.
  - destruct (String.eqb (course_oid x) cid); [reflexivity|exact IH].
Qed.

Lemma overCapacity_false (course : CourseDoc) (studs : list ObjectId) (m : nat) :
  overCapacity course studs = false -> maxEnrollment course = Some m -> m <> 0 ->
  length (enrolledStudents course) + length studs <= m.
Proof.
  unfold overCapacity. intros H E Hm. rewrite E in H.
  apply Nat.eqb_neq in Hm. rewrite Hm in H.
  cbn in H. now apply Nat.ltb_ge in H.
Qed.

Lemma newcomers_length (course : CourseDoc) (studs : list ObjectId) :
  length (newcomers course studs) <= length studs.
Proof. apply filter_length_le. Qed.

(** X1: a request never takes a course over its [maxEnrollment]: if every
    course is within its bound before the request, every course is within
    its bound after it, whatever the response. *)
Theorem enroll_keeps_bound (st st' : Store) (id : ObjectId)
    (body : option (list ObjectId)) (r : Response EnrollData) :
  Forall withinBound (courses st) ->
  enroll st id body = (r, st') ->
  Forall withinBound (courses st').
Proof.
  intros Hall He.
  destruct (payload r) as [d|] eqn:Hp.
  2:{ now rewrite (enroll_refusal_keeps_store _ _ _ _ _ He Hp). }
  assert (r = Ok200 d) as ->.
  { unfold enroll in He.
    repeat match type of He with
      | context [match ?x with _ => _ end] => destruct x; try discriminate
      end; injection He as <- _; cbn in Hp; congruence. }
  destruct (enroll_ok _ _ _ _ _ He)
    as (studs & course & _ & _ & Hf & Hcap & _ & [(_ & _ & ->)|(_ & _ & ->)]);
    [exact Hall|].
  unfold Course_save. cbn [courses]. apply Forall_map.
  apply Forall_forall. intros c0 Hin.
  destruct (String.eqb (course_oid c0) (course_oid (withNewcomers course studs)));
    [|exact (proj1 (Forall_forall _ _) Hall c0 Hin)].
  intros m Hm Hpos. cbn in Hm. cbn [withNewcomers enrolledStudents].
  rewrite length_app.
  pose proof (overCapacity_false course studs m Hcap Hm Hpos).
  pose proof (newcomers_length course studs). lia.
Qed.

Lemma enroll_keeps_bound_witness :
  Forall withinBound (courses Scenario.roomStore) /\
  Forall withinBound
    (courses (snd (enroll Scenario.roomStore "c2" (Some ["s3"; "s2"])))).
Proof.
  assert (H : Forall withinBound (courses Scenario.roomStore)).
  { repeat constructor. intros m [= <-] _. cbn. lia. }
  split; [exact H|].
  apply (enroll_keeps_bound Scenario.roomStore _ "c2" (Some ["s3"; "s2"])
           (fst (enroll Scenario.roomStore "c2" (Some ["s3"; "s2"]))) H).
  apply surjective_pairing.
Defined.

(** X2: a request only ever appends.  Every course keeps its id,
    instructor and [maxEnrollment], its former [enrolledStudents] stay in
    place at the front, no course but the one of the request changes, and
    the other collections are untouched. *)
Theorem enroll_only_appends (st st' : Store) (id : ObjectId)
    (body : option (list ObjectId)) (r : Response EnrollData) :
  enroll st id body = (r, st') ->
  students st' = students st /\ teachers st' = teachers st /\
  attendance st' = attendance st /\ grades st' = grades st /\
  forall cid c,
    Course_findById st cid = Some c ->
    exists c' added,
      Course_findById st' cid = Some c' /\
      course_oid c' = course_oid c /\
      course_instructor c' = course_instructor c /\
      maxEnrollment c' = maxEnrollment c /\
      enrolledStudents c' = enrolledStudents c ++ added /\
      (cid <> id -> added = []).
Proof.
  intros He.
  assert (Hsame : st' = st ->
    students st' = students st /\ teachers st' = teachers st /\
    attendance st' = attendance st /\ grades st' = grades st /\
    forall cid c,
      Course_findById st cid = Some c ->
      exists c' added,
        Course_findById st' cid = Some c' /\
        course_oid c' = course_oid c /\
        course_instructor c' = course_instructor c /\
        maxEnrollment c' = maxEnrollment c /\
        enrolledStudents c' = enrolledStudents c ++ added /\
        (cid <> id -> added = [])).
  { intros ->. repeat split. intros cid c Hc. exists c, [].
    rewrite app_nil_r. repeat split; auto. }
  destruct (payload r) as [d|] eqn:Hp.
  2:{ apply Hsame. exact (enroll_refusal_keeps_store _ _ _ _ _ He Hp). }
  assert (r = Ok200 d) as ->.
  { unfold enroll in He.
    repeat match type of He with
      | context [match ?x with _ => _ end] => destruct x; try discriminate
      end; injection He as <- _; cbn in Hp; congruence. }
  destruct (enroll_ok _ _ _ _ _ He)
    as (studs & course & _ & _ & Hf & _ & _ & [(_ & _ & E)|(_ & _ & ->)]);
    [now apply Hsame|].
  repeat split. intros cid c Hc.
  destruct (String.eqb id cid) eqn:E.
  - apply String.eqb_eq in E. subst cid. rewrite Hf in Hc. injection Hc as <-.
    exists (withNewcomers course studs), (newcomers course studs).
    split; [|cbn; repeat split; auto; congruence].
    apply (Course_save_findById st course); [exact Hf|].
    cbn. now apply (Course_findById_oid st).
  - apply String.eqb_neq in E. exists c, []. rewrite app_nil_r.
    split; [|repeat split; auto].
    rewrite Course_save_other; [exact Hc|].
    cbn. now rewrite (Course_findById_oid st id course Hf).
Qed.

Lemma enroll_only_appends_witness :
  students (snd (enroll Scenario.roomStore "c2" (Some ["s2"])))
  = students Scenario.roomStore /\
  teachers (snd (enroll Scenario.roomStore "c2" (Some ["s2"])))
  = teachers Scenario.roomStore /\
  attendance (snd (enroll Scenario.roomStore "c2" (Some ["s2"])))
  = attendance Scenario.roomStore /\
  grades (snd (enroll Scenario.roomStore "c2" (Some ["s2"])))
  = grades Scenario.roomStore /\
  forall cid c,
    Course_findById Scenario.roomStore cid = Some c ->
    exists c' added,
      Course_findById (snd (enroll Scenario.roomStore "c2" (Some ["s2"]))) cid
      = Some c' /\
      course_oid c' = course_oid c /\
      course_instructor c' = course_instructor c /\
      maxEnrollment c' = maxEnrollment c /\
      enrolledStudents c' = enrolledStudents c ++ added /\
      (cid <> "c2" -> added = []).
Proof.
  apply (enroll_only_appends Scenario.roomStore _ "c2" (Some ["s2"])
           (fst (enroll Scenario.roomStore "c2" (Some ["s2"])))).
  apply surjective_pairing.
Defined.

(** X3: enrolling students who are listed once each into a course whose
    students are listed once each leaves no student listed twice. *)
Theorem enroll_keeps_students_distinct (st st' : Store) (id : ObjectId)
    (studs : list ObjectId) (course course' : CourseDoc) (message : string)
    (newly : list ObjectId) :
  Course_findById st id = Some course ->
  NoDup (enrolledStudents course) -> NoDup studs ->
  enroll st id (Some studs) = (Ok200 (Enrolled message course' newly), st') ->
  NoDup (enrolledStudents course') /\
  (forall s, In s (enrolledStudents course') <->
             In s (enrolledStudents course) \/ In s studs).
Proof.
  intros Hf Hnd Hns He.
  destruct (enroll_ok _ _ _ _ _ He)
    as (studs0 & course0 & [= <-] & _ & Hf0 & _ & _ & [(_ & Hd & _)|(_ & Hd & _)]);
    [discriminate|].
  rewrite Hf in Hf0. injection Hf0 as <-. injection Hd as _ -> _.
  cbn [withNewcomers enrolledStudents]. split.
  - apply NoDup_app; [exact Hnd | now apply NoDup_filter|].
    intros a Ha Hin. apply filter_In in Hin. destruct Hin as [_ Hin].
    apply includes_In in Ha. now rewrite Ha in Hin.
  - intros s. rewrite in_app_iff. unfold newcomers. rewrite filter_In. split.
    + tauto.
    + intros [H|H]; [now left|].
      destruct (includes (enrolledStudents course) s) eqn:E.
      * left. now apply includes_In.
      * right. auto.
Qed.

Lemma enroll_keeps_students_distinct_witness :
  NoDup (enrolledStudents (withNewcomers Scenario.roomCourse ["s3"])) /\
  (forall s, In s (enrolledStudents (withNewcomers Scenario.roomCourse ["s3"])) <->
             In s (enrolledStudents Scenario.roomCourse) \/ In s ["s3"]).
Proof.
  apply (enroll_keeps_students_distinct Scenario.roomStore
           (Course_save Scenario.roomStore (withNewcomers Scenario.roomCourse ["s3"]))
           "c2" ["s3"] Scenario.roomCourse
           (withNewcomers Scenario.roomCourse ["s3"])
           "1 students enrolled successfully" ["s3"]).
  - reflexivity.
  - repeat constructor; cbn; tauto.
  - repeat constructor; cbn; tauto.
  - reflexivity.
Defined.

(** X4: when the request fits the course but names ids without a Student
    document, the answer is a 404 that lists exactly those ids, in the
    order of the request, and nobody is enrolled. *)
Theorem enroll_reports_unknown_students (st : Store) (id : ObjectId)
    (studs : list ObjectId) (course : CourseDoc) :
  Course_findById st id = Some course ->
  overCapacity course studs = false ->
  unknownStudents st studs <> [] ->
  enroll st id (Some studs)
  = (NotFound404 ("Students not found: "
                  ++ String.concat ", " (unknownStudents st studs))%string, st).
Proof.
  intros Hf Hcap Hu. unfold enroll.
  destruct studs as [|s studs]; [now cbn in Hu|].
  rewrite Hf, Hcap, notFound_unknown.
  destruct (unknownStudents st (s :: studs)); [congruence|reflexivity].
Qed.

Lemma enroll_reports_unknown_students_witness :
  enroll Cases.openStore "c3" (Some ["s9"; "s3"; "s8"])
  = (NotFound404 "Students not found: s9, s8", Cases.openStore).
Proof.
  apply (enroll_reports_unknown_students Cases.openStore "c3"
           ["s9"; "s3"; "s8"] Cases.openCourse eq_refl).
  - reflexivity.
  - cbn. discriminate.
Defined.

Lemma newcomers_none (course : CourseDoc) (studs : list ObjectId) :
  (forall s, In s studs -> In s (enrolledStudents course)) ->
  newcomers course studs = [].
Proof.
  intros H. unfold newcomers.
  induction studs as [|s studs IH]; [reflexivity|]. cbn [filter].
  assert (E : includes (enrolledStudents course) s = true)
    by (apply includes_In, H; now left).
  rewrite E. cbn. apply IH. intros x Hx. apply H. now right.
Qed.

(** X5: repeating a request that went through enrolls nobody a second
    time.  The second answer is "already enrolled", or the capacity 400:
    the guard counts the ids of the request, whether or not they are
    enrolled already. *)
Theorem enroll_again_changes_nothing (st st' : Store) (id : ObjectId)
    (studs : list ObjectId) (d : EnrollData) :
  enroll st id (Some studs) = (Ok200 d, st') ->
  exists course',
    Course_findById st' id = Some course' /\
    (forall s, In s studs -> In s (enrolledStudents course')) /\
    (enroll st' id (Some studs) = (Ok200 (AlreadyEnrolled course'), st') \/
     exists m,
       maxEnrollment course' = Some m /\
       m < length (enrolledStudents course') + length studs /\
       enroll st' id (Some studs)
       = (BadRequest400 ("Cannot enroll more than " ++ show_nat m
                         ++ " students in this course")%string, st')).
Proof.
  intros He.
  destruct (enroll_ok _ _ _ _ _ He)
    as (studs0 & course & [= <-] & Hne & Hf & Hcap & Hu & Hcase).
  assert (Hafter : exists course',
            Course_findById st' id = Some course' /\
            (forall s, In s studs -> In s (enrolledStudents course')) /\
            students st' = students st).
  { destruct Hcase as [(Hn & _ & ->)|(_ & _ & ->)].
    - exists course. split; [exact Hf|]. split; [|reflexivity].
      intros s Hs. destruct (includes (enrolledStudents course) s) eqn:E;
        [now apply includes_In|].
      assert (In s (newcomers course studs))
        by (apply filter_In; split; [exact Hs | now rewrite E]).
      rewrite Hn in H. destruct H.
    - exists (withNewcomers course studs). split; [|split; [|reflexivity]].
      + apply (Course_save_findById st course); [exact Hf|].
        cbn. now apply (Course_findById_oid st).
      + intros s Hs. cbn. apply in_app_iff.
        destruct (includes (enrolledStudents course) s) eqn:E;
          [left; now apply includes_In|].
        right. apply filter_In. split; [exact Hs | now rewrite E]. }
  destruct Hafter as (course' & Hf' & Hall & Hst).
  exists course'. split; [exact Hf'|]. split; [exact Hall|].
  unfold enroll. destruct studs as [|s studs]; [congruence|].
  rewrite Hf'. destruct (overCapacity course' (s :: studs)) eqn:Hcap'.
  - right. unfold overCapacity in Hcap'.
    destruct (maxEnrollment course') as [m|]; [|discriminate].
    exists m. apply andb_true_iff in Hcap'. destruct Hcap' as [_ Hlt].
    apply Nat.ltb_lt in Hlt. auto.
  - left. rewrite notFound_unknown. unfold unknownStudents. rewrite Hst.
    fold (unknownStudents st (s :: studs)). rewrite Hu.
    cbn [length Nat.ltb Nat.leb]. now rewrite (newcomers_none _ _ Hall).
Qed.

Lemma enroll_again_changes_nothing_witness :
  exists course',
    Course_findById
      (Course_save Scenario.roomStore (withNewcomers Scenario.roomCourse ["s3"]))
      "c2" = Some course' /\
    (forall s, In s ["s3"] -> In s (enrolledStudents course')) /\
    (enroll (Course_save Scenario.roomStore (withNewcomers Scenario.roomCourse ["s3"]))
            "c2" (Some ["s3"])
     = (Ok200 (AlreadyEnrolled course'),
        Course_save Scenario.roomStore (withNewcomers Scenario.roomCourse ["s3"])) \/
     exists m,
       maxEnrollment course' = Some m /\
       m < length (enrolledStudents course') + length ["s3"] /\
       enroll (Course_save Scenario.roomStore (withNewcomers Scenario.roomCourse ["s3"]))
              "c2" (Some ["s3"])
       = (BadRequest400 ("Cannot enroll more than " ++ show_nat m
                         ++ " students in this course")%string,
          Course_save Scenario.roomStore (withNewcomers Scenario.roomCourse ["s3"]))).
Proof.
  apply (enroll_again_changes_nothing Scenario.roomStore _ "c2" ["s3"]
           (Enrolled "1 students enrolled successfully"
              (withNewcomers Scenario.roomCourse ["s3"]) ["s3"])).
  reflexivity.
Defined.

End EnrollLaws.

(** ** Marking: what a batch keeps and what it never does *)

Module BatchLaws.

Import Js Attendance Spec Invariants Laws BatchLaw BatchFacts.
Local Open Scope list_scope.

(** In a zone whose days tile the time line, being of one student,
    course and day is symmetric. *)
Lemma sameDay_sym (tz : TimeZone) (a b : AttendanceDoc) :
  calendar tz ->
  sameDay tz (att_student a) (att_course a) (att_date a) b
  = sameDay tz (att_student b) (att_course b) (att_date b) a.
Proof.
  intros [Hown Hwhole].
  apply eq_true_iff_eq. rewrite !sameDay_true_iff. split.
  - intros (E1 & E2 & Hw). destruct (Hwhole _ _ Hw) as [Es Ee].
    rewrite Es, Ee. repeat split; try congruence; apply Hown.
  - intros (E1 & E2 & Hw). destruct (Hwhole _ _ Hw) as [Es Ee].
    rewrite Es, Ee. repeat split; try congruence; apply Hown.
Qed.

Lemma dayUnique_snoc (tz : TimeZone) (l : list AttendanceDoc) (d : AttendanceDoc) :
  calendar tz ->
  dayUnique tz l ->
  (forall a, In a l -> sameDay tz (att_student d) (att_course d) (att_date d) a = false) ->
  dayUnique tz (l ++ [d]).
Proof.
  intros Hcal. induction l as [|x l IH]; cbn [app dayUnique].
  - intros _ _. split; [intros b []|exact I].
  - intros [Hx Hl] Hd. split.
    + intros b Hb. apply in_app_iff in Hb. destruct Hb as [Hb|[<-|[]]]; [now apply Hx|].
      rewrite (sameDay_sym tz x d Hcal). apply Hd. now left.
    + apply IH; [exact Hl|]. intros a Ha. apply Hd. now right.
Qed.

(** A document is only created for a day that has none. *)
Lemma created_on_free_day (tz : TimeZone) (st st' : Store) (user : User)
    (r : AttendanceInput) (doc : AttendanceDoc) :
  createFor st user r = inr (st', doc) ->
  alreadyRecorded tz st r = None ->
  forall a, In a (attendance st) ->
    sameDay tz (att_student doc) (att_course doc) (att_date doc) a = false.
Proof.
  intros Hc Hn a Ha. apply createFor_inr in Hc.
  destruct Hc as (_ & _ & _ & _ & _ & _ & _ & Hs & Hcs & Hd & _).
  unfold alreadyRecorded, Attendance_findOne in Hn. rewrite Hs, Hcs, Hd in Hn.
  exact (find_none _ _ Hn a Ha).
Qed.

Lemma markStep_dayUnique (tz : TimeZone) (user : User) (b : Batch) (r : AttendanceInput) :
  calendar tz ->
  dayUnique tz (attendance (batch_store b)) ->
  dayUnique tz (attendance (batch_store (markStep tz user b r))).
Proof.
  intros Hcal H.
  destruct (markStep_store tz user b r) as [->|(st' & doc & -> & Hc & Hn)]; [exact H|].
  pose proof (created_on_free_day tz _ _ _ _ _ Hc Hn) as Hfree.
  apply createFor_inr in Hc. destruct Hc as (-> & _).
  now apply dayUnique_snoc.
Qed.

Lemma markAll_dayUnique (tz : TimeZone) (user : User) (records : list AttendanceInput) :
  calendar tz ->
  forall b, dayUnique tz (attendance (batch_store b)) ->
            dayUnique tz (attendance (batch_store (markAll tz user records b))).
Proof.
  intros Hcal.
  induction records as [|r records IH]; intros b Hb; [exact Hb|].
  rewrite markAll_cons. now apply IH, markStep_dayUnique.
Qed.

Lemma markAttendance_store (tz : TimeZone) (st : Store) (user : User)
    (body : option (list AttendanceInput)) :
  snd (markAttendance tz st user body) = st \/
  exists records, body = Some records /\ records <> [] /\
    markAttendance tz st user body
    = (Ok200 {| md_results := results (markAll tz user records (emptyBatch st));
                md_errors := errors (markAll tz user records (emptyBatch st));
                processed := length (results (markAll tz user records (emptyBatch st)));
                failed := length (errors (markAll tz user records (emptyBatch st))) |},
       batch_store (markAll tz user records (emptyBatch st))).
Proof.
  destruct body as [[|r records]|]; [now left| |now left].
  right. exists (r :: records). split; [reflexivity|]. split; [discriminate|reflexivity].
Qed.

(** The day on which summer time starts in [berlin] has 23 hours: half
    past ten in the evening, UTC, is already the next day. *)
Example summer_day_has_23_hours :
  startOfDay Scenario.berlin Scenario.earlyMorning = 1711839600000%Z /\
  endOfDay Scenario.berlin Scenario.earlyMorning = 1711922400000%Z /\
  startOfDay Scenario.berlin Scenario.afterMidnight = 1711922400000%Z /\
  startOfDay (fixedZone 3600000) Scenario.afterMidnight = 1711839600000%Z.
Proof. repeat split; reflexivity. Qed.

(** X6: marking keeps the attendance collection at one record per
    student, course and calendar day: if the store has no two records of
    one student and course on one day before a request, it has none after,
    whatever the request.  The day is the local day of the process, of 23
    or 25 hours where the offset changes, in a zone whose days tile the
    time line. *)
Theorem marking_keeps_one_record_per_day (tz : TimeZone) (st st' : Store) (user : User)
    (body : option (list AttendanceInput)) (r : Response MarkData) :
  calendar tz ->
  dayUnique tz (attendance st) ->
  markAttendance tz st user body = (r, st') ->
  dayUnique tz (attendance st').
Proof.
  intros Hcal H He.
  destruct (markAttendance_store tz st user body) as [E|(records & _ & _ & E)].
  - rewrite He in E. cbn in E. now subst.
  - rewrite He in E. injection E as _ ->. now apply markAll_dayUnique.
Qed.

Lemma marking_keeps_one_record_per_day_witness :
  dayUnique Scenario.berlin (attendance Scenario.springStore) /\
  attendance (snd (markAttendance Scenario.berlin Scenario.springStore Scenario.admin
                     (Some Scenario.springBatch)))
  = attendance Scenario.springStore
    ++ [ {| att_oid := 2; att_student := "s1"; att_course := "c1";
            att_date := Scenario.afterMidnight; att_status := present;
            att_method := manual; att_markedBy := "u-admin" |} ] /\
  dayUnique Scenario.berlin
    (attendance (snd (markAttendance Scenario.berlin Scenario.springStore
                        Scenario.admin (Some Scenario.springBatch)))).
Proof.
  assert (H : dayUnique Scenario.berlin (attendance Scenario.springStore)).
  { cbn. repeat split; intros b Hb; destruct Hb. }
  split; [exact H|]. split; [reflexivity|].
  apply (marking_keeps_one_record_per_day Scenario.berlin Scenario.springStore _
           Scenario.admin (Some Scenario.springBatch)
           (fst (markAttendance Scenario.berlin Scenario.springStore Scenario.admin
                   (Some Scenario.springBatch))) berlin_calendar H).
  apply surjective_pairing.
Defined.


(** One record goes to the errors, is found on file, or is created. *)
Lemma markStep_outcome (tz : TimeZone) (user : User) (b : Batch) (r : AttendanceInput) :
  (exists e, markStep tz user b r = pushError b e /\ err_record e = r) \/
  (exists e0, markStep tz user b r
              = pushResult b (batch_store b) (alreadyMarkedItem r e0) /\
              alreadyRecorded tz (batch_store b) r = Some e0) \/
  (exists st' doc, markStep tz user b r = pushResult b st' (markedItem r doc) /\
                   createFor (batch_store b) user r = inr (st', doc) /\
                   alreadyRecorded tz (batch_store b) r = None).
Proof.
  unfold markStep.
  destruct (hasRequiredFields r) eqn:Hf; cbn [negb].
  2:{ left. eexists. split; reflexivity. }
  destruct (enrolledIn (batch_store b) r); cbn [negb].
  2:{ left. eexists. split; reflexivity. }
  destruct (alreadyRecorded tz (batch_store b) r) as [e0|] eqn:Ha.
  { right. left. exists e0. auto. }
  destruct (createFor (batch_store b) user r) as [e|[st' doc]] eqn:Hc.
  - left. eexists. split; reflexivity.
  - right. right. exists st', doc. auto.
Qed.





(** *** A batch in two halves *)

Lemma markStep_from (tz : TimeZone) (user : User) (b : Batch) (r : AttendanceInput) :
  markStep tz user b r
  = {| batch_store := batch_store (markStep tz user (emptyBatch (batch_store b)) r);
       results := results b
                  ++ results (markStep tz user (emptyBatch (batch_store b)) r);
       errors := errors b
                 ++ errors (markStep tz user (emptyBatch (batch_store b)) r) |}.
Proof.
  unfold markStep. cbn [emptyBatch batch_store].
  destruct (negb (hasRequiredFields r)); [cbn; now rewrite app_nil_r|].
  destruct (negb (enrolledIn (batch_store b) r)); [cbn; now rewrite app_nil_r|].
  destruct (alreadyRecorded tz (batch_store b) r); [cbn; now rewrite app_nil_r|].
  destruct (createFor (batch_store b) user r) as [e|[st' doc]];
    cbn; now rewrite app_nil_r.
Qed.

Lemma markAll_from (tz : TimeZone) (user : User) (records : list AttendanceInput) :
  forall b,
    markAll tz user records b
    = {| batch_store := batch_store (markAll tz user records (emptyBatch (batch_store b)));
         results := results b
                    ++ results (markAll tz user records (emptyBatch (batch_store b)));
         errors := errors b
                   ++ errors (markAll tz user records (emptyBatch (batch_store b))) |}.
Proof.
  induction records as [|r records IH]; intros b.
  - cbn. rewrite !app_nil_r. now destruct b.
  - rewrite !markAll_cons. rewrite (IH (markStep tz user b r)).
    rewrite (IH (markStep tz user (emptyBatch (batch_store b)) r)).
    rewrite (markStep_from tz user b r). cbn [batch_store results errors].
    now rewrite !app_assoc.
Qed.

Lemma markAll_app (tz : TimeZone) (user : User) (l1 l2 : list AttendanceInput) (b : Batch) :
  markAll tz user (l1 ++ l2) b = markAll tz user l2 (markAll tz user l1 b).
Proof. unfold markAll. apply fold_left_app. Qed.

(** X8: a list marked in one request or in two consecutive requests gives
    the same store, and the results, the errors and the counts of the one
    request are those of the two, put end to end. *)
Theorem batch_in_two_requests (tz : TimeZone) (st st1 st2 : Store) (user : User)
    (l1 l2 : list AttendanceInput) (d1 d2 : MarkData) :
  markAttendance tz st user (Some l1) = (Ok200 d1, st1) ->
  markAttendance tz st1 user (Some l2) = (Ok200 d2, st2) ->
  markAttendance tz st user (Some (l1 ++ l2))
  = (Ok200 {| md_results := md_results d1 ++ md_results d2;
              md_errors := md_errors d1 ++ md_errors d2;
              processed := processed d1 + processed d2;
              failed := failed d1 + failed d2 |}, st2).
Proof.
  intros H1 H2.
  assert (N1 : l1 <> []) by (intros ->; discriminate H1).
  assert (N2 : l2 <> []) by (intros ->; discriminate H2).
  rewrite (markAttendance_nonempty tz st user l1 N1) in H1.
  rewrite (markAttendance_nonempty tz st1 user l2 N2) in H2.
  injection H1 as <- <-. injection H2 as <- <-.
  rewrite markAttendance_nonempty
    by (intros E; apply app_eq_nil in E; destruct E; contradiction).
  rewrite markAll_app.
  rewrite (markAll_from tz user l2 (markAll tz user l1 (emptyBatch st))).
  cbn [batch_store results errors md_results md_errors processed failed].
  now rewrite !length_app.
Qed.

Lemma batch_in_two_requests_witness :
  exists d1 d2 st1 st2,
    markAttendance Scenario.utc Scenario.classStore Scenario.admin
      (Some [Scenario.mark "s3" 1 "late"]) = (Ok200 d1, st1) /\
    markAttendance Scenario.utc st1 Scenario.admin
      (Some [Scenario.mark "s3" 1 "present"; Scenario.mark "s9" 1 "present"])
    = (Ok200 d2, st2) /\
    markAttendance Scenario.utc Scenario.classStore Scenario.admin
      (Some ([Scenario.mark "s3" 1 "late"]
             ++ [Scenario.mark "s3" 1 "present"; Scenario.mark "s9" 1 "present"]))
    = (Ok200 {| md_results := md_results d1 ++ md_results d2;
                md_errors := md_errors d1 ++ md_errors d2;
                processed := processed d1 + processed d2;
                failed := failed d1 + failed d2 |}, st2).
Proof.
  eexists _, _, _, _. split; [reflexivity|]. split; [reflexivity|].
  eapply (batch_in_two_requests Scenario.utc Scenario.classStore _ _ Scenario.admin
            [Scenario.mark "s3" 1 "late"]
            [Scenario.mark "s3" 1 "present"; Scenario.mark "s9" 1 "present"]);
    reflexivity.
Defined.

(** *** The records a batch creates *)

Lemma markAll_created (tz : TimeZone) (user : User) (records : list AttendanceInput) :
  forall st,
  exists added,
    attendance (batch_store (markAll tz user records (emptyBatch st)))
    = attendance st ++ added /\
    map att_oid added
    = map res_attendanceId
          (filter isMarked (results (markAll tz user records (emptyBatch st)))) /\
    Forall (fun a => att_markedBy a = user_id user) added.
Proof.
  induction records as [|r records IH]; intros st.
  - exists []. cbn. rewrite app_nil_r. auto.
  - rewrite markAll_cons, markAll_from. cbn [batch_store results].
    destruct (markStep_outcome tz user (emptyBatch st) r)
      as [(e1 & E & _)|[(e0 & E & _)|(st' & doc & E & Hc & _)]]; rewrite E;
      cbn [pushError pushResult batch_store results emptyBatch app].
    + destruct (IH st) as (added & H1 & H2 & H3). exists added. auto.
    + destruct (IH st) as (added & H1 & H2 & H3). exists added. auto.
    + destruct (IH st') as (added & H1 & H2 & H3).
      apply createFor_inr in Hc.
      destruct Hc as (Hatt & _ & _ & _ & _ & _ & _ & _ & _ & _ & _ & Hby).
      exists (doc :: added). rewrite H1, Hatt, <- app_assoc. cbn.
      split; [reflexivity|]. split; [now rewrite H2|]. now constructor.
Qed.

Lemma markAll_other_collections (tz : TimeZone) (user : User)
    (records : list AttendanceInput) :
  forall b,
    students (batch_store (markAll tz user records b)) = students (batch_store b) /\
    courses (batch_store (markAll tz user records b)) = courses (batch_store b) /\
    grades (batch_store (markAll tz user records b)) = grades (batch_store b).
Proof.
  induction records as [|r records IH]; intros b; [auto|].
  rewrite markAll_cons. destruct (IH (markStep tz user b r)) as (-> & -> & ->).
  destruct (markStep_store tz user b r) as [->|(st' & doc & -> & Hc & _)]; [auto|].
  apply createFor_inr in Hc. destruct Hc as (_ & -> & -> & _ & -> & _). auto.
Qed.

(** X9: the documents that a batch adds to the collection are those of its
    results with status [marked], one each and in their order, with the
    reported [attendanceId]; each is marked by the caller, and the
    documents that were there stay in place. *)
Theorem batch_creates_marked_results (tz : TimeZone) (st st' : Store) (user : User)
    (records : list AttendanceInput) (data : MarkData) :
  markAttendance tz st user (Some records) = (Ok200 data, st') ->
  exists added,
    attendance st' = attendance st ++ added /\
    map att_oid added = map res_attendanceId (filter isMarked (md_results data)) /\
    Forall (fun a => att_markedBy a = user_id user) added /\
    students st' = students st /\ courses st' = courses st /\
    grades st' = grades st.
Proof.
  intros He.
  assert (Hne : records <> []) by (intros ->; discriminate He).
  rewrite (markAttendance_nonempty tz st user records Hne) in He.
  injection He as <- <-. cbn [md_results].
  destruct (markAll_created tz user records st) as (added & H1 & H2 & H3).
  destruct (markAll_other_collections tz user records (emptyBatch st)) as (E1 & E2 & E3).
  exists added. repeat split; auto.
Qed.

Lemma batch_creates_marked_results_witness :
  exists added,
    attendance (snd (markAttendance Scenario.utc Scenario.classStore Scenario.admin
                       (Some Scenario.mixedBatch)))
    = attendance Scenario.classStore ++ added /\
    map att_oid added = [5%nat] /\
    Forall (fun a => att_markedBy a = "u-admin") added.
Proof.
  destruct (batch_creates_marked_results Scenario.utc Scenario.classStore
              (snd (markAttendance Scenario.utc Scenario.classStore Scenario.admin
                      (Some Scenario.mixedBatch)))
              Scenario.admin Scenario.mixedBatch
              {| md_results :=
                   [ alreadyMarkedItem (Scenario.mark "s1" 1 "present")
                       (Scenario.att 1 "s1" 1 present);
                     {| res_record := Scenario.mark "s3" 1 "present";
                        res_status := marked; res_attendanceId := 5 |} ];
                 md_errors :=
                   [ notEnrolledError (Scenario.mark "s9" 1 "present");
                     missingFieldsError
                       (nth 3 Scenario.mixedBatch (Scenario.mark "" 0 ""));
                     {| err_record := Scenario.mark "s2" 3 "sick";
                        err_error := Caught (ValidationError "status") |};
                     missingFieldsError
                       (nth 5 Scenario.mixedBatch (Scenario.mark "" 0 "")) ];
                 processed := 2; failed := 4 |})
    as (added & H1 & H2 & H3 & _).
  { vm_compute. reflexivity. }
  exists added. auto.
Defined.

End BatchLaws.

(** ** Reading attendance *)

Module ReadLaws.

Import Js Attendance Spec Laws StudentAttendanceFacts ClassFacts.
Local Open Scope list_scope.

Lemma getStudentAttendance_inv (st : Store) (user : User) (sid : ObjectId)
    (q : StudentQuery) (data : StudentAttendance) :
  getStudentAttendance st user sid q = Ok200 data ->
  exists student,
    Student_findById st sid = Some student /\
    accessDenied user student = false /\
    data = {| attendanceRecords :=
                paginate (q_page q) (q_limit q)
                  (sortByDateDesc (Attendance_find st (matchesQuery sid q)));
              statistics := statisticsOf (Attendance_find st (matchesQuery sid q)) |}.
Proof.
  unfold getStudentAttendance.
  destruct (Student_findById st sid) as [student|]; [|discriminate].
  destruct (accessDenied user student) eqn:Ha; [discriminate|].
  destruct (_ && _); [discriminate|].
  intros [= <-]. exists student. auto.
Qed.

(** X10: a student account is served the attendance of its own Student
    document only, and a parent account never that of a student whose
    parent reference is somebody else. *)
Theorem attendance_of_others_is_refused (st : Store) (user : User)
    (sid : ObjectId) (q : StudentQuery) (data : StudentAttendance) :
  getStudentAttendance st user sid q = Ok200 data ->
  exists student,
    Student_findById st sid = Some student /\
    (user_role user = "student" -> student_user student = user_id user) /\
    (user_role user = "parent" ->
     forall p, student_parent student = Some p -> p = user_id user).
Proof.
  intros H. destruct (getStudentAttendance_inv _ _ _ _ _ H) as (student & Hf & Ha & _).
  exists student. split; [exact Hf|]. unfold accessDenied in Ha. split.
  - intros E. rewrite E in Ha. cbn in Ha.
    destruct (String.eqb (student_user student) (user_id user)) eqn:E1;
      [now apply String.eqb_eq|discriminate].
  - intros E p Hp. rewrite E, Hp in Ha. cbn in Ha.
    destruct (String.eqb p (user_id user)) eqn:E1;
      [now apply String.eqb_eq|discriminate].
Qed.

Lemma attendance_of_others_is_refused_witness :
  exists student,
    Student_findById Scenario.classStore "s1" = Some student /\
    (user_role {| user_id := "u1"; user_role := "student" |} = "student" ->
     student_user student = "u1") /\
    (user_role {| user_id := "u1"; user_role := "student" |} = "parent" ->
     forall p, student_parent student = Some p -> p = "u1").
Proof.
  eapply (attendance_of_others_is_refused Scenario.classStore
            {| user_id := "u1"; user_role := "student" |} "s1"
            (Scenario.firstPage None)).
  reflexivity.
Defined.

Lemma insertByDate_In (a x : AttendanceDoc) (l : list AttendanceDoc) :
  In x (insertByDate a l) <-> x = a \/ In x l.
Proof.
  induction l as [|b l IH]; cbn; [intuition|].
  destruct (att_date b <? att_date a)%Z; cbn; [intuition|].
  rewrite IH. intuition.
Qed.

Lemma sortByDateDesc_In (x : AttendanceDoc) (l : list AttendanceDoc) :
  In x (sortByDateDesc l) <-> In x l.
Proof.
  unfold sortByDateDesc.
  induction l as [|a l IH]; cbn; [tauto|].
  rewrite insertByDate_In, IH. intuition.
Qed.

Lemma insertByDate_length (a : AttendanceDoc) (l : list AttendanceDoc) :
  length (insertByDate a l) = S (length l).
Proof.
  induction l as [|b l IH]; cbn; [reflexivity|].
  destruct (att_date b <? att_date a)%Z; cbn; [reflexivity|now rewrite IH].
Qed.

Lemma paginate_In (page limit : nat) (l : list AttendanceDoc) (x : AttendanceDoc) :
  In x (paginate page limit l) -> In x l.
Proof.
  unfold paginate. intros H.
  rewrite <- (firstn_skipn ((page - 1) * limit) l). apply in_or_app. right.
  destruct (Nat.eqb limit 0); [exact H|].
  rewrite <- (firstn_skipn limit (skipn ((page - 1) * limit) l)).
  apply in_or_app. now left.
Qed.

Lemma paginate_length (page limit : nat) (l : list AttendanceDoc) :
  limit <> 0 -> length (paginate page limit l) <= limit.
Proof.
  intros H. unfold paginate. apply Nat.eqb_neq in H. rewrite H.
  apply firstn_le_length.
Qed.

(** X11: the page of a student's attendance is drawn from the records
    that match the query and holds at most [limit] of them, while the
    statistics are those of all matching records: they are the same on
    every page and for every limit. *)
Theorem attendance_page_and_statistics (st : Store) (user : User)
    (sid : ObjectId) (q : StudentQuery) (data : StudentAttendance) :
  getStudentAttendance st user sid q = Ok200 data ->
  (forall a, In a (attendanceRecords data) ->
     In a (attendance st) /\ matchesQuery sid q a = true) /\
  (q_limit q <> 0 -> length (attendanceRecords data) <= q_limit q) /\
  total (statistics data) = length (filter (matchesQuery sid q) (attendance st)) /\
  (forall user' q' data',
     sameFilter q q' ->
     getStudentAttendance st user' sid q' = Ok200 data' ->
     statistics data' = statistics data).
Proof.
  intros H. destruct (getStudentAttendance_inv _ _ _ _ _ H) as (student & _ & _ & ->).
  cbn [attendanceRecords statistics]. split; [|split; [|split]].
  - intros a Ha. apply paginate_In in Ha.
    apply (proj1 (sortByDateDesc_In _ _)) in Ha.
    unfold Attendance_find in Ha. now apply filter_In in Ha.
  - apply paginate_length.
  - reflexivity.
  - intros user' q' data' (E1 & E2 & E3) H'.
    destruct (getStudentAttendance_inv _ _ _ _ _ H') as (_ & _ & _ & ->).
    cbn [statistics]. f_equal. unfold Attendance_find. apply filter_ext.
    intros a. unfold matchesQuery. now rewrite E1, E2, E3.
Qed.

Lemma attendance_page_and_statistics_witness :
  (forall a,
     In a [Scenario.att 3 "s1" 2 present] ->
     In a (attendance Scenario.classStore) /\
     matchesQuery "s1"
       {| q_startDate := None; q_endDate := None; q_course := None;
          q_page := 1; q_limit := 1 |} a = true) /\
  (1 <> 0 -> length [Scenario.att 3 "s1" 2 present] <= 1) /\
  2 = length (filter (matchesQuery "s1"
                        {| q_startDate := None; q_endDate := None; q_course := None;
                           q_page := 1; q_limit := 1 |})
                     (attendance Scenario.classStore)) /\
  (forall user' q' data',
     sameFilter {| q_startDate := None; q_endDate := None; q_course := None;
                   q_page := 1; q_limit := 1 |} q' ->
     getStudentAttendance Scenario.classStore user' "s1" q' = Ok200 data' ->
     statistics data'
     = {| total := 2; stat_present := 2; stat_absent := 0; attendanceRate := 100%float |}).
Proof.
  apply (attendance_page_and_statistics Scenario.classStore Scenario.admin "s1"
           {| q_startDate := None; q_endDate := None; q_course := None;
              q_page := 1; q_limit := 1 |}
           {| attendanceRecords := [Scenario.att 3 "s1" 2 present];
              statistics := {| total := 2; stat_present := 2; stat_absent := 0;
                               attendanceRate := 100%float |} |}).
  vm_compute. reflexivity.
Defined.

(** *** The entries of a class *)

Lemma obj_set_keys_distinct {V} (o : Obj V) (k : string) (v : V) :
  NoDup (map fst o) -> NoDup (map fst (obj_set o k v)).
Proof.
  intros H. destruct (in_dec string_dec k (map fst o)) as [Hin|Hin].
  - now rewrite obj_set_keys_present.
  - rewrite obj_set_keys_absent by exact Hin.
    apply NoDup_app; [exact H | repeat constructor; intros [] |].
    intros a Ha [<-|[]]. contradiction.
Qed.



Section Entries.

Variables (st : Store) (classId : ObjectId) (q : ClassQuery).

Let studs := Student_find_class st classId (c_section q).
Let ids := map student_oid studs.
Let records := Attendance_find st (matchesClass ids q).
Let byStudent : Obj StudentData :=
  map (fun kv => (fst kv, setRate (snd kv)))
      (fold_left fileRecord records (fold_left (initEntry studs) ids [])).

Lemma init_keys_distinct (l : list ObjectId) :
  forall o : Obj StudentData,
    NoDup (map fst o) -> NoDup (map fst (fold_left (initEntry studs) l o)).
Proof.
  induction l as [|id l IH]; intros o H; [exact H|].
  cbn [fold_left]. apply IH. unfold initEntry. now apply obj_set_keys_distinct.
Qed.

Lemma entry_keys : map fst byStudent = map fst (fold_left (initEntry studs) ids []).
Proof. unfold byStudent. now rewrite obj_keys_map, file_keys. Qed.

Lemma entry_keys_distinct : NoDup (map fst byStudent).
Proof. rewrite entry_keys. apply init_keys_distinct. constructor. Qed.

Lemma entry_key_iff (k : ObjectId) : In k (map fst byStudent) <-> In k ids.
Proof.
  rewrite entry_keys. rewrite <- (EnrollFacts.includes_In ids k).
  pose proof (obj_get_None (fold_left (initEntry studs) ids []) k) as Hn.
  rewrite init_get in Hn. cbn [obj_get] in Hn.
  destruct (Js.includes ids k).
  - split; [intros _; reflexivity|]. intros _.
    destruct (in_dec string_dec k (map fst (fold_left (initEntry studs) ids [])))
      as [H|H]; [exact H|]. apply Hn in H. discriminate.
  - split; [|discriminate]. intros H. exfalso. now apply (proj1 Hn eq_refl).
Qed.

Lemma entry_get (k : ObjectId) (d : StudentData) :
  obj_get byStudent k = Some d -> In k ids /\ d = entryOf studs records k.
Proof.
  intros H.
  assert (Hin : In k ids).
  { apply entry_key_iff.
    destruct (in_dec string_dec k (map fst byStudent)) as [Hk|Hk]; [exact Hk|].
    apply obj_get_None in Hk. congruence. }
  split; [exact Hin|].
  pose proof (byStudent_get st classId q k Hin) as G.
  fold studs in G. fold ids in G. fold records in G. fold byStudent in G.
  congruence.
Qed.

Lemma entry_values :
  obj_values byStudent = map (entryOf studs records) (map fst byStudent).
Proof.
  apply obj_values_by_key; [apply entry_keys_distinct|].
  intros k Hk. apply entry_key_iff in Hk.
  pose proof (byStudent_get st classId q k Hk) as G.
  fold studs in G. fold ids in G. fold records in G. exact G.
Qed.

End Entries.

Lemma filter_all_false {A} (p : A -> bool) (l : list A) :
  (forall x, In x l -> p x = false) -> filter p l = [].
Proof.
  induction l as [|x l IH]; intros H; [reflexivity|]. cbn.
  rewrite (H x (or_introl eq_refl)). apply IH. intros y Hy. apply H. now right.
Qed.

Lemma one_key_matches (id : ObjectId) (keys : list ObjectId) :
  NoDup keys -> In id keys ->
  list_sum (map (fun k => if String.eqb id k then 1 else 0) keys) = 1.
Proof.
  induction keys as [|k keys IH]; intros Hnd Hin; [destruct Hin|].
  inversion Hnd as [|? ? Hnot Hnd']; subst. cbn [map list_sum fold_right].
  destruct (String.eqb id k) eqn:E.
  - apply String.eqb_eq in E. subst k.
    assert (Z0 : list_sum (map (fun k => if String.eqb id k then 1 else 0) keys) = 0).
    { clear IH Hnd Hnd' Hin. induction keys as [|k keys IH]; [reflexivity|].
      cbn [map list_sum fold_right].
      destruct (String.eqb id k) eqn:E.
      - apply String.eqb_eq in E. subst. exfalso. apply Hnot. now left.
      - cbn. apply IH. intros H. apply Hnot. now right. }
    unfold list_sum in Z0. rewrite Z0. reflexivity.
  - apply String.eqb_neq in E. destruct Hin as [->|Hin]; [congruence|].
    cbn. now apply IH.
Qed.

(** Filing by student neither loses nor repeats a record. *)
Lemma filed_once (keys : list ObjectId) (records : list AttendanceDoc) :
  NoDup keys ->
  (forall a, In a records -> In (att_student a) keys) ->
  list_sum (map (fun k => length (filter (ofStudent k) records)) keys)
  = length records.
Proof.
  intros Hnd. induction records as [|a records IH]; intros Hall.
  - cbn. clear. induction keys as [|k keys IHk]; [reflexivity|exact IHk].
  - assert (Hsplit :
      list_sum (map (fun k => length (filter (ofStudent k) (a :: records))) keys)
      = list_sum (map (fun k => if String.eqb (att_student a) k then 1 else 0) keys)
        + list_sum (map (fun k => length (filter (ofStudent k) records)) keys)).
    { clear. induction keys as [|k keys IHk]; [reflexivity|].
      rewrite !map_cons.
      change (list_sum (?x :: ?l)) with (x + list_sum l).
      rewrite IHk. cbn [filter]. unfold ofStudent at 1.
      unfold ObjectId in *.
      destruct (String.eqb (att_student a) k); cbn [length]; lia. }
    rewrite Hsplit, IH by (intros x Hx; apply Hall; now right).
    rewrite (one_key_matches (att_student a) keys Hnd (Hall a (or_introl eq_refl))).
    reflexivity.
Qed.


(** X13: no record is lost or counted twice: the [total]s of the entries
    add up to the number of attendance records in the range whose student
    is in the class. *)
Theorem class_totals_add_up (st : Store) (classId : ObjectId) (q : ClassQuery) :
  exists data,
    getClassAttendance st classId q = Ok200 data /\
    list_sum (map (fun d => cs_total (sd_statistics d))
                  (obj_values (attendanceByStudent data)))
    = length (filter (matchesClass
                        (map student_oid
                             (Student_find_class st classId (c_section q))) q)
                     (attendance st)).
Proof.
  eexists. split; [apply handler_response|]. cbn [attendanceByStudent].
  rewrite entry_values, map_map.
  erewrite map_ext.
  2:{ intros k. destruct (entryOf_fields (Student_find_class st classId (c_section q))
              (Attendance_find st
                 (matchesClass (map student_oid
                                  (Student_find_class st classId (c_section q))) q)) k)
        as (_ & F2 & _). exact F2. }
  apply filed_once; [apply entry_keys_distinct|].
  intros a Ha. apply entry_key_iff. unfold Attendance_find in Ha.
  apply filter_In in Ha. destruct Ha as [_ Ha]. unfold matchesClass in Ha.
  apply andb_true_iff in Ha. destruct Ha as [Ha _].
  apply andb_true_iff in Ha. destruct Ha as [Ha _].
  now apply EnrollFacts.includes_In.
Qed.

(** X14: when no student of the class has a record in the range (an
    unknown class included), the class average is 0, not NaN,
    [studentsWithAttendance] is 0, and every listed student has total 0
    and rate 0. *)
Theorem class_without_records (st : Store) (classId : ObjectId) (q : ClassQuery) :
  (forall s, In s (Student_find_class st classId (c_section q)) ->
             recordsFor st q (student_oid s) = []) ->
  exists data,
    getClassAttendance st classId q = Ok200 data /\
    classAverage (classSummary data) = 0%float /\
    studentsWithAttendance (classSummary data) = 0 /\
    totalStudents (classSummary data)
    = length (Student_find_class st classId (c_section q)) /\
    forall k d,
      obj_get (attendanceByStudent data) k = Some d ->
      cs_total (sd_statistics d) = 0 /\ cs_rate (sd_statistics d) = 0%float.
Proof.
  intros Hnone.
  assert (Hk : forall k,
            In k (map student_oid (Student_find_class st classId (c_section q))) ->
            filter (ofStudent k)
              (Attendance_find st
                 (matchesClass (map student_oid
                                  (Student_find_class st classId (c_section q))) q))
            = []).
  { intros k Hin. rewrite (records_of_student st classId q k Hin).
    apply in_map_iff in Hin. destruct Hin as (s & <- & Hs). now apply Hnone. }
  eexists. split; [apply handler_response|].
  cbn [classSummary classAverage studentsWithAttendance totalStudents attendanceByStudent].
  assert (Hf : filter hasRecords
            (obj_values
               (map (fun kv => (fst kv, setRate (snd kv)))
                  (fold_left fileRecord
                     (Attendance_find st
                        (matchesClass (map student_oid
                           (Student_find_class st classId (c_section q))) q))
                     (fold_left (initEntry (Student_find_class st classId (c_section q)))
                        (map student_oid (Student_find_class st classId (c_section q)))
                        [])))) = []).
  { rewrite entry_values, filter_map_comm.
    rewrite filter_all_false; [reflexivity|].
    intros k Hin. apply entry_key_iff in Hin.
    destruct (entryOf_fields (Student_find_class st classId (c_section q))
                (Attendance_find st
                   (matchesClass (map student_oid
                                    (Student_find_class st classId (c_section q))) q)) k)
      as (_ & _ & _ & _ & F5).
    rewrite F5, (Hk k Hin). reflexivity. }
  split; [rewrite classAverageOf_roundedMean, Hf; reflexivity|].
  split; [now rewrite Hf|]. split; [apply length_map|].
  intros k d Hget. apply entry_get in Hget. destruct Hget as [Hin ->].
  destruct (entryOf_fields (Student_find_class st classId (c_section q))
              (Attendance_find st
                 (matchesClass (map student_oid
                                  (Student_find_class st classId (c_section q))) q)) k)
    as (_ & F2 & _ & F4 & _).
  rewrite F2, F4, (Hk k Hin). split; reflexivity.
Qed.

Lemma class_without_records_witness :
  exists data,
    getClassAttendance Cases.openStore "k1" Scenario.allTime = Ok200 data /\
    classAverage (classSummary data) = 0%float /\
    studentsWithAttendance (classSummary data) = 0 /\
    totalStudents (classSummary data) = 3 /\
    forall k d,
      obj_get (attendanceByStudent data) k = Some d ->
      cs_total (sd_statistics d) = 0 /\ cs_rate (sd_statistics d) = 0%float.
Proof.
  apply (class_without_records Cases.openStore "k1" Scenario.allTime).
  intros s _. reflexivity.
Defined.

End ReadLaws.

(** ** Grades: what the write routes keep *)

Module GradeLaws.

Import Js Grades GradeReads NumberFacts GradeFacts.
Local Open Scope list_scope.
Local Open Scope float_scope.




Lemma Grade_create_inv (st st' : Store) (g : GradeDoc) :
  Grade_create st g = Some st' ->
  schemaValid g = true /\
  grades st' = grades st ++ [g] /\ students st' = students st /\
  courses st' = courses st /\ teachers st' = teachers st /\
  attendance st' = attendance st.
Proof.
  unfold Grade_create. destruct (schemaValid g); [|discriminate].
  intros [= <-]. cbn. repeat split.
Qed.

Lemma Grade_create_eq (st st' : Store) (g : GradeDoc) :
  Grade_create st g = Some st' ->
  st' = {| students := students st; teachers := teachers st;
           courses := courses st; assignments := assignments st;
           quizzes := quizzes st; attendance := attendance st;
           grades := grades st ++ [g] |}.
Proof.
  unfold Grade_create. destruct (schemaValid g); [|discriminate].
  now intros [= <-].
Qed.

Ltac through_createGrade :=
  unfold createGrade;
  repeat match goal with
    | Hg : teacherGate _ _ _ _ = Some ?r |- (?r, _) = _ -> _ =>
        intros [= -> _]; apply teacherGate_refuses in Hg; discriminate
    | |- context [match ?x with _ => _ end] => destruct x eqn:?; try discriminate
    end.



Lemma createGrade_refusal (st st' : Store) (user : User) (body : GradeBody)
    (oid : ObjectId) (r : Response GradeDoc) :
  createGrade st user body oid = (r, st') ->
  (exists g, r = Created201 g /\ grade_oid g = oid /\ Grade_create st g = Some st') \/
  (payload r = None /\ st' = st).
Proof.
  unfold createGrade.
  repeat match goal with
    | Hg : teacherGate _ _ _ _ = Some ?r |- (?r, _) = _ -> _ =>
        intros [= <- <-]; right; split;
        [now apply teacherGate_refuses in Hg | reflexivity]
    | |- context [match ?x with _ => _ end] => destruct x eqn:?
    end;
    intros [= <- <-]; try (right; split; reflexivity).
  left. eexists. split; [reflexivity|]. split; [reflexivity|eassumption].
Qed.

Lemma Grade_findById_app (st : Store) (g : GradeDoc) (l : list GradeDoc) (id : ObjectId) :
  grades st = l ++ [g] ->
  Grade_findById st id
  = match find (fun g0 => String.eqb (grade_oid g0) id) l with
    | Some g0 => Some g0
    | None => if String.eqb (grade_oid g) id then Some g else None
    end.
Proof.
  intros E. unfold Grade_findById. rewrite E.
  destruct (find _ l) as [g0|] eqn:F.
  - now apply BatchFacts.find_app_some.
  - rewrite (BatchFacts.find_app_none _ _ _ F). reflexivity.
Qed.

(** X16: POST /grades either refuses and leaves the store as it is, or
    appends exactly the grade it answers with and touches nothing else.
    The new grade is then found under its id when the id was unused, and
    every other id finds what it found before. *)
Theorem createGrade_store_effect (st st' : Store) (user : User)
    (body : GradeBody) (oid : ObjectId) (r : Response GradeDoc) :
  createGrade st user body oid = (r, st') ->
  (payload r = None /\ st' = st) \/
  (exists g,
     r = Created201 g /\
     grades st' = grades st ++ [g] /\
     students st' = students st /\ courses st' = courses st /\
     teachers st' = teachers st /\ attendance st' = attendance st /\
     (Grade_findById st oid = None -> Grade_findById st' oid = Some g) /\
     (forall id, id <> oid -> Grade_findById st' id = Grade_findById st id)).
Proof.
  intros H. destruct (createGrade_refusal _ _ _ _ _ _ H) as [(g & -> & Hoid & Hc)|Hr];
    [right|now left].
  apply Grade_create_inv in Hc. destruct Hc as (_ & Hg & Hs & Hco & Ht & Ha).
  exists g. repeat split; auto.
  - intros Hnone. rewrite (Grade_findById_app st' g (grades st) oid Hg).
    unfold Grade_findById in Hnone. rewrite Hnone, Hoid.
    now rewrite String.eqb_refl.
  - intros id Hne. rewrite (Grade_findById_app st' g (grades st) id Hg).
    unfold Grade_findById. destruct (find _ (grades st)); [reflexivity|].
    rewrite Hoid. apply not_eq_sym in Hne. apply String.eqb_neq in Hne.
    now rewrite Hne.
Qed.

Lemma createGrade_store_effect_witness :
  (payload (Created201 (Cases.examGrade "g7" "t1")) = None /\
   Cases.gradedStore = Scenario.classStore) \/
  (exists g,
     Created201 (Cases.examGrade "g7" "t1") = Created201 g /\
     grades Cases.gradedStore = grades Scenario.classStore ++ [g] /\
     students Cases.gradedStore = students Scenario.classStore /\
     courses Cases.gradedStore = courses Scenario.classStore /\
     teachers Cases.gradedStore = teachers Scenario.classStore /\
     attendance Cases.gradedStore = attendance Scenario.classStore /\
     (Grade_findById Scenario.classStore "g7" = None ->
      Grade_findById Cases.gradedStore "g7" = Some g) /\
     (forall id, id <> "g7" ->
        Grade_findById Cases.gradedStore id = Grade_findById Scenario.classStore id)).
Proof.
  apply (createGrade_store_effect Scenario.classStore Cases.gradedStore
           Scenario.admin Cases.examBody "g7").
  reflexivity.
Defined.

Lemma teacherGate_pass (st : Store) (user : User) (c : option CourseDoc)
    (message : string) :
  teacherGate st user c message = None ->
  user_role user = "teacher" ->
  exists t cd,
    Teacher_findOne_user st (user_id user) = Some t /\ c = Some cd /\
    course_instructor cd = teacher_oid t.
Proof.
  unfold teacherGate. intros H Hr. rewrite Hr in H. cbn in H.
  destruct (Teacher_findOne_user st (user_id user)) as [t|]; [|discriminate].
  destruct c as [cd|]; [|discriminate].
  destruct (String.eqb (course_instructor cd) (teacher_oid t)) eqn:E; [|discriminate].
  apply String.eqb_eq in E. eauto.
Qed.

(** X17: a teacher writes grades for the own courses only.  When POST
    /grades answers a teacher with 201, or PUT /grades/:id with 200, the
    Teacher profile of the account is the instructor of the grade's
    course; a grade created by a teacher is graded by that profile. *)
Theorem teachers_grade_their_own_courses (st : Store) (user : User) :
  user_role user = "teacher" ->
  (forall body oid g st',
     createGrade st user body oid = (Created201 g, st') ->
     exists t c,
       Teacher_findOne_user st (user_id user) = Some t /\
       Course_findById st (grade_course g) = Some c /\
       course_instructor c = teacher_oid t /\ gradedBy g = teacher_oid t) /\
  (forall id body g st',
     updateGrade st user id body = (Ok200 g, st') ->
     exists t c,
       Teacher_findOne_user st (user_id user) = Some t /\
       Course_findById st (grade_course g) = Some c /\
       course_instructor c = teacher_oid t).
Proof.
  intros Hrole. split.
  - intros body oid g st'. through_createGrade.
    intros H; injection H as <- <-. cbn [grade_course gradedBy].
    match goal with
    | H : teacherGate _ _ _ _ = None |- _ =>
        destruct (teacherGate_pass _ _ _ _ H Hrole) as (t & cd & Ht & Hcd & Hi); injection Hcd as Hcd; subst cd
    end.
    exists t; eexists; repeat split; eauto.
    match goal with
    | H : (if String.eqb (user_role user) "admin" then _ else _) = Some _ |- _ =>
        rewrite Hrole, Ht in H; cbn in H; now injection H as <-
    end.
  - intros id body g st' H.
    destruct (updateGrade_ok _ _ _ _ _ _ H) as (g0 & g1 & g2 & Hf & H1 & H2 & -> & _).
    unfold updateGrade in H. rewrite Hf in H.
    destruct (teacherGate st user (Course_findById st (grade_course g0)) _) eqn:Hg.
    { injection H as Hr _. subst. apply teacherGate_refuses in Hg. discriminate. }
    destruct (teacherGate_pass _ _ _ _ Hg Hrole) as (t & cd & Ht & Hc & Hi).
    exists t, cd. repeat split; auto.
    assert (E : grade_course (patchFeedback body (recompute g2)) = grade_course g0).
    { unfold patchPoints in H1. unfold patchMax in H2.
      unfold patchFeedback, recompute.
      destruct (u_pointsEarned body), (u_maxPoints body), (u_feedback body);
        repeat match goal with
          | H : (if ?c then _ else _) = inr _ |- _ => destruct c; [discriminate|]
          | H : inr _ = inr _ |- _ => injection H as <-
          end;
        repeat match goal with
          | |- context [match ?x with _ => _ end] => destruct x
          end; reflexivity. }
    now rewrite E.
Qed.

Lemma teachers_grade_their_own_courses_witness :
  exists t c,
    Teacher_findOne_user Scenario.classStore (user_id Cases.instructor) = Some t /\
    Course_findById Scenario.classStore (grade_course (Cases.examGrade "g7" "t1"))
    = Some c /\
    course_instructor c = teacher_oid t /\
    gradedBy (Cases.examGrade "g7" "t1") = teacher_oid t.
Proof.
  apply (proj1 (teachers_grade_their_own_courses Scenario.classStore
                  Cases.instructor eq_refl)
           Cases.examBody "g7" (Cases.examGrade "g7" "t1") Cases.gradedStore).
  reflexivity.
Defined.

(** *** PUT /api/grades/:id *)

Lemma teacherGate_same_teachers (st st' : Store) (user : User)
    (c : option CourseDoc) (message : string) :
  teachers st' = teachers st ->
  teacherGate st' user c message = teacherGate st user c message.
Proof.
  intros E. unfold teacherGate, Teacher_findOne_user. now rewrite E.
Qed.

Lemma updateGrade_inv (st st' : Store) (user : User) (id : ObjectId)
    (body : GradeUpdate) (r : Response GradeDoc) :
  updateGrade st user id body = (r, st') ->
  (payload r = None /\ st' = st) \/
  (exists g g1 g2,
     Grade_findById st id = Some g /\
     teacherGate st user (Course_findById st (grade_course g))
       "Not authorized to update this grade" = None /\
     patchPoints body g = inr g1 /\ patchMax body g1 = inr g2 /\
     r = Ok200 (patchFeedback body (recompute g2)) /\
     Grade_save st (patchFeedback body (recompute g2)) = Some st').
Proof.
  unfold updateGrade.
  destruct (Grade_findById st id) as [g|]; [|intros [= <- <-]; now left].
  destruct (teacherGate _ _ _ _) as [r0|] eqn:Hg.
  { intros [= <- <-]. left. split; [now apply teacherGate_refuses in Hg|reflexivity]. }
  destruct (patchPoints body g) as [?|g1] eqn:H1; [intros [= <- <-]; now left|].
  destruct (patchMax body g1) as [?|g2] eqn:H2; [intros [= <- <-]; now left|].
  destruct (Grade_save st _) as [s|] eqn:Hs; intros [= <- <-]; [right|now left].
  exists g, g1, g2. repeat split; auto.
Qed.

(** The patches leave the identity of the document alone. *)
Lemma patched_identity (body : GradeUpdate) (g g1 g2 : GradeDoc) :
  patchPoints body g = inr g1 -> patchMax body g1 = inr g2 ->
  let g' := patchFeedback body (recompute g2) in
  grade_oid g' = grade_oid g /\ grade_student g' = grade_student g /\
  grade_course g' = grade_course g /\
  grade_assignment g' = grade_assignment g /\ grade_quiz g' = grade_quiz g /\
  gradeType g' = gradeType g /\ gradedBy g' = gradedBy g.
Proof.
  unfold patchPoints, patchMax, patchFeedback, recompute.
  destruct (u_pointsEarned body), (u_maxPoints body), (u_feedback body);
    repeat match goal with
      | |- (if ?c then _ else _) = inr _ -> _ => destruct c; [discriminate|]
      | |- inr _ = inr _ -> _ => intros [= <-]
      end;
    repeat match goal with
      | |- context [match ?x with _ => _ end] => destruct x
      end; cbn; repeat split.
Qed.

Lemma find_replaced (g' : GradeDoc) (l : list GradeDoc) (g : GradeDoc) :
  find (fun g0 => String.eqb (grade_oid g0) (grade_oid g')) l = Some g ->
  find (fun g0 => String.eqb (grade_oid g0) (grade_oid g'))
       (map (fun g0 => if String.eqb (grade_oid g0) (grade_oid g') then g' else g0) l)
  = Some g'.
Proof.
  induction l as [|x l IH]; [discriminate|]. cbn [find map].
  destruct (String.eqb (grade_oid x) (grade_oid g')) eqn:E.
  - intros _. now rewrite String.eqb_refl.
  - rewrite E. exact IH.
Qed.

Lemma find_not_replaced (g' : GradeDoc) (l : list GradeDoc) (id : ObjectId) :
  id <> grade_oid g' ->
  find (fun g0 => String.eqb (grade_oid g0) id)
       (map (fun g0 => if String.eqb (grade_oid g0) (grade_oid g') then g' else g0) l)
  = find (fun g0 => String.eqb (grade_oid g0) id) l.
Proof.
  intros Hne. induction l as [|x l IH]; [reflexivity|]. cbn [find map].
  destruct (String.eqb (grade_oid x) (grade_oid g')) eqn:E.
  - apply String.eqb_eq in E.
    assert (F : String.eqb (grade_oid g') id = false)
      by (apply String.eqb_neq; congruence).
    rewrite F, E, F. exact IH.
  - destruct (String.eqb (grade_oid x) id); [reflexivity|exact IH].
Qed.

Lemma Grade_save_inv (st st' : Store) (g : GradeDoc) :
  Grade_save st g = Some st' ->
  schemaValid g = true /\
  st' = {| students := students st; teachers := teachers st;
           courses := courses st; assignments := assignments st;
           quizzes := quizzes st; attendance := attendance st;
           grades := map (fun g0 => if String.eqb (grade_oid g0) (grade_oid g)
                                    then g else g0) (grades st) |}.
Proof.
  unfold Grade_save. destruct (schemaValid g); [|discriminate].
  intros [= <-]. split; reflexivity.
Qed.

(** Saving a patched grade replaces it in place. *)
Lemma saved_in_place (st st' : Store) (g g' : GradeDoc) (id : ObjectId) :
  Grade_findById st id = Some g -> grade_oid g' = grade_oid g ->
  Grade_save st g' = Some st' ->
  grade_oid g' = id /\
  Grade_findById st' id = Some g' /\
  (forall id', id' <> id -> Grade_findById st' id' = Grade_findById st id') /\
  length (grades st') = length (grades st) /\
  students st' = students st /\ courses st' = courses st /\
  teachers st' = teachers st /\ attendance st' = attendance st.
Proof.
  intros Hf Hoid Hs. apply Grade_save_inv in Hs. destruct Hs as (_ & ->).
  assert (Hid : grade_oid g = id).
  { unfold Grade_findById in Hf. apply find_some in Hf.
    now apply String.eqb_eq. }
  repeat split; auto; try congruence.
  - unfold Grade_findById in *. cbn [grades]. rewrite <- Hid, <- Hoid.
    apply find_replaced with (g := g). now rewrite Hoid, Hid.
  - intros id' Hne. unfold Grade_findById. cbn [grades].
    apply find_not_replaced. congruence.
  - cbn [grades]. apply length_map.
Qed.

(** X18: PUT /grades/:id either refuses and leaves the store as it is, or
    replaces one grade in place: the answer keeps the id, student, course,
    assignment, quiz, type and grader of the stored grade, it is what the
    id finds afterwards, and every other id finds what it found before; no
    grade is added or dropped. *)
Theorem updateGrade_store_effect (st st' : Store) (user : User)
    (id : ObjectId) (body : GradeUpdate) (r : Response GradeDoc) :
  updateGrade st user id body = (r, st') ->
  (payload r = None /\ st' = st) \/
  (exists g g',
     r = Ok200 g' /\ Grade_findById st id = Some g /\
     grade_oid g' = id /\ grade_student g' = grade_student g /\
     grade_course g' = grade_course g /\
     grade_assignment g' = grade_assignment g /\ grade_quiz g' = grade_quiz g /\
     gradeType g' = gradeType g /\ gradedBy g' = gradedBy g /\
     Grade_findById st' id = Some g' /\
     (forall id', id' <> id -> Grade_findById st' id' = Grade_findById st id') /\
     length (grades st') = length (grades st) /\
     students st' = students st /\ courses st' = courses st /\
     teachers st' = teachers st /\ attendance st' = attendance st).
Proof.
  intros H. destruct (updateGrade_inv _ _ _ _ _ _ H)
    as [Hr|(g & g1 & g2 & Hf & _ & H1 & H2 & -> & Hs)]; [now left|right].
  destruct (patched_identity body g g1 g2 H1 H2)
    as (Hoid & Hst & Hco & Has & Hqu & Hty & Hby).
  destruct (saved_in_place _ _ _ _ _ Hf Hoid Hs)
    as (Hid & Hf' & Hother & Hlen & Hss & Hcs & Hts & Hat).
  exists g, (patchFeedback body (recompute g2)).
  repeat split; auto.
Qed.

Lemma updateGrade_store_effect_witness :
  (payload (fst (updateGrade Scenario.gradeStore Scenario.admin "g1"
                   (Scenario.onlyPoints 80))) = None /\
   snd (updateGrade Scenario.gradeStore Scenario.admin "g1" (Scenario.onlyPoints 80))
   = Scenario.gradeStore) \/
  (exists g g',
     fst (updateGrade Scenario.gradeStore Scenario.admin "g1" (Scenario.onlyPoints 80))
     = Ok200 g' /\
     Grade_findById Scenario.gradeStore "g1" = Some g /\
     grade_oid g' = "g1" /\ grade_student g' = grade_student g /\
     grade_course g' = grade_course g /\
     grade_assignment g' = grade_assignment g /\ grade_quiz g' = grade_quiz g /\
     gradeType g' = gradeType g /\ gradedBy g' = gradedBy g /\
     Grade_findById
       (snd (updateGrade Scenario.gradeStore Scenario.admin "g1"
               (Scenario.onlyPoints 80))) "g1" = Some g' /\
     (forall id', id' <> "g1" ->
        Grade_findById
          (snd (updateGrade Scenario.gradeStore Scenario.admin "g1"
                  (Scenario.onlyPoints 80))) id'
        = Grade_findById Scenario.gradeStore id') /\
     length (grades (snd (updateGrade Scenario.gradeStore Scenario.admin "g1"
                            (Scenario.onlyPoints 80))))
     = length (grades Scenario.gradeStore) /\
     students (snd (updateGrade Scenario.gradeStore Scenario.admin "g1"
                      (Scenario.onlyPoints 80)))
     = students Scenario.gradeStore /\
     courses (snd (updateGrade Scenario.gradeStore Scenario.admin "g1"
                     (Scenario.onlyPoints 80)))
     = courses Scenario.gradeStore /\
     teachers (snd (updateGrade Scenario.gradeStore Scenario.admin "g1"
                      (Scenario.onlyPoints 80)))
     = teachers Scenario.gradeStore /\
     attendance (snd (updateGrade Scenario.gradeStore Scenario.admin "g1"
                        (Scenario.onlyPoints 80)))
     = attendance Scenario.gradeStore).
Proof.
  apply (updateGrade_store_effect Scenario.gradeStore _ Scenario.admin "g1"
           (Scenario.onlyPoints 80)).
  apply surjective_pairing.
Defined.

Lemma patches_settle (body : GradeUpdate) (g g1 g2 : GradeDoc) :
  patchPoints body g = inr g1 -> patchMax body g1 = inr g2 ->
  let g' := patchFeedback body (recompute g2) in
  patchPoints body g' = inr g' /\ patchMax body g' = inr g' /\
  patchFeedback body (recompute g') = g'.
Proof.
  unfold patchPoints, patchMax, patchFeedback.
  destruct g as [oid stu co asg qz ty pe mp pc lg fb by_].
  destruct (u_pointsEarned body) as [p|], (u_maxPoints body) as [m|],
           (u_feedback body) as [f|];
    repeat match goal with
      | |- (if ?c then _ else _) = inr _ -> _ => destruct c; [discriminate|]
      | |- inr _ = inr _ -> _ => intros [= <-]
      end;
    unfold recompute; cbn;
    try (destruct pe; cbn); try (destruct mp; cbn); repeat split.
Qed.

(** X19: PUT /grades/:id is idempotent: the request that was answered 200,
    sent again, is answered with the same grade and leaves the store as
    the first one left it. *)
Theorem updateGrade_twice (st st' : Store) (user : User) (id : ObjectId)
    (body : GradeUpdate) (g' : GradeDoc) :
  updateGrade st user id body = (Ok200 g', st') ->
  updateGrade st' user id body = (Ok200 g', st').
Proof.
  intros H.
  destruct (updateGrade_inv _ _ _ _ _ _ H)
    as [[Hp _]|(g & g1 & g2 & Hf & Hgate & H1 & H2 & [= ->] & Hs)]; [discriminate|].
  destruct (patched_identity body g g1 g2 H1 H2) as (Hoid & _ & Hco & _).
  destruct (saved_in_place _ _ _ _ _ Hf Hoid Hs)
    as (_ & Hf' & _ & _ & _ & Hcs & Hts & _).
  destruct (patches_settle body g g1 g2 H1 H2) as (P1 & P2 & P3).
  set (g' := patchFeedback body (recompute g2)) in *.
  unfold updateGrade. rewrite Hf'.
  rewrite (teacherGate_same_teachers st st') by exact Hts.
  assert (Ec : Course_findById st' (grade_course g')
               = Course_findById st (grade_course g)).
  { unfold Course_findById. now rewrite Hcs, Hco. }
  rewrite Ec, Hgate, P1, P2. cbv zeta. rewrite P3.
  apply Grade_save_inv in Hs. destruct Hs as (Hv & Hst).
  unfold Grade_save. rewrite Hv. do 2 f_equal.
  rewrite Hst at 8. rewrite Hst. cbn. f_equal.
  rewrite map_map. apply map_ext. intros x.
  destruct (String.eqb (grade_oid x) (grade_oid g')) eqn:E.
  - now rewrite String.eqb_refl.
  - now rewrite E.
Qed.

Lemma updateGrade_twice_witness :
  exists g' st',
    updateGrade Scenario.gradeStore Scenario.admin "g1" (Scenario.onlyPoints 80)
    = (Ok200 g', st') /\
    updateGrade st' Scenario.admin "g1" (Scenario.onlyPoints 80) = (Ok200 g', st').
Proof.
  do 2 eexists. split; [vm_compute; reflexivity|].
  apply updateGrade_twice with (st := Scenario.gradeStore).
  vm_compute. reflexivity.
Defined.

(** *** DELETE /api/grades/:id *)

Lemma find_removed (id : ObjectId) (l : list GradeDoc) :
  find (fun g0 => String.eqb (grade_oid g0) id)
       (filter (fun g0 => negb (String.eqb (grade_oid g0) id)) l) = None.
Proof.
  induction l as [|x l IH]; [reflexivity|]. cbn [filter].
  destruct (String.eqb (grade_oid x) id) eqn:E; cbn [negb find]; [exact IH|].
  now rewrite E.
Qed.

Lemma find_not_removed (id id' : ObjectId) (l : list GradeDoc) :
  id' <> id ->
  find (fun g0 => String.eqb (grade_oid g0) id')
       (filter (fun g0 => negb (String.eqb (grade_oid g0) id)) l)
  = find (fun g0 => String.eqb (grade_oid g0) id') l.
Proof.
  intros Hne. induction l as [|x l IH]; [reflexivity|]. cbn [filter find].
  destruct (String.eqb (grade_oid x) id) eqn:E; cbn [negb find].
  - apply String.eqb_eq in E.
    assert (F : String.eqb (grade_oid x) id' = false)
      by (apply String.eqb_neq; congruence).
    now rewrite F.
  - destruct (String.eqb (grade_oid x) id'); [reflexivity|exact IH].
Qed.

Lemma unused_id_filter (id : ObjectId) (l : list GradeDoc) :
  find (fun g0 => String.eqb (grade_oid g0) id) l = None ->
  filter (fun g0 => negb (String.eqb (grade_oid g0) id)) l = l.
Proof.
  induction l as [|x l IH]; [reflexivity|]. cbn [filter find].
  destruct (String.eqb (grade_oid x) id); [discriminate|].
  intros H. cbn [negb]. now rewrite IH.
Qed.

(** X20: DELETE /grades/:id answers 404 exactly when no grade has the id,
    and then keeps the store; otherwise the id finds nothing afterwards,
    every other id finds what it found before, and only the grades
    collection has changed. *)
Theorem deleteGrade_store_effect (st : Store) (id : ObjectId) :
  (Grade_findById st id = None /\
   deleteGrade st id = (NotFound404 "Grade not found", st)) \/
  (Grade_findById st id <> None /\
   fst (deleteGrade st id) = Ok200 tt /\
   Grade_findById (snd (deleteGrade st id)) id = None /\
   (forall id', id' <> id ->
      Grade_findById (snd (deleteGrade st id)) id' = Grade_findById st id') /\
   (forall g, In g (grades (snd (deleteGrade st id))) -> In g (grades st)) /\
   students (snd (deleteGrade st id)) = students st /\
   courses (snd (deleteGrade st id)) = courses st /\
   teachers (snd (deleteGrade st id)) = teachers st /\
   attendance (snd (deleteGrade st id)) = attendance st).
Proof.
  unfold deleteGrade. destruct (Grade_findById st id) as [g|] eqn:Hf;
    [right|left; split; reflexivity].
  assert (Hid : grade_oid g = id).
  { unfold Grade_findById in Hf. apply find_some in Hf.
    now apply String.eqb_eq. }
  cbn [fst snd]. unfold Grade_findById, Grade_remove. cbn [grades]. rewrite Hid.
  repeat split; try discriminate.
  - apply find_removed.
  - intros id' Hne. now apply find_not_removed.
  - intros g0 Hg0. now apply filter_In in Hg0.
Qed.

(** X21: deleting a grade undoes its creation: when POST /grades stored a
    grade under an id that was unused, DELETE of that id gives back the
    store from before the POST. *)
Theorem delete_undoes_create (st st' : Store) (user : User)
    (body : GradeBody) (oid : ObjectId) (g : GradeDoc) :
  Grade_findById st oid = None ->
  createGrade st user body oid = (Created201 g, st') ->
  deleteGrade st' oid = (Ok200 tt, st).
Proof.
  intros Hnone H.
  destruct (createGrade_refusal _ _ _ _ _ _ H)
    as [(g1 & [= <-] & Hoid & Hcr)|[Hp _]]; [|discriminate].
  apply Grade_create_eq in Hcr.
  assert (Hfind : Grade_findById st' oid = Some g).
  { rewrite (Grade_findById_app st' g (grades st) oid) by now rewrite Hcr.
    unfold Grade_findById in Hnone. now rewrite Hnone, Hoid, String.eqb_refl. }
  unfold deleteGrade. rewrite Hfind. f_equal.
  unfold Grade_remove. rewrite Hoid, Hcr. cbn.
  rewrite filter_app, (unused_id_filter oid (grades st) Hnone).
  cbn [filter]. rewrite Hoid, String.eqb_refl. cbn [negb]. rewrite app_nil_r.
  now destruct st.
Qed.

Lemma delete_undoes_create_witness :
  deleteGrade Cases.gradedStore "g7" = (Ok200 tt, Scenario.classStore).
Proof.
  apply (delete_undoes_create Scenario.classStore Cases.gradedStore
           Scenario.admin Cases.examBody "g7" (Cases.examGrade "g7" "t1"));
    reflexivity.
Defined.

(** *** The read routes *)

(** X22: grades are confidential.  When GET /grades/:id answers 200, the
    grade is the stored one; a student caller is the student of the grade,
    and a parent caller is the parent of that student.  When GET
    /grades/student/:studentId/summary answers 200, a student caller is
    that student and a parent caller is the parent on the student's
    record. *)
Theorem grades_are_confidential (st : Store) (user : User) :
  (forall id g,
     getGrade st user id = Ok200 g ->
     Grade_findById st id = Some g /\
     (user_role user = "student" ->
      exists s, Student_findOne_user st (user_id user) = Some s /\
                student_oid s = grade_student g) /\
     (user_role user = "parent" ->
      exists s, In s (students st) /\ student_oid s = grade_student g /\
                student_parent s = Some (user_id user))) /\
  (forall sid s,
     gradeSummary st user sid = Ok200 s ->
     exists d, Student_findById st sid = Some d /\
               (user_role user = "student" -> student_user d = user_id user) /\
               (user_role user = "parent" ->
                student_parent d = Some (user_id user))).
Proof.
  split.
  - intros id g. unfold getGrade.
    destruct (Grade_findById st id) as [g0|]; [|discriminate].
    destruct (String.eqb (user_role user) "student") eqn:Rs.
    + destruct (Student_findOne_user st (user_id user)) as [s|]; [|discriminate].
      destruct (Student_findById st (grade_student g0)) as [gs|] eqn:Hgs;
        [|discriminate].
      destruct (String.eqb (student_oid gs) (student_oid s)) eqn:E; [|discriminate].
      cbn [negb]. intros [= <-]. apply String.eqb_eq in E, Rs.
      unfold Student_findById in Hgs. apply find_some in Hgs.
      destruct Hgs as [_ Hgs]. apply String.eqb_eq in Hgs.
      split; [reflexivity|]. split.
      * intros _. exists s. split; [reflexivity|congruence].
      * rewrite Rs. discriminate.
    + apply String.eqb_neq in Rs.
      destruct (String.eqb (user_role user) "parent") eqn:Rp.
      * destruct (Student_findById st (grade_student g0)) as [gs|] eqn:Hgs;
          [|discriminate].
        destruct (Student_findOne_parent st (student_oid gs) (user_id user))
          as [s|] eqn:Hs; [|discriminate].
        intros [= <-]. split; [reflexivity|]. split; [contradiction|].
        intros _. unfold Student_findById in Hgs. apply find_some in Hgs.
        destruct Hgs as [_ Hgs]. apply String.eqb_eq in Hgs.
        unfold Student_findOne_parent in Hs. apply find_some in Hs.
        destruct Hs as [Hin Hs]. apply andb_true_iff in Hs.
        destruct Hs as [H1 H2]. apply String.eqb_eq in H1.
        exists s. split; [exact Hin|]. split; [congruence|].
        destruct (student_parent s) as [q|]; [|discriminate].
        apply String.eqb_eq in H2. now subst.
      * apply String.eqb_neq in Rp. intros [= <-]. now repeat split.
  - intros sid s. unfold gradeSummary.
    destruct (Student_findById st sid) as [d|]; [|discriminate].
    intros H. exists d. split; [reflexivity|].
    unfold summaryGate in H.
    destruct (String.eqb (user_role user) "student") eqn:Rs.
    + destruct (String.eqb (student_user d) (user_id user)) eqn:E;
        [|discriminate].
      apply String.eqb_eq in E, Rs. split; [auto|].
      rewrite Rs. discriminate.
    + apply String.eqb_neq in Rs. split; [contradiction|].
      destruct (String.eqb (user_role user) "parent") eqn:Rp.
      * destruct (student_parent d) as [q|]; [|discriminate].
        destruct (String.eqb q (user_id user)) eqn:E; [|discriminate].
        apply String.eqb_eq in E. now subst.
      * apply String.eqb_neq in Rp. contradiction.
Qed.

End GradeLaws.

(** ** Grades: the summary of a student *)

Module SummaryLaws.

Import Js Grades Attendance GradeReads.
Local Open Scope list_scope.

Lemma populateCourse_spec (st : Store) (gs : list GradeDoc)
    (all : list (GradeDoc * CourseDoc)) :
  populateCourse st gs = Some all ->
  map fst all = gs /\
  forall x, In x all -> course_oid (snd x) = grade_course (fst x).
Proof.
  revert all. induction gs as [|g gs IH]; intros all; cbn [populateCourse].
  - intros [= <-]. split; [reflexivity|intros x []].
  - destruct (Course_findById st (grade_course g)) as [c|] eqn:Hc; [|discriminate].
    destruct (populateCourse st gs) as [rest|]; [|discriminate].
    intros [= <-]. destruct (IH rest eq_refl) as [Hm Hall].
    split; [cbn; now rewrite Hm|].
    intros x [<-|Hx]; [|now apply Hall]. cbn.
    unfold Course_findById in Hc. apply find_some in Hc.
    now apply String.eqb_eq.
Qed.

Lemma distinct_spec (ids seen : list ObjectId) :
  NoDup (distinct seen ids) /\
  forall k, In k (distinct seen ids) <-> In k ids /\ ~ In k seen.
Proof.
  revert seen. induction ids as [|id ids IH]; intros seen; cbn [distinct].
  - split; [constructor|]. intros k. cbn. tauto.
  - destruct (includes seen id) eqn:E.
    + destruct (IH seen) as [Hnd Hin]. split; [exact Hnd|].
      apply EnrollFacts.includes_In in E. intros k. rewrite Hin. cbn.
      split; [tauto|]. intros [[<-|H] Hn]; [contradiction|tauto].
    + destruct (IH (id :: seen)) as [Hnd Hin].
      assert (Hid : ~ In id seen).
      { intros H. apply EnrollFacts.includes_In in H. congruence. }
      split.
      * constructor; [|exact Hnd]. rewrite Hin. cbn. tauto.
      * intros k. cbn. rewrite Hin. cbn.
        destruct (string_dec id k) as [<-|Hne]; tauto.
Qed.

Lemma obj_set_fresh {V} (o : Obj V) (k : string) (v : V) :
  ~ In k (map fst o) -> obj_set o k v = (o ++ [(k, v)])%list.
Proof.
  induction o as [|[k0 v0] o IH]; cbn; [reflexivity|].
  intros H. destruct (String.eqb k0 k) eqn:E.
  - apply String.eqb_eq in E. exfalso. auto.
  - rewrite IH; auto.
Qed.

(** Grouping by course neither loses nor repeats a grade. *)
Lemma grouped_once (keys : list ObjectId) (all : list (GradeDoc * CourseDoc)) :
  NoDup keys ->
  (forall g, In g all -> In (course_oid (snd g)) keys) ->
  list_sum (map (fun k => length (filter (fun g => String.eqb (course_oid (snd g)) k)
                                         all)) keys)
  = length all.
Proof.
  intros Hnd. induction all as [|a all IH]; intros Hall.
  - cbn. clear. induction keys as [|k keys IHk]; [reflexivity|exact IHk].
  - assert (Hsplit :
      list_sum (map (fun k => length (filter (fun g => String.eqb (course_oid (snd g)) k)
                                             (a :: all))) keys)
      = list_sum (map (fun k => if String.eqb (course_oid (snd a)) k then 1 else 0) keys)
        + list_sum (map (fun k => length (filter (fun g => String.eqb (course_oid (snd g)) k)
                                                 all)) keys)).
    { clear. unfold ObjectId in *.
      induction keys as [|k keys IHk]; [reflexivity|].
      rewrite !map_cons.
      change (list_sum (?x :: ?l)) with (x + list_sum l).
      rewrite IHk. cbn [filter].
      destruct (String.eqb (course_oid (snd a)) k); cbn [length]; lia. }
    rewrite Hsplit, IH by (intros x Hx; apply Hall; now right).
    rewrite (ReadLaws.one_key_matches (course_oid (snd a)) keys Hnd
               (Hall a (or_introl eq_refl))).
    reflexivity.
Qed.

(** The loop over the courses: what it adds to the object. *)
Lemma addCourse_loop (all : list (GradeDoc * CourseDoc)) (ids : list ObjectId)
    (o : Obj CourseAverage) :
  NoDup ids -> NoDup (map fst o) ->
  (forall k, In k ids -> ~ In k (map fst o)) ->
  NoDup (map fst (fold_left (addCourse all) ids o)) /\
  list_sum (map ca_totalGrades (obj_values (fold_left (addCourse all) ids o)))
  = list_sum (map ca_totalGrades (obj_values o))
    + list_sum (map (fun k => length (filter (fun g => String.eqb (course_oid (snd g)) k)
                                             all)) ids) /\
  forall k e, In (k, e) (fold_left (addCourse all) ids o) ->
    In (k, e) o \/
    (course_oid (ca_course e) = k /\
     ca_totalGrades e = length (ca_grades e) /\ 0 < ca_totalGrades e /\
     forall i, In i (ca_grades e) ->
       exists g, In g all /\ course_oid (snd g) = k /\ i = itemOf (fst g)).
Proof.
  revert o. induction ids as [|id ids IH]; intros o Hnd Ho Hfresh.
  - cbn. repeat split; auto; lia.
  - inversion Hnd as [|? ? Hnot Hnd']; subst. cbn [fold_left].
    assert (Hid : ~ In id (map fst o)) by (apply Hfresh; now left).
    rewrite map_cons. change (list_sum (?x :: ?l)) with (x + list_sum l).
    remember (addCourse all o id) as o1 eqn:Ho1. unfold addCourse in Ho1.
    destruct (filter (fun g => String.eqb (course_oid (snd g)) id) all)
      as [|first rest] eqn:F; subst o1.
    + destruct (IH o Hnd' Ho) as (H1 & H2 & H3).
      { intros k Hk. apply Hfresh. now right. }
      repeat split; auto.
    + rewrite (obj_set_fresh o id _ Hid).
      match goal with
      | |- context [(o ++ [(id, ?e)])%list] => set (entry := e)
      end.
      destruct (IH (o ++ [(id, entry)])%list Hnd') as (H1 & H2 & H3).
      { rewrite map_app. apply NoDup_app; [exact Ho|repeat constructor; intros []|].
        intros a Ha [<-|[]]. contradiction. }
      { intros k Hk. rewrite map_app, in_app_iff. cbn.
        intros [H|[<-|[]]]; [|contradiction]. revert H. apply Hfresh. now right. }
      split; [exact H1|]. split.
      * refine (eq_trans H2 _). unfold obj_values. rewrite !map_app, list_sum_app.
        cbn [map list_sum fold_right snd].
        unfold entry. cbn [ca_totalGrades length]. unfold ObjectId in *. lia.
      * intros k e He. destruct (H3 k e He) as [Hin|Hs]; [|now right].
        apply in_app_iff in Hin. destruct Hin as [Hin|[[= <- <-]|[]]]; [now left|].
        right. unfold entry. cbn [ca_course ca_totalGrades ca_grades].
        assert (Hf : In first (filter (fun g => String.eqb (course_oid (snd g)) id) all))
          by (rewrite F; now left).
        apply filter_In in Hf. destruct Hf as [_ Hf]. apply String.eqb_eq in Hf.
        repeat split; [exact Hf|now rewrite length_map|cbn; lia|].
        intros i Hi. apply in_map_iff in Hi. destruct Hi as (g & <- & Hg).
        rewrite <- F in Hg. apply filter_In in Hg. destruct Hg as [Hg Hk].
        apply String.eqb_eq in Hk. now exists g.
Qed.

(** X23: the summary of a student counts every grade once.  When GET
    /grades/student/:studentId/summary answers 200, [totalGrades] is the
    number of stored grades of the student, the per-course [totalGrades]
    add up to it, no course is listed twice, and every listed course has
    at least one grade, as many as it lists, each one a stored grade of
    this student in this course.  A student without grades gets an empty
    list and an overall GPA of 0. *)
Theorem summary_counts_every_grade_once (st : Store) (user : User)
    (sid : ObjectId) (s : Summary) :
  gradeSummary st user sid = Ok200 s ->
  totalGrades s
  = length (filter (fun g => String.eqb (grade_student g) sid) (grades st)) /\
  NoDup (map fst (gradesByCourse s)) /\
  list_sum (map ca_totalGrades (obj_values (gradesByCourse s))) = totalGrades s /\
  (forall k e, In (k, e) (gradesByCourse s) ->
     course_oid (ca_course e) = k /\
     ca_totalGrades e = length (ca_grades e) /\ 0 < ca_totalGrades e /\
     forall i, In i (ca_grades e) ->
       exists g, In g (grades st) /\ grade_student g = sid /\
                 grade_course g = k /\ i = itemOf g) /\
  (totalGrades s = 0 -> gradesByCourse s = [] /\ overallGPA s = 0%float).
Proof.
  unfold gradeSummary.
  destruct (Student_findById st sid) as [d|]; [|discriminate].
  destruct (summaryGate user d) as [r|] eqn:Hg.
  { intros ->. unfold summaryGate in Hg.
    repeat match type of Hg with
      | context [match ?x with _ => _ end] => destruct x
      end; discriminate. }
  destruct (populateCourse st _) as [all|] eqn:Hp; [|discriminate].
  intros [= <-]. cbn [totalGrades gradesByCourse overallGPA].
  destruct (populateCourse_spec _ _ _ Hp) as [Hm Hc].
  destruct (distinct_spec (map (fun g => course_oid (snd g)) all) []) as [Hnd Hin].
  destruct (addCourse_loop all _ [] Hnd (NoDup_nil _) (fun _ _ H => H))
    as (H1 & H2 & H3).
  assert (Hlen : length all
                 = length (filter (fun g => String.eqb (grade_student g) sid)
                                  (grades st)))
    by (now rewrite <- Hm, length_map).
  split; [exact Hlen|]. split; [exact H1|]. split; [|split].
  - rewrite H2. cbn [obj_values map list_sum fold_right]. rewrite Nat.add_0_l.
    apply grouped_once; [exact Hnd|].
    intros g Hg0. apply Hin. split; [|intros []].
    now apply (in_map (fun g => course_oid (snd g))).
  - intros k e He. destruct (H3 k e He) as [[]|(Hk & Hn & Hpos & Hitems)].
    repeat split; auto.
    intros i Hi. destruct (Hitems i Hi) as (g & Hg0 & Hgk & ->).
    exists (fst g). rewrite <- (Hc g Hg0).
    assert (Hf : In (fst g) (map fst all)) by now apply in_map.
    rewrite Hm in Hf. apply filter_In in Hf. destruct Hf as [Hf1 Hf2].
    apply String.eqb_eq in Hf2. auto.
  - intros Hz. destruct all; [|discriminate]. split; reflexivity.
Qed.

Lemma summary_counts_every_grade_once_witness :
  totalGrades Cases.examSummary
  = length (filter (fun g => String.eqb (grade_student g) "s1")
                   (grades Cases.gradedStore)) /\
  NoDup (map fst (gradesByCourse Cases.examSummary)) /\
  list_sum (map ca_totalGrades (obj_values (gradesByCourse Cases.examSummary)))
  = totalGrades Cases.examSummary /\
  (forall k e, In (k, e) (gradesByCourse Cases.examSummary) ->
     course_oid (ca_course e) = k /\
     ca_totalGrades e = length (ca_grades e) /\ 0 < ca_totalGrades e /\
     forall i, In i (ca_grades e) ->
       exists g, In g (grades Cases.gradedStore) /\ grade_student g = "s1" /\
                 grade_course g = k /\ i = itemOf g) /\
  (totalGrades Cases.examSummary = 0 ->
   gradesByCourse Cases.examSummary = [] /\
   overallGPA Cases.examSummary = 0%float).
Proof.
  apply (summary_counts_every_grade_once Cases.gradedStore Scenario.admin "s1").
  vm_compute. reflexivity.
Defined.

Lemma populateCourse_orphan (st : Store) (gs : list GradeDoc) (g : GradeDoc) :
  In g gs -> Course_findById st (grade_course g) = None ->
  populateCourse st gs = None.
Proof.
  intros Hin Hnone. induction gs as [|x gs IH]; [destruct Hin|].
  cbn [populateCourse]. destruct Hin as [->|Hin].
  - now rewrite Hnone.
  - rewrite (IH Hin). now destruct (Course_findById st (grade_course x)).
Qed.

Lemma course_removed (id : ObjectId) (l : list CourseDoc) :
  find (fun c => String.eqb (course_oid c) id)
       (filter (fun c => negb (String.eqb (course_oid c) id)) l) = None.
Proof.
  induction l as [|x l IH]; [reflexivity|]. cbn [filter].
  destruct (String.eqb (course_oid x) id) eqn:E; cbn [negb find]; [exact IH|].
  now rewrite E.
Qed.

(** X24: deleting a course does not touch its grades, and a grade whose
    course is gone breaks the summary of its student.  After DELETE
    /courses/:id answered 200, every grade is still stored and the id
    finds no course; and in every store in which a grade is on file whose
    course id finds no course (the one DELETE leaves, and every later one
    until the grade is deleted or the id is a course again), GET
    /grades/student/:studentId/summary does not answer 200 for the
    student of that grade: a caller who is allowed to read an existing
    student gets the error of the unhandled exception. *)
Theorem deleting_a_course_breaks_summaries (st st' : Store) (id : ObjectId)
    (g : GradeDoc) (user : User) :
  CourseRemoval.deleteCourse st id = (Ok200 tt, st') ->
  In g (grades st) -> grade_course g = id ->
  grades st' = grades st /\
  Course_findById st' id = None /\
  forall later,
    In g (grades later) -> Course_findById later id = None ->
    (forall s, gradeSummary later user (grade_student g) <> Ok200 s) /\
    (forall d, Student_findById later (grade_student g) = Some d ->
               summaryGate user d = None ->
               gradeSummary later user (grade_student g) = Thrown).
Proof.
  unfold CourseRemoval.deleteCourse.
  destruct (Course_findById st id) as [c|] eqn:Hc; [|discriminate].
  intros [= <-] Hin Hco.
  assert (Hid : course_oid c = id).
  { unfold Course_findById in Hc. apply find_some in Hc.
    now apply String.eqb_eq. }
  split; [reflexivity|]. split.
  { unfold Course_findById, CourseRemoval.Course_remove. cbn [courses].
    rewrite Hid. apply course_removed. }
  intros later Hlater Hgone.
  assert (Hpop : populateCourse later
                   (filter (fun g0 => String.eqb (grade_student g0) (grade_student g))
                           (grades later)) = None).
  { apply populateCourse_orphan with (g := g); [|now rewrite Hco].
    apply filter_In. split; [exact Hlater|apply String.eqb_refl]. }
  unfold gradeSummary. split.
  - intros s.
    destruct (Student_findById later (grade_student g)) as [d|];
      cbv beta iota; [|discriminate].
    destruct (summaryGate user d) as [r|] eqn:Hg; cbv beta iota.
    + unfold summaryGate in Hg.
      repeat match type of Hg with
        | context [match ?x with _ => _ end] => destruct x
        end; try discriminate; injection Hg as <-; discriminate.
    + rewrite Hpop. cbv beta iota. discriminate.
  - intros d Hd Hg. rewrite Hd, Hg, Hpop. reflexivity.
Qed.

Lemma deleting_a_course_breaks_summaries_witness :
  grades Cases.orphanStore = grades Cases.gradedStore /\
  Course_findById Cases.orphanStore "c1" = None /\
  forall later,
    In (Cases.examGrade "g7" "t1") (grades later) ->
    Course_findById later "c1" = None ->
    (forall s, gradeSummary later Scenario.admin
                 (grade_student (Cases.examGrade "g7" "t1")) <> Ok200 s) /\
    (forall d, Student_findById later
                 (grade_student (Cases.examGrade "g7" "t1")) = Some d ->
               summaryGate Scenario.admin d = None ->
               gradeSummary later Scenario.admin
                 (grade_student (Cases.examGrade "g7" "t1")) = Thrown).
Proof.
  apply (deleting_a_course_breaks_summaries Cases.gradedStore Cases.orphanStore
           "c1" (Cases.examGrade "g7" "t1") Scenario.admin).
  - reflexivity.
  - now left.
  - reflexivity.
Defined.

(** The summary that is lost when the course of the one grade of "s1" is
    deleted. *)
Example orphan_summary_throws :
  gradeSummary Cases.orphanStore Scenario.admin "s1" = Thrown.
Proof. reflexivity. Qed.

End SummaryLaws.
